(** * Validation pipeline of the data-annotation web app

    A shallow embedding of [make_data_privacy_rag_web_app.py]: the Python
    values the script handles, the effects it performs (messages rendered
    on the page, list objects on the heap, files of the working directory),
    its validators, its persistence layer and the gated page script. *)

From Stdlib Require Import ZArith String Ascii List Bool Lia.
From Stdlib Require Import DecimalString.
From Stdlib Require DecimalPos DecimalZ.
From Stdlib Require Import Floats.SpecFloat.
From stdpp Require Import base option list gmap strings.

Import ListNotations.
Set Warnings "-register-all".
Local Open Scope string_scope.
Local Open Scope list_scope.
Local Open Scope Z_scope.

(** ** Python strings

    A [str] is modelled as a Rocq [string] whose characters are the code
    points below 256. *)

Module PyStr.

(** [str.isspace] on one code point below 256. *)
Definition isspace (c : ascii) : bool :=
  let n := nat_of_ascii c in
  ((9 <=? n)%nat && (n <=? 13)%nat)
  || ((28 <=? n)%nat && (n <=? 32)%nat)
  || (n =? 133)%nat || (n =? 160)%nat.

Fixpoint lstrip (s : string) : string :=
  match s with
  | EmptyString => EmptyString
  | String c s' => if isspace c then lstrip s' else s
  end.

Fixpoint rstrip (s : string) : string :=
  match s with
  | EmptyString => EmptyString
  | String c s' =>
      match rstrip s' with
      | EmptyString => if isspace c then EmptyString else String c EmptyString
      | r => String c r
      end
  end.

(** [s.strip()] *)
Definition strip (s : string) : string := rstrip (lstrip s).

(** Truth value of a [str]: non-empty. *)
Definition truthy (s : string) : bool :=
  match s with EmptyString => false | _ => true end.

(** [needle in hay] on two strings: substring search. *)
Fixpoint contains (needle hay : string) : bool :=
  String.prefix needle hay
  || match hay with
     | EmptyString => false
     | String _ hay' => contains needle hay'
     end.

(** [str(n)] for an [int]. *)
Definition of_int (n : Z) : string := NilZero.string_of_int (Z.to_int n).

(** [s.encode('utf-8')] for code points below 256. *)
Definition utf8_char (c : ascii) : list ascii :=
  let n := N_of_ascii c in
  if (n <? 128)%N then [c]
  else [ascii_of_N (N.lor 192 (N.shiftr n 6));
        ascii_of_N (N.lor 128 (N.land n 63))].

Definition encode_utf8 (s : string) : list ascii :=
  flat_map utf8_char (list_ascii_of_string s).

End PyStr.

(** ** Python values

    What [json.loads] can return, and what the script stores in records:
    [None], booleans, integers, floats, strings, lists and dictionaries with
    string keys (kept in insertion order). *)

Inductive pyval : Type :=
| PNone
| PBool (b : bool)
| PInt (n : Z)
| PFloat (f : spec_float)
| PStr (s : string)
| PList (l : list pyval)
| PDict (d : list (string * pyval)).

Abbreviation pydict := (list (string * pyval)).

Definition PFalse : pyval := PBool false.

Module Py.

(** [bool(v)] *)
Definition truthy (v : pyval) : bool :=
  match v with
  | PNone => false
  | PBool b => b
  | PInt n => negb (n =? 0)
  | PFloat (S754_zero _) => false
  | PFloat _ => true
  | PStr s => PyStr.truthy s
  | PList l => match l with [] => false | _ => true end
  | PDict d => match d with [] => false | _ => true end
  end.

(** [k == v] for a string [k]: only an equal string compares equal. *)
Definition eq_str (k : string) (v : pyval) : bool :=
  match v with
  | PStr s => String.eqb k s
  | _ => false
  end.

(** [d.get(k, None)] as an option; the first binding of [k]. *)
Fixpoint dict_get (k : string) (d : pydict) : option pyval :=
  match d with
  | [] => None
  | (k', v) :: d' => if String.eqb k k' then Some v else dict_get k d'
  end.

Definition dict_has (k : string) (d : pydict) : bool :=
  existsb (fun kv => String.eqb k (fst kv)) d.

(** [d[k] = v]: overwrite in place, or append a new binding. *)
Fixpoint dict_set (k : string) (v : pyval) (d : pydict) : pydict :=
  match d with
  | [] => [(k, v)]
  | (k', v') :: d' =>
      if String.eqb k k' then (k', v) :: d' else (k', v') :: dict_set k v d'
  end.

Definition dict_keys (d : pydict) : list string := map fst d.

End Py.

(** ** Effects

    The script renders page elements (Streamlit calls), reads and writes
    files of the working directory, and holds the category list as a list
    object that several names may refer to.  A run threads a [world]; a
    Python exception that nothing catches stops the run and keeps the world
    as it was when the exception was raised. *)

Inductive exn : Type :=
| TypeError | AttributeError | KeyError | IndexError | OSError | NameError
| JSONDecodeError | UnicodeDecodeError | ValueError | RecursionError.

(** What one Streamlit call puts on the page. *)
Inductive widget : Type :=
| Title (body : string)
| Markdown (body : string)
| TextInput (label : string)
| SetPageConfig
| DownloadButton (label : string) (data : list ascii) (file_name : string)
| DataEditor (shown : pyval) (columns : list string)
| Error (body : string)
| Code (body : string)
| TextArea (label : string)
| StJson (body : pyval)
| Button (label : string)
| Sidebar (inner : widget).

(** A directory entry: a regular file with its text, a regular file whose
    bytes are no text in the encoding [open] reads with, or a
    sub-directory. *)
Inductive entry : Type :=
| File (content : string)
| Undecodable
| Dir.

(** A reference to a list object. *)
Abbreviation loc := nat.

Record world : Type := World {
  page : list widget;              (* rendered so far, oldest first *)
  heap : list (list string);       (* list objects, by reference *)
  cwd : gmap string entry;         (* the working directory *)
  entropy : list Z;                (* what the random generator yields next *)
  clock : spec_float               (* what [time()] reads *)
}.

Definition set_page (f : list widget -> list widget) (w : world) : world :=
  World (f (page w)) (heap w) (cwd w) (entropy w) (clock w).
Definition set_heap (f : list (list string) -> list (list string)) (w : world) : world :=
  World (page w) (f (heap w)) (cwd w) (entropy w) (clock w).
Definition set_cwd (f : gmap string entry -> gmap string entry) (w : world) : world :=
  World (page w) (heap w) (f (cwd w)) (entropy w) (clock w).
Definition set_entropy (f : list Z -> list Z) (w : world) : world :=
  World (page w) (heap w) (cwd w) (f (entropy w)) (clock w).

Inductive res (A : Type) : Type :=
| Val (a : A)
| Raise (e : exn).
Arguments Val {A} a.
Arguments Raise {A} e.

Definition M (A : Type) : Type := world -> res A * world.

#[export] Instance M_ret : MRet M := fun A a w => (Val a, w).
#[export] Instance M_bind : MBind M := fun A B k c w =>
  match c w with
  | (Val a, w') => k a w'
  | (Raise e, w') => (Raise e, w')
  end.

Definition raise {A} (e : exn) : M A := fun w => (Raise e, w).

Definition lift {A} (r : res A) : M A := fun w => (r, w).

(** Append one element to the page. *)
Definition render (x : widget) : M unit := fun w =>
  (Val tt, set_page (fun p => p ++ [x]) w).

(** [streamlit.error(msg)] *)
Definition error (msg : string) : M unit := render (Error msg).

(** A new list object; the reference to it. *)
Definition alloc (l : list string) : M loc := fun w =>
  (Val (length (heap w)), set_heap (fun h => h ++ [l]) w).

(** Read the list a reference points to. *)
Definition load (r : loc) : M (list string) := fun w =>
  match heap w !! r with
  | Some l => (Val l, w)
  | None => (Raise NameError, w)
  end.

(** [all([f(x) for x in l])]: the comprehension runs [f] on every element
    before [all] looks at the results. *)
Fixpoint comprehension {A B} (f : A -> M B) (l : list A) : M (list B) :=
  match l with
  | [] => mret []
  | x :: l' => y ← f x; ys ← comprehension f l'; mret (y :: ys)
  end.

(** ** Validators *)

Definition at_least_4 : string := "You must choose at least 4 categories".
Definition at_most_7 : string := "You must choose at most 7 categories".

(** [check_categories]: the two assignments to [categories] bind the local
    name to new list objects; the caller's list is only read. *)
Definition check_categories (categories : loc) : M bool :=
  xs ← load categories;
  categories ← alloc (map PyStr.strip
                  (List.filter (fun x => PyStr.truthy x && PyStr.truthy (PyStr.strip x)) xs));
  xs ← load categories;
  categories ← alloc (elements (list_to_set xs : gset string));
  xs ← load categories;
  if (length xs <? 4)%nat then
    error at_least_4;; mret false
  else if (7 <? length xs)%nat then
    error at_most_7;; mret false
  else mret true.

(** The count the specification speaks of: trim each entry, drop the empty
    strings, remove duplicates, count what is left. *)
Definition spec_labels (entries : list string) : list string :=
  remove_dups (List.filter PyStr.truthy (map PyStr.strip entries)).

Definition spec_count (entries : list string) : nat :=
  length (spec_labels entries).

(** ** Operations on values that may raise *)

Module PyOp.

(** [k in v] for a string [k]: key membership on a dictionary, element
    membership on a list, substring search on a string; the other values
    are not containers and raise [TypeError]. *)
Definition contains (k : string) (v : pyval) : res bool :=
  match v with
  | PDict d => Val (Py.dict_has k d)
  | PList l => Val (existsb (Py.eq_str k) l)
  | PStr s => Val (PyStr.contains k s)
  | _ => Raise TypeError
  end.

(** [v[k]] for a string [k]. *)
Definition getitem (v : pyval) (k : string) : res pyval :=
  match v with
  | PDict d => match Py.dict_get k d with
               | Some x => Val x
               | None => Raise KeyError
               end
  | _ => Raise TypeError
  end.

(** [v[0]] *)
Definition first (v : pyval) : res pyval :=
  match v with
  | PList (x :: _) => Val x
  | PList [] => Raise IndexError
  | PStr (String c _) => Val (PStr (String c EmptyString))
  | PStr EmptyString => Raise IndexError
  | PDict _ => Raise KeyError
  | _ => Raise TypeError
  end.

(** [v.keys()] *)
Definition keys (v : pyval) : res (list string) :=
  match v with
  | PDict d => Val (Py.dict_keys d)
  | _ => Raise AttributeError
  end.

(** The elements [for x in v] visits. *)
Definition iter (v : pyval) : res (list pyval) :=
  match v with
  | PList l => Val l
  | PDict d => Val (map PStr (Py.dict_keys d))
  | PStr s => Val (map (fun c => PStr (String c EmptyString)) (list_ascii_of_string s))
  | _ => Raise TypeError
  end.

(** [{**v, k1: x1, k2: x2}]: [v] must be a mapping. *)
Definition spread (v : pyval) (extra : pydict) : res pyval :=
  match v with
  | PDict d => Val (PDict (fold_left (fun acc kv => Py.dict_set (fst kv) (snd kv) acc) extra d))
  | _ => Raise TypeError
  end.

End PyOp.

(** ** The [json] module

    [json.loads] and [json.dumps] belong to the Python library; the script
    is modelled over any implementation of them.  [json_loads] answers
    [None] where the library raises, and [json_loads_error] is what it
    raises there: [JSONDecodeError] on a text it cannot read, [ValueError]
    or [RecursionError] on a text beyond the limits of the interpreter.
    The library reads more than JSON: it takes [NaN], [Infinity] and
    [-Infinity] for floats. *)

Class Json : Type := {
  json_loads : string -> option pyval;
  json_loads_error : string -> exn;
  json_dumps : option nat -> pyval -> string   (* [indent], value *)
}.

Section Script.

Context `{Json}.

Definition invalid_json : string := "You must provide a valid JSON here.".
Definition no_article_text : string := "You must provide an article text.".
Definition no_mapping : string :=
  "You must provide a sensitive_category_to_instances mapping.".
Definition not_a_list : string := "You must provide a list of Q&A pairs.".
Definition dq : string := String (ascii_of_nat 34) EmptyString.
Definition nl : string := String (ascii_of_nat 10) EmptyString.
Definition incomplete_pair : string :=
  "Every Q&A pair must have a " +:+ dq +:+ "question_text" +:+ dq +:+
  " and an " +:+ dq +:+ "answer_text" +:+ dq +:+ " entry.".
Definition no_llm : string := "You must provide the LLM name.".

(** [check_article_data]: the bare [except] catches whatever
    [json.loads] raises; the two [in] tests run outside the [try]. *)
Definition check_article_data (raw : string) : M pyval :=
  match json_loads raw with
  | None => error invalid_json;; mret PFalse
  | Some article_data =>
      has_text ← lift (PyOp.contains "article_text" article_data);
      if negb has_text then error no_article_text;; mret PFalse
      else
        has_map ← lift (PyOp.contains "sensitive_category_to_instances" article_data);
        if negb has_map then error no_mapping;; mret PFalse
        else mret article_data
  end.

(** One element of the comprehension in [check_qa_data]:
    ['question_text' in x and 'answer_text' in x]. *)
Definition has_both_texts (x : pyval) : M bool :=
  q ← lift (PyOp.contains "question_text" x);
  if q : bool then lift (PyOp.contains "answer_text" x) else mret false.

Definition check_qa_data (raw : string) : M pyval :=
  match json_loads raw with
  | None => error invalid_json;; mret PFalse
  | Some article_data =>
      match article_data with
      | PList l =>
          flags ← comprehension has_both_texts l;
          if negb (forallb id flags) then error incomplete_pair;; mret PFalse
          else mret article_data
      | _ => error not_a_list;; mret PFalse
      end
  end.

Definition check_metadata (data : pydict) : M pyval :=
  if negb (Py.truthy (default PNone (Py.dict_get "LLM" data))) then
    error no_llm;; mret PFalse
  else mret (PDict data).

(** ** Persistence *)

Definition record_prefix : string := "annotated-synthetic-article".

(** [os.listdir('.')] *)
Definition listdir : M (list string) := fun w =>
  (Val (map fst (map_to_list (cwd w))), w).

(** [open(x, 'r').read()]: a directory cannot be opened, and bytes that
    are no text cannot be decoded. *)
Definition read_file (x : string) : M string := fun w =>
  match cwd w !! x with
  | Some (File content) => (Val content, w)
  | Some Undecodable => (Raise UnicodeDecodeError, w)
  | Some Dir | None => (Raise OSError, w)
  end.

(** [open(x, 'w+')] followed by one [write]: the file is created or
    truncated; a directory of that name cannot be opened. *)
Definition write_file (x content : string) : M unit := fun w =>
  match cwd w !! x with
  | Some Dir => (Raise OSError, w)
  | _ => (Val tt, set_cwd (fun d => <[x := File content]> d) w)
  end.

(** [json.loads] where nothing catches its exception. *)
Definition loads (raw : string) : M pyval :=
  match json_loads raw with
  | Some v => mret v
  | None => raise (json_loads_error raw)
  end.

(** [random.randint(a, b)]: an integer of [a..b], both ends included.  The
    world holds what the generator yields next; the value is brought into
    the range, so that every integer of the range can come out and nothing
    else can. *)
Definition randint (a b : Z) : M Z := fun w =>
  (Val (a + hd 0 (entropy w) mod (b - a + 1)), set_entropy (@tl Z) w).

(** [time()] *)
Definition time : M spec_float := fun w => (Val (clock w), w).

Definition get_articles_data : M (list ascii) :=
  files ← listdir;
  let files := List.filter (PyStr.contains record_prefix) files in
  data ← comprehension (fun x => text ← read_file x; loads text) files;
  mret (PyStr.encode_utf8 (json_dumps None (PList data))).

Definition save_article_data (data : pyval) : M unit :=
  n ← randint 0 10000;
  write_file (record_prefix +:+ PyStr.of_int n +:+ ".json") (json_dumps None data).

End Script.

(** ** Prompt builders *)

Record PromptBuilder : Type := {
  article_topic : string;
  sensitive_categories : loc;
  num_words : Z
}.

Section Prompts.

Context `{Json}.

(** The dictionary [json_format] of [get_prompt]. *)
Definition json_format (categories : list string) : pyval :=
  PDict [("article_text", PStr "string");
         ("sensitive_category_to_instances",
          PDict (fold_left (fun d k => Py.dict_set k (PStr "string[]") d) categories []))].

(** The text [get_prompt] returns, given the two things it reads from
    [self.sensitive_categories]. *)
Definition prompt_text (topic : string) (words : Z) (categories : list string)
    (format : pyval) : string :=
  "You will help me generate some data for a content moderation experiment." +:+ nl +:+
  "Write a long (~ " +:+ PyStr.of_int words +:+ " words) article about " +:+
  topic +:+ "," +:+ nl +:+
  "containing examples of the following (synthetic) sensitive information:" +:+ nl +:+ nl +:+
  json_dumps (Some 2%nat) (PList (map PStr categories)) +:+ nl +:+ nl +:+
  "For each of the aforementioned categories, map it to the corresponding entities" +:+ nl +:+
  "in the text that you generated." +:+ nl +:+ nl +:+
  "Of course, there is no need to explain that all of the " +:+ dq +:+
  "sensitive information" +:+ dq +:+ nl +:+
  "is entirely fictional and synthetic." +:+ nl +:+ nl +:+
  "Provide your output in the following JSON format:" +:+ nl +:+ nl +:+
  "```json" +:+ nl +:+
  json_dumps (Some 2%nat) format +:+ nl +:+
  "```".

Definition get_prompt (self : PromptBuilder) : M string :=
  ks ← load (sensitive_categories self);
  let format := json_format ks in
  cs ← load (sensitive_categories self);
  mret (prompt_text (article_topic self) (num_words self) cs format).

(** The last [+] joins a string with [article_text], which the caller
    takes out of the pasted JSON: anything but a string raises. *)
Definition build_qa_prompt (article_text : pyval) (num_questions : Z) : res string :=
  match article_text with
  | PStr text =>
      Val ("Generate " +:+ PyStr.of_int num_questions +:+
           " interesting question and answer pairs " +:+
           "about the following article." +:+ nl +:+ nl +:+
           "Provide your output as a JSON list, each element having the following structure" +:+
           nl +:+ nl +:+
           json_dumps (Some 2%nat)
             (PDict [("question_text", PStr "str"); ("answer_text", PStr "str")]) +:+
           nl +:+ nl +:+
           "The article:" +:+ nl +:+ nl +:+
           text)
  | _ => Raise TypeError
  end.

End Prompts.

(** ** The page script

    Streamlit runs the script from top to bottom on every interaction; a
    widget call renders the widget and returns what the user has entered in
    it.  A [session] holds those entries. *)

Record session : Type := {
  input_topic : string;
  input_categories : list string;
  input_article_data : string;
  input_qa_data : string;
  input_edited_qas : pyval;
  input_metadata : pydict;
  input_submit : bool
}.

Section App.

Context `{Json}.
Variable user : session.

Definition text_input (label : string) : M string :=
  render (TextInput label);; mret (input_topic user).

(** The category editor hands back a list object of its own. *)
Definition categories_editor (initial : list string) : M loc :=
  render (DataEditor (PList (map PStr initial)) []);;
  alloc (input_categories user).

Definition article_area (label : string) : M string :=
  render (TextArea label);; mret (input_article_data user).

Definition qa_area (label : string) : M string :=
  render (TextArea label);; mret (input_qa_data user).

Definition qa_editor (shown : list pyval) (columns : list string) : M pyval :=
  render (DataEditor (PList shown) columns);; mret (input_edited_qas user).

Definition metadata_editor (initial : pydict) : M pydict :=
  render (DataEditor (PDict initial) []);; mret (input_metadata user).

Definition button (label : string) : M bool :=
  render (Button label);; mret (input_submit user).

Definition markdown (body : string) : M unit := render (Markdown body).
Definition code (body : string) : M unit := render (Code body).

(** The record handed to [save_article_data] at the call site. *)
Definition annotated_record (article_data edited_qas qas : pyval)
    (metadata : pydict) (created_at : spec_float) : pyval :=
  PDict [("article_data", article_data);
         ("edited_qas", edited_qas);
         ("qas", qas);
         ("metadata", PDict (Py.dict_set "created_at" (PFloat created_at) metadata))].

(** Lines 215-257: what the script does once [check_qa_data] has returned
    a truthy [qas]. *)
Definition annotation_step (article_data qas : pyval) : M unit :=
  markdown "## Identify sensitive data";;
  markdown "Reword the questions and answers to remove all sensitive data.";;
  markdown "### Sensitive data index";;
  markdown "To check the sensitive data.";;
  index ← lift (PyOp.getitem article_data "sensitive_category_to_instances");
  render (StJson index);;
  pairs ← lift (PyOp.iter qas);
  qas_with_extra_cols ← comprehension (fun qa_pair =>
      lift (PyOp.spread qa_pair [("completeness_keywords", PStr "");
                                 ("relevant_sensitive_categories", PStr "")])) pairs;
  head ← lift (PyOp.first qas);
  columns ← lift (PyOp.keys head);
  edited_qas ← qa_editor qas_with_extra_cols columns;
  markdown "## Submit";;
  markdown "Before submitting, tell us what LLM you used and optional generation parameters, and submit.";;
  metadata ← metadata_editor [("LLM", PStr "")];
  checked ← check_metadata metadata;
  if Py.truthy checked then
    pressed ← button "Submit";
    if pressed : bool then
      now ← time;
      save_article_data (annotated_record article_data edited_qas qas metadata now)
    else mret tt
  else mret tt.

(** Lines 203-213: what the script does once [check_article_data] has
    returned a truthy [article_data]. *)
Definition qa_step (article_data : pyval) : M unit :=
  markdown "## Q&A Prompt";;
  markdown "Copy-paste the following into your LLM and come back here.";;
  text ← lift (PyOp.getitem article_data "article_text");
  prompt ← lift (build_qa_prompt text 10);
  code prompt;;
  markdown "## Generated Q&A Pairs";;
  markdown "Paste the output of the prompt here:";;
  raw2 ← qa_area "_Generated Q&A Pairs_";
  qas ← check_qa_data raw2;
  if Py.truthy qas then annotation_step article_data qas else mret tt.

(** Lines 190-201: what the script does once [check_categories] has
    accepted. *)
Definition article_step (topic : string) (categories : loc) : M unit :=
  prompt ← get_prompt {| article_topic := topic;
                         sensitive_categories := categories;
                         num_words := 1000 |};
  markdown "## Article Generation prompt";;
  markdown (nl +:+ "        Please review the following prompt before copy-pasting it into your " +:+
            nl +:+ "        favorite LLM chat service. When you're done, come back here." +:+
            nl +:+ "        ");;
  code prompt;;
  markdown "## Generated Article";;
  markdown "Paste the output of the prompt here:";;
  raw1 ← article_area "_Generated article data_";
  article_data ← check_article_data raw1;
  if Py.truthy article_data then qa_step article_data else mret tt.

(** The whole script, lines 155-257. *)
Definition app : M unit :=
  render (Title "Data Annotation");;
  markdown (nl +:+ "Come up with one topic that can contain sensitive data. " +:+
            nl +:+ "The topic will be used to generate a synthetic article. " +:+
            nl +:+ "Be creative with your topic!" +:+ nl);;
  topic ← text_input "_Topic choice_";
  render SetPageConfig;;
  render (Sidebar (Markdown "# Download Annotated Data"));;
  data ← get_articles_data;
  render (Sidebar (DownloadButton "Download Annotated Data" data "data.json"));;
  if PyStr.truthy topic then
    markdown ("Come up with at least 4 categories of personal information that should appear in a synthetic article about " +:+
              dq +:+ topic +:+ dq +:+ ".");;
    categories ← categories_editor ["Names of ..."];
    accepted ← check_categories categories;
    if accepted : bool then article_step topic categories else mret tt
  else mret tt.

End App.

(** One run of the script on a fresh page. *)
Definition run `{Json} (user : session) (files : gmap string entry)
    (rnd : list Z) (now : spec_float) : res unit * world :=
  app user (World [] [] files rnd now).

(** ** A reference [json] for the strings of this model

    A reader and a writer that follow the Python library on JSON texts
    whose strings hold code points below 256 and whose numbers are written
    without fraction and exponent, and on the three constants [NaN],
    [Infinity] and [-Infinity], which the library reads though they are no
    JSON.  The reader answers [None] on every other text; the writer prints
    a finite float with its exact decimal expansion where Python prints the
    shortest decimal that reads back as the same float.  The results below
    hold for every [Json]; this one gives them concrete instances. *)

Module RefJson.

Definition quote : ascii := ascii_of_nat 34.
Definition backslash : ascii := ascii_of_nat 92.

Definition is_ws (c : ascii) : bool :=
  match nat_of_ascii c with
  | 32%nat | 9%nat | 10%nat | 13%nat => true
  | _ => false
  end.

Fixpoint skip_ws (s : list ascii) : list ascii :=
  match s with
  | c :: r => if is_ws c then skip_ws r else s
  | [] => []
  end.

Definition digit (c : ascii) : option Z :=
  let n := Z.of_nat (nat_of_ascii c) in
  if (48 <=? n) && (n <=? 57) then Some (n - 48) else None.

Fixpoint digits (acc : Z) (s : list ascii) : Z * list ascii :=
  match s with
  | c :: r => match digit c with
              | Some d => digits (10 * acc + d) r
              | None => (acc, s)
              end
  | [] => (acc, [])
  end.

Definition float_tail (s : list ascii) : bool :=
  match s with
  | c :: _ => Ascii.eqb c "." || Ascii.eqb c "e" || Ascii.eqb c "E"
  | [] => false
  end.

Definition parse_int (s : list ascii) : option (pyval * list ascii) :=
  let '(neg, s1) := match s with
                    | c :: r => if Ascii.eqb c "-" then (true, r) else (false, s)
                    | [] => (false, s)
                    end in
  match s1 with
  | c :: r =>
      d ← digit c;
      let '(n, r') := if d =? 0 then (0, r) else digits d r in
      if float_tail r' then None
      else Some (PInt (if neg : bool then - n else n), r')
  | [] => None
  end.

Definition hex (c : ascii) : option N :=
  let n := N_of_ascii c in
  if (48 <=? n)%N && (n <=? 57)%N then Some (n - 48)%N
  else if (97 <=? n)%N && (n <=? 102)%N then Some (n - 87)%N
  else if (65 <=? n)%N && (n <=? 70)%N then Some (n - 55)%N
  else None.

Definition unescape (e : ascii) : option ascii :=
  if Ascii.eqb e quote then Some quote
  else if Ascii.eqb e backslash then Some backslash
  else if Ascii.eqb e "/" then Some "/"%char
  else if Ascii.eqb e "b" then Some (ascii_of_nat 8)
  else if Ascii.eqb e "f" then Some (ascii_of_nat 12)
  else if Ascii.eqb e "n" then Some (ascii_of_nat 10)
  else if Ascii.eqb e "r" then Some (ascii_of_nat 13)
  else if Ascii.eqb e "t" then Some (ascii_of_nat 9)
  else None.

(** The characters of a string, after its opening quote. *)
Fixpoint parse_chars (s : list ascii) : option (string * list ascii) :=
  match s with
  | [] => None
  | c :: r =>
      if Ascii.eqb c quote then Some (EmptyString, r)
      else if Ascii.eqb c backslash then
        match r with
        | e :: r' =>
            match unescape e with
            | Some c' => '(str, rest) ← parse_chars r'; Some (String c' str, rest)
            | None =>
                if Ascii.eqb e "u" then
                  match r' with
                  | h1 :: h2 :: h3 :: h4 :: r'' =>
                      a ← hex h1; b ← hex h2; c ← hex h3; d ← hex h4;
                      if ((a =? 0) && (b =? 0))%N then
                        '(str, rest) ← parse_chars r'';
                        Some (String (ascii_of_N (16 * c + d)) str, rest)
                      else None
                  | _ => None
                  end
                else None
            end
        | [] => None
        end
      else if (nat_of_ascii c <? 32)%nat then None
      else '(str, rest) ← parse_chars r; Some (String c str, rest)
  end.

Definition literal (word : string) (v : pyval) (s : list ascii)
    : option (pyval * list ascii) :=
  let w := list_ascii_of_string word in
  if decide (take (length w) s = w) then Some (v, drop (length w) s) else None.

(** Fold the members in order: a repeated key keeps its first place and
    takes its last value, as the dictionary the library builds. *)
Definition to_dict (members : pydict) : pydict :=
  fold_left (fun acc kv => Py.dict_set (fst kv) (snd kv) acc) members [].

Fixpoint parse_value (fuel : nat) (s : list ascii) : option (pyval * list ascii) :=
  match fuel with
  | O => None
  | S fuel =>
      match s with
      | [] => None
      | c :: r =>
          if Ascii.eqb c quote then
            '(str, rest) ← parse_chars r; Some (PStr str, rest)
          else if Ascii.eqb c "[" then
            match skip_ws r with
            | c' :: r' =>
                if Ascii.eqb c' "]" then Some (PList [], r')
                else '(l, rest) ← parse_items fuel (c' :: r'); Some (PList l, rest)
            | [] => None
            end
          else if Ascii.eqb c "{" then
            match skip_ws r with
            | c' :: r' =>
                if Ascii.eqb c' "}" then Some (PDict [], r')
                else '(d, rest) ← parse_members fuel (c' :: r'); Some (PDict (to_dict d), rest)
            | [] => None
            end
          else if Ascii.eqb c "n" then literal "null" PNone s
          else if Ascii.eqb c "t" then literal "true" (PBool true) s
          else if Ascii.eqb c "f" then literal "false" (PBool false) s
          else if Ascii.eqb c "N" then literal "NaN" (PFloat S754_nan) s
          else if Ascii.eqb c "I" then literal "Infinity" (PFloat (S754_infinity false)) s
          else
            match literal "-Infinity" (PFloat (S754_infinity true)) s with
            | Some constant => Some constant
            | None => parse_int s
            end
      end
  end
with parse_items (fuel : nat) (s : list ascii) : option (list pyval * list ascii) :=
  match fuel with
  | O => None
  | S fuel =>
      '(v, r) ← parse_value fuel s;
      match skip_ws r with
      | c :: r' =>
          if Ascii.eqb c "," then
            '(l, rest) ← parse_items fuel (skip_ws r'); Some (v :: l, rest)
          else if Ascii.eqb c "]" then Some ([v], r')
          else None
      | [] => None
      end
  end
with parse_members (fuel : nat) (s : list ascii) : option (pydict * list ascii) :=
  match fuel with
  | O => None
  | S fuel =>
      match s with
      | c :: r =>
          if Ascii.eqb c quote then
            '(k, r1) ← parse_chars r;
            match skip_ws r1 with
            | c1 :: r2 =>
                if Ascii.eqb c1 ":" then
                  '(v, r3) ← parse_value fuel (skip_ws r2);
                  match skip_ws r3 with
                  | c3 :: r4 =>
                      if Ascii.eqb c3 "," then
                        '(d, rest) ← parse_members fuel (skip_ws r4);
                        Some ((k, v) :: d, rest)
                      else if Ascii.eqb c3 "}" then Some ([(k, v)], r4)
                      else None
                  | [] => None
                  end
                else None
            | [] => None
            end
          else None
      | [] => None
      end
  end.

Definition loads (raw : string) : option pyval :=
  let s := list_ascii_of_string raw in
  let fuel := S (2 * length s) in
  '(v, rest) ← parse_value fuel (skip_ws s);
  match skip_ws rest with
  | [] => Some v
  | _ => None
  end.

(** *** Writer *)

Definition hex_digit (n : N) : ascii :=
  if (n <? 10)%N then ascii_of_N (48 + n) else ascii_of_N (87 + n).

Definition escape_char (c : ascii) : string :=
  let n := N_of_ascii c in
  if Ascii.eqb c quote then String backslash (String quote EmptyString)
  else if Ascii.eqb c backslash then String backslash (String backslash EmptyString)
  else if (n =? 10)%N then String backslash "n"
  else if (n =? 13)%N then String backslash "r"
  else if (n =? 9)%N then String backslash "t"
  else if (n =? 8)%N then String backslash "b"
  else if (n =? 12)%N then String backslash "f"
  else if ((n <? 32) || (126 <? n))%N then
    String backslash
      ("u00" +:+ String (hex_digit (n / 16)) (String (hex_digit (n mod 16)) EmptyString))
  else String c EmptyString.

Definition dump_str (s : string) : string :=
  String quote
    (fold_right (fun c acc => escape_char c +:+ acc) (String quote EmptyString)
       (list_ascii_of_string s)).

Fixpoint drop_zeros (s : list ascii) : list ascii :=
  match s with
  | c :: r => if Ascii.eqb c "0" then drop_zeros r else s
  | [] => []
  end.

(** Drop the zeros that end a fraction, keeping one digit. *)
Definition trim_fraction (frac : string) : string :=
  let kept := rev (drop_zeros (rev (list_ascii_of_string frac))) in
  match kept with
  | [] => "0"
  | _ => string_of_list_ascii kept
  end.

Definition dump_float (f : spec_float) : string :=
  match f with
  | S754_nan => "NaN"
  | S754_infinity s => if s then "-Infinity" else "Infinity"
  | S754_zero s => if s then "-0.0" else "0.0"
  | S754_finite s m e =>
      let sign := if s then "-" else "" in
      if 0 <=? e then sign +:+ PyStr.of_int (Z.pos m * 2 ^ e) +:+ ".0"
      else
        let k := Z.to_nat (- e) in
        let ds := list_ascii_of_string (PyStr.of_int (Z.pos m * 5 ^ (- e))) in
        let padded := repeat "0"%char (S k - length ds) ++ ds in
        let cut := (length padded - k)%nat in
        sign +:+ string_of_list_ascii (take cut padded) +:+ "." +:+
        trim_fraction (string_of_list_ascii (drop cut padded))
  end.

Definition spaces (n : nat) : string := string_of_list_ascii (repeat " "%char n).

(** What opens, separates and closes the items of a container written at
    nesting [level]. *)
Definition opening (indent : option nat) (level : nat) : string :=
  match indent with
  | Some n => nl +:+ spaces (n * S level)
  | None => ""
  end.
Definition separator (indent : option nat) (level : nat) : string :=
  match indent with
  | Some n => "," +:+ nl +:+ spaces (n * S level)
  | None => ", "
  end.
Definition closing (indent : option nat) (level : nat) : string :=
  match indent with
  | Some n => nl +:+ spaces (n * level)
  | None => ""
  end.

Fixpoint dump (indent : option nat) (level : nat) (v : pyval) {struct v} : string :=
  match v with
  | PNone => "null"
  | PBool b => if b then "true" else "false"
  | PInt n => PyStr.of_int n
  | PFloat f => dump_float f
  | PStr s => dump_str s
  | PList l =>
      match l with
      | [] => "[]"
      | _ =>
          "[" +:+ opening indent level +:+
          (fix items (l : list pyval) : string :=
             match l with
             | [] => ""
             | x :: l' =>
                 dump indent (S level) x +:+
                 match l' with
                 | [] => ""
                 | _ => separator indent level +:+ items l'
                 end
             end) l +:+
          closing indent level +:+ "]"
      end
  | PDict d =>
      match d with
      | [] => "{}"
      | _ =>
          "{" +:+ opening indent level +:+
          (fix members (d : pydict) : string :=
             match d with
             | [] => ""
             | (k, x) :: d' =>
                 dump_str k +:+ ": " +:+ dump indent (S level) x +:+
                 match d' with
                 | [] => ""
                 | _ => separator indent level +:+ members d'
                 end
             end) d +:+
          closing indent level +:+ "}"
      end
  end.

Definition dumps (indent : option nat) (v : pyval) : string := dump indent 0 v.

(** On the texts of its domain the library raises nothing but
    [JSONDecodeError]. *)
#[export] Instance reference : Json :=
  {| json_loads := loads;
     json_loads_error := fun _ => JSONDecodeError;
     json_dumps := dumps |}.

End RefJson.

(** ** JSON texts

    The grammar of RFC 8259, as a recogniser: what the specification calls
    valid JSON.  A text is white space, a value, white space; a value is
    [false], [null], [true], an object, an array, a number or a string. *)

Module Rfc8259.

Definition is_digit (c : ascii) : bool :=
  match RefJson.digit c with
  | Some _ => true
  | None => false
  end.

Definition is_hex (c : ascii) : bool :=
  match RefJson.hex c with
  | Some _ => true
  | None => false
  end.

(** The character after a backslash, [u] apart. *)
Definition is_escape (c : ascii) : bool :=
  match RefJson.unescape c with
  | Some _ => true
  | None => false
  end.

Fixpoint skip_digits (s : list ascii) : list ascii :=
  match s with
  | c :: r => if is_digit c then skip_digits r else s
  | [] => []
  end.

(** [1*DIGIT] *)
Definition digits1 (s : list ascii) : option (list ascii) :=
  match s with
  | c :: r => if is_digit c then Some (skip_digits r) else None
  | [] => None
  end.

(** [int = zero / ( digit1-9 *DIGIT )] *)
Definition int (s : list ascii) : option (list ascii) :=
  match s with
  | c :: r =>
      if Ascii.eqb c "0" then Some r
      else if is_digit c then Some (skip_digits r)
      else None
  | [] => None
  end.

(** [frac = decimal-point 1*DIGIT], optional *)
Definition frac (s : list ascii) : option (list ascii) :=
  match s with
  | c :: r => if Ascii.eqb c "." then digits1 r else Some s
  | [] => Some s
  end.

(** [exp = e [ minus / plus ] 1*DIGIT], optional *)
Definition exp (s : list ascii) : option (list ascii) :=
  match s with
  | c :: r =>
      if Ascii.eqb c "e" || Ascii.eqb c "E" then
        match r with
        | c' :: r' =>
            if Ascii.eqb c' "+" || Ascii.eqb c' "-" then digits1 r' else digits1 r
        | [] => None
        end
      else Some s
  | [] => Some s
  end.

(** [number = [ minus ] int [ frac ] [ exp ]] *)
Definition number (s : list ascii) : option (list ascii) :=
  let unsigned := match s with
                  | c :: r => if Ascii.eqb c "-" then r else s
                  | [] => s
                  end in
  s1 ← int unsigned; s2 ← frac s1; exp s2.

(** The characters of a string and its closing quotation mark. *)
Fixpoint chars (s : list ascii) : option (list ascii) :=
  match s with
  | [] => None
  | c :: r =>
      if Ascii.eqb c RefJson.quote then Some r
      else if Ascii.eqb c RefJson.backslash then
        match r with
        | e :: r' =>
            if is_escape e then chars r'
            else if Ascii.eqb e "u" then
              match r' with
              | h1 :: h2 :: h3 :: h4 :: r'' =>
                  if is_hex h1 && is_hex h2 && is_hex h3 && is_hex h4 then chars r''
                  else None
              | _ => None
              end
            else None
        | [] => None
        end
      else if (nat_of_ascii c <? 32)%nat then None
      else chars r
  end.

Definition word (w : string) (s : list ascii) : option (list ascii) :=
  let l := list_ascii_of_string w in
  if decide (take (length l) s = l) then Some (drop (length l) s) else None.

Fixpoint value (fuel : nat) (s : list ascii) : option (list ascii) :=
  match fuel with
  | O => None
  | S fuel =>
      match s with
      | [] => None
      | c :: r =>
          if Ascii.eqb c RefJson.quote then chars r
          else if Ascii.eqb c "[" then
            match RefJson.skip_ws r with
            | c' :: r' => if Ascii.eqb c' "]" then Some r' else elements fuel (c' :: r')
            | [] => None
            end
          else if Ascii.eqb c "{" then
            match RefJson.skip_ws r with
            | c' :: r' => if Ascii.eqb c' "}" then Some r' else members fuel (c' :: r')
            | [] => None
            end
          else if Ascii.eqb c "n" then word "null" s
          else if Ascii.eqb c "t" then word "true" s
          else if Ascii.eqb c "f" then word "false" s
          else number s
      end
  end
with elements (fuel : nat) (s : list ascii) : option (list ascii) :=
  match fuel with
  | O => None
  | S fuel =>
      r ← value fuel s;
      match RefJson.skip_ws r with
      | c :: r' =>
          if Ascii.eqb c "," then elements fuel (RefJson.skip_ws r')
          else if Ascii.eqb c "]" then Some r'
          else None
      | [] => None
      end
  end
with members (fuel : nat) (s : list ascii) : option (list ascii) :=
  match fuel with
  | O => None
  | S fuel =>
      match s with
      | c :: r =>
          if Ascii.eqb c RefJson.quote then
            r1 ← chars r;
            match RefJson.skip_ws r1 with
            | c1 :: r2 =>
                if Ascii.eqb c1 ":" then
                  r3 ← value fuel (RefJson.skip_ws r2);
                  match RefJson.skip_ws r3 with
                  | c3 :: r4 =>
                      if Ascii.eqb c3 "," then members fuel (RefJson.skip_ws r4)
                      else if Ascii.eqb c3 "}" then Some r4
                      else None
                  | [] => None
                  end
                else None
            | [] => None
            end
          else None
      | [] => None
      end
  end.

(** [JSON-text = ws value ws].  No value nests deeper, or has more
    elements, than the text has characters. *)
Definition valid (raw : string) : bool :=
  let s := list_ascii_of_string raw in
  match value (S (2 * length s)) (RefJson.skip_ws s) with
  | Some rest =>
      match RefJson.skip_ws rest with
      | [] => true
      | _ => false
      end
  | None => false
  end.

End Rfc8259.


(** The world [check_categories] leaves: two list objects more, and the
    message it reported, if any. *)
Definition after_check (entries : list string) (report : list widget) (w : world) : world :=
  let kept := map PyStr.strip
                (List.filter (fun x => PyStr.truthy x && PyStr.truthy (PyStr.strip x)) entries) in
  set_page (fun p => p ++ report)
    (set_heap (fun h => h ++ [kept] ++ [elements (list_to_set kept : gset string)]) w).

(** ** Specifications of runs

    [triple P c Q E]: from a world that satisfies [P], the computation [c]
    either returns [a] in a world that satisfies [Q a], or raises in a world
    that satisfies [E]. *)

Definition triple {A} (P : world -> Prop) (c : M A)
    (Q : A -> world -> Prop) (E : world -> Prop) : Prop :=
  forall w, P w ->
    match c w with
    | (Val a, w') => Q a w'
    | (Raise _, w') => E w'
    end.

(** [keeps I c]: [c] preserves [I], whether it returns or raises. *)
Definition keeps {A} (I : world -> Prop) (c : M A) : Prop :=
  triple I c (fun _ => I) I.

(** [ends I F c]: from [I], the computation [c] ends in [F], whether it
    returns or raises. *)
Definition ends {A} (I F : world -> Prop) (c : M A) : Prop :=
  triple I c (fun _ => F) F.

(** [I] survives the rendering of a widget that satisfies [S], and the
    allocation of a list object. *)
Definition stable (S : widget -> Prop) (I : world -> Prop) : Prop :=
  (forall w x, S x -> I w -> I (set_page (fun p => p ++ [x]) w)) /\
  (forall w l, I w -> I (set_heap (fun h => h ++ [l]) w)).

(** [I] survives a save as well: it does not look at the directory or at
    the random generator. *)
Definition page_only (I : world -> Prop) : Prop :=
  (forall w f, I w -> I (set_cwd f w)) /\
  (forall w f, I w -> I (set_entropy f w)).

(** The first thing the annotation step renders. *)
Definition annotation_heading : widget := Markdown "## Identify sensitive data".

(** The values [json.loads] can return that are not containers: [in]
    raises on them. *)
Definition scalar (v : pyval) : Prop :=
  match v with
  | PNone | PBool _ | PInt _ | PFloat _ => True
  | _ => False
  end.

#[export] Instance scalar_dec (v : pyval) : Decision (scalar v).
Proof. destruct v; simpl; apply _. Defined.

(** An element that holds both texts of a Q&A pair. *)
Definition has_texts (x : pyval) : bool :=
  match PyOp.contains "question_text" x, PyOp.contains "answer_text" x with
  | Val true, Val true => true
  | _, _ => false
  end.

(** The world after [streamlit.error(msg)]. *)
Definition reported (msg : string) (w : world) : world :=
  set_page (fun p => p ++ [Error msg]) w.

(** The name [save_article_data] gives the file when the generator draws [n]. *)
Definition record_name (n : Z) : string :=
  record_prefix +:+ PyStr.of_int n +:+ ".json".

(** The world after a save that drew [n]. *)
Definition saved `{Json} (n : Z) (data : pyval) (w : world) : world :=
  set_cwd (fun d => <[record_name n := File (json_dumps None data)]> d)
    (set_entropy (@tl Z) w).

(** The names [get_articles_data] keeps from the listing of a directory. *)
Definition record_files (d : gmap string entry) : list string :=
  List.filter (PyStr.contains record_prefix) (map fst (map_to_list d)).

(** The file [x] of directory [d] holds JSON text that parses to [v]. *)
Definition holds_json `{Json} (d : gmap string entry) (x : string) (v : pyval) : Prop :=
  exists text, d !! x = Some (File text) /\ json_loads text = Some v.

(** A directory that a run has left as it found it, or to which it has
    added one annotated record made of what the user pasted and entered. *)
Definition persisted `{Json} (user : session) (files : gmap string entry)
    (now : spec_float) (d : gmap string entry) : Prop :=
  d = files \/
  exists N article_data qas,
    0 <= N <= 10000 /\
    json_loads (input_article_data user) = Some article_data /\
    json_loads (input_qa_data user) = Some qas /\
    d = <[record_name N :=
            File (json_dumps None
                    (annotated_record article_data (input_edited_qas user) qas
                       (input_metadata user) now))]> files.

(** Up to the save, the directory and the clock are what they were. *)
Definition untouched (files : gmap string entry) (now : spec_float) (w : world) : Prop :=
  cwd w = files /\ clock w = now.

(** ** Sample inputs *)

Module Sample.

Definition world0 : world := World [] [] ∅ [] (S754_zero false).

Definition entries : list string :=
  ["Names"; " Names "; ""; "   "; "Dates"; "Diagnoses"].

Definition world1 : world := World [] [entries] ∅ [] (S754_zero false).

(** The JSON text of a string that names both keys. *)
Definition string_naming_keys : string :=
  dq +:+ "article_text sensitive_category_to_instances" +:+ dq.

(** A generator about to yield 10000, over an empty directory. *)
Definition world_10000 : world := World [] [] ∅ [10000] (S754_zero false).

(** A directory with two record files and a file of another name. *)
Definition directory : gmap string entry :=
  <["annotated-synthetic-article7.json" := File "{}"]>
    (<["annotated-synthetic-article42.json" := File "[1, 2]"]>
       (<["notes.txt" := File "not json"]> ∅)).

Definition world_dir : world := World [] [] directory [] (S754_zero false).

(** Four categories, one padded with blanks and one entered twice. *)
Definition padded_entries : list string :=
  ["Names"; "  Dates "; "Diagnoses"; "Addresses"; "Names"].

(** A user who has entered a topic and [padded_entries], nothing else. *)
Definition user_at_categories : session :=
  {| input_topic := "a medical record";
     input_categories := padded_entries;
     input_article_data := "";
     input_qa_data := "";
     input_edited_qas := PNone;
     input_metadata := [];
     input_submit := false |}.

(** A user who has pasted an article and the empty list of Q&A pairs. *)
Definition user_empty_qas : session :=
  {| input_topic := "a medical record";
     input_categories := ["Names"; "Dates"; "Diagnoses"; "Addresses"];
     input_article_data :=
       "{" +:+ dq +:+ "article_text" +:+ dq +:+ ": " +:+ dq +:+ "..." +:+ dq +:+ ", " +:+
       dq +:+ "sensitive_category_to_instances" +:+ dq +:+ ": {}}";
     input_qa_data := "[]";
     input_edited_qas := PNone;
     input_metadata := [];
     input_submit := false |}.

(** Metadata in which the user has entered a [created_at] of their own. *)
Definition metadata_with_created_at : pydict :=
  [("LLM", PStr "gpt-x"); ("created_at", PStr "yesterday")].

(** A user who has gone through every step and presses Submit. *)
Definition user_submitting : session :=
  {| input_topic := "a medical record";
     input_categories := ["Names"; "Dates"; "Diagnoses"; "Addresses"];
     input_article_data :=
       "{" +:+ dq +:+ "article_text" +:+ dq +:+ ": " +:+ dq +:+ "..." +:+ dq +:+ ", " +:+
       dq +:+ "sensitive_category_to_instances" +:+ dq +:+ ": {" +:+
       dq +:+ "Names" +:+ dq +:+ ": [" +:+ dq +:+ "John" +:+ dq +:+ "]}}";
     input_qa_data :=
       "[{" +:+ dq +:+ "question_text" +:+ dq +:+ ":" +:+ dq +:+ "Q1" +:+ dq +:+ "," +:+
       dq +:+ "answer_text" +:+ dq +:+ ":" +:+ dq +:+ "A1" +:+ dq +:+ "}]";
     input_edited_qas :=
       PList [PDict [("question_text", PStr "Q1"); ("answer_text", PStr "A1");
                     ("completeness_keywords", PStr "Q1");
                     ("relevant_sensitive_categories", PStr "Names")]];
     input_metadata := metadata_with_created_at;
     input_submit := true |}.

(** What the two texts pasted by [user_submitting] parse to. *)
Definition article_data : pyval :=
  PDict [("article_text", PStr "...");
         ("sensitive_category_to_instances", PDict [("Names", PList [PStr "John"])])].

Definition qas : pyval :=
  PList [PDict [("question_text", PStr "Q1"); ("answer_text", PStr "A1")]].

(** Half past midnight on the first of January 1970, as [time()] reads it. *)
Definition half_past_midnight : spec_float := S754_finite false 1800 0.

(** A Q&A list whose only element is a number. *)
Definition list_of_number : string := "[1]".

End Sample.

(** ** Further notions for the results on the rest of the script *)

(** The categories a schema of [get_prompt] lists under
    [sensitive_category_to_instances]. *)
Definition schema_of (categories : list string) : pydict :=
  fold_left (fun d k => Py.dict_set k (PStr "string[]") d) categories [].

(** What [check_categories] reports for a count of labels. *)
Definition category_report (n : nat) : list widget :=
  if (n <? 4)%nat then [Error at_least_4]
  else if (7 <? n)%nat then [Error at_most_7]
  else [].

(** What every run renders before it reads the directory. *)
Definition header : list widget :=
  [Title "Data Annotation";
   Markdown (nl +:+ "Come up with one topic that can contain sensitive data. " +:+
             nl +:+ "The topic will be used to generate a synthetic article. " +:+
             nl +:+ "Be creative with your topic!" +:+ nl);
   TextInput "_Topic choice_";
   SetPageConfig;
   Sidebar (Markdown "# Download Annotated Data")].

(** The download button for an export. *)
Definition download (data : list ascii) : widget :=
  Sidebar (DownloadButton "Download Annotated Data" data "data.json").

(** The world of a run when it reads the directory. *)
Definition at_export (files : gmap string entry) (rnd : list Z) (now : spec_float) : world :=
  World header [] files rnd now.

(** The metadata carry a truthy [LLM]. *)
Definition names_llm (metadata : pydict) : Prop :=
  exists v, Py.dict_get "LLM" metadata = Some v /\ Py.truthy v = true.

(** Error messages on a page: none, or one that ends the page. *)
Definition is_error (x : widget) : bool :=
  match x with
  | Error _ => true
  | _ => false
  end.

Definition no_error (p : list widget) : Prop :=
  Forall (fun x => is_error x = false) p.

Definition error_last (p : list widget) : Prop :=
  exists before msg, p = before ++ [Error msg] /\ no_error before.

Definition quiet (w : world) : Prop := no_error (page w).

Definition closed (w : world) : Prop := no_error (page w) \/ error_last (page w).

(** What a gated call may leave: a page without message when it accepts,
    a page closed by its message when it refuses. *)
Definition verdict {A} (accepts : A -> bool) (a : A) (w : world) : Prop :=
  (accepts a = true -> quiet w) /\ closed w.

(** A pasted article in the shape the script goes on to use: a dictionary
    whose [article_text] is a string and which has an index of instances. *)
Definition article (v : pyval) : Prop :=
  exists d text,
    v = PDict d /\
    Py.dict_get "article_text" d = Some (PStr text) /\
    Py.dict_has "sensitive_category_to_instances" d = true.

(** A Q&A pair in the shape the script goes on to use: a dictionary with
    both texts. *)
Definition qa_pair (x : pyval) : Prop :=
  exists d, x = PDict d /\
    Py.dict_has "question_text" d = true /\
    Py.dict_has "answer_text" d = true.

(** The integer a save draws when the generator yields [rnd] next. *)
Definition draw (rnd : list Z) : Z := hd 0 rnd mod 10001.

(** The world of a run keeps the directory, the clock and the generator it
    started with. *)
Definition ready (files : gmap string entry) (rnd : list Z) (now : spec_float)
    (w : world) : Prop :=
  cwd w = files /\ clock w = now /\ entropy w = rnd.

(** The same, and the reference [categories] points to [entries]. *)
Definition holding (files : gmap string entry) (rnd : list Z) (now : spec_float)
    (categories : loc) (entries : list string) (w : world) : Prop :=
  ready files rnd now w /\ heap w !! categories = Some entries.

(** The directory after the submission of [article_data] and [qas]. *)
Definition submitted `{Json} (user : session) (files : gmap string entry)
    (rnd : list Z) (now : spec_float) (article_data qas : pyval) : gmap string entry :=
  <[record_name (draw rnd) :=
      File (json_dumps None
              (annotated_record article_data (input_edited_qas user) qas
                 (input_metadata user) now))]> files.

(** [outcome P c Q E]: as [triple], with the exception in view: from a world
    that satisfies [P], the computation [c] returns [a] in a world that
    satisfies [Q a], or raises [e] in a world that satisfies [E e]. *)
Definition outcome {A} (P : world -> Prop) (c : M A)
    (Q : A -> world -> Prop) (E : exn -> world -> Prop) : Prop :=
  forall w, P w ->
    match c w with
    | (Val a, w') => Q a w'
    | (Raise e, w') => E e w'
    end.

(** A value that is not a dictionary. *)
Definition not_dict (v : pyval) : Prop :=
  match v with
  | PDict _ => False
  | _ => True
  end.

(** The page of a run at the category gate, for a topic and an export. *)
Definition page_at_categories (topic : string) (data : list ascii) : list widget :=
  header ++
  [download data;
   Markdown ("Come up with at least 4 categories of personal information that should appear in a synthetic article about " +:+
             dq +:+ topic +:+ dq +:+ ".");
   DataEditor (PList [PStr "Names of ..."]) []].

(** The page ends with the message [msg]. *)
Definition ends_with (msg : string) (w : world) : Prop :=
  exists before, page w = before ++ [Error msg].

(** The message, if any, with which [check_article_data] refuses a text. *)
Definition article_refusal `{Json} (raw : string) : option string :=
  match json_loads raw with
  | None => Some invalid_json
  | Some v =>
      match PyOp.contains "article_text" v with
      | Val false => Some no_article_text
      | Val true =>
          match PyOp.contains "sensitive_category_to_instances" v with
          | Val false => Some no_mapping
          | _ => None
          end
      | Raise _ => None
      end
  end.

(** The message, if any, with which [check_qa_data] refuses a text. *)
Definition qa_refusal `{Json} (raw : string) : option string :=
  match json_loads raw with
  | None => Some invalid_json
  | Some (PList l) =>
      if decide (Exists scalar l) then None
      else if forallb has_texts l then None
      else Some incomplete_pair
  | Some _ => Some not_a_list
  end.

(** ** Further inputs *)

Module Cases.

(** The labels of [Sample.entries] in another order, one padded, one twice. *)
Definition reordered_entries : list string :=
  ["Diagnoses"; "Dates "; "Names"; "Diagnoses"].

Definition world2 : world :=
  World [Title "Data Annotation"] [[]; reordered_entries] ∅ [] (S754_zero false).

(** A directory whose only record file does not hold JSON. *)
Definition corrupt_directory : gmap string entry :=
  <["annotated-synthetic-article1.json" := File "not json"]> ∅.

(** A user who has entered nothing. *)
Definition user_without_topic : session :=
  {| input_topic := "";
     input_categories := [];
     input_article_data := "";
     input_qa_data := "";
     input_edited_qas := PNone;
     input_metadata := [];
     input_submit := false |}.

(** A generator about to yield 7 and then 10008, over an empty directory;
    both draws select the integer 7. *)
Definition world_colliding : world :=
  World [] [] ∅ [7; 10008; 3] (S754_zero false).

Definition first_record : pyval := PDict [("article_text", PStr "first")].
Definition second_record : pyval := PDict [("article_text", PStr "second")].

(** A user who has entered a topic and two categories. *)
Definition user_two_categories : session :=
  {| input_topic := "a medical record";
     input_categories := ["Names"; "Dates"];
     input_article_data := "";
     input_qa_data := "";
     input_edited_qas := PNone;
     input_metadata := [];
     input_submit := false |}.

(** A user who pastes, as article, the JSON text of a string that names both
    keys. *)
Definition user_pasting_string : session :=
  {| input_topic := "a medical record";
     input_categories := ["Names"; "Dates"; "Diagnoses"; "Addresses"];
     input_article_data := Sample.string_naming_keys;
     input_qa_data := "";
     input_edited_qas := PNone;
     input_metadata := [];
     input_submit := false |}.

(** A user who pastes an article without the index of instances. *)
Definition user_pasting_text_only : session :=
  {| input_topic := "a medical record";
     input_categories := ["Names"; "Dates"; "Diagnoses"; "Addresses"];
     input_article_data :=
       "{" +:+ dq +:+ "article_text" +:+ dq +:+ ": " +:+ dq +:+ "..." +:+ dq +:+ "}";
     input_qa_data := "";
     input_edited_qas := PNone;
     input_metadata := [];
     input_submit := false |}.

(** A user who pastes an article whose text is a number. *)
Definition user_pasting_number_as_text : session :=
  {| input_topic := "a medical record";
     input_categories := ["Names"; "Dates"; "Diagnoses"; "Addresses"];
     input_article_data :=
       "{" +:+ dq +:+ "article_text" +:+ dq +:+ ": 5, " +:+
       dq +:+ "sensitive_category_to_instances" +:+ dq +:+ ": {}}";
     input_qa_data := "";
     input_edited_qas := PNone;
     input_metadata := [];
     input_submit := false |}.

Definition article_with_number : pydict :=
  [("article_text", PInt 5); ("sensitive_category_to_instances", PDict [])].

(** The article of [Sample.user_submitting], and Q&A pairs of other shapes. *)
Definition with_qa_data (raw : string) : session :=
  {| input_topic := input_topic Sample.user_submitting;
     input_categories := input_categories Sample.user_submitting;
     input_article_data := input_article_data Sample.user_submitting;
     input_qa_data := raw;
     input_edited_qas := PNone;
     input_metadata := [];
     input_submit := true |}.

(** A Q&A list whose only element is a string that names both texts. *)
Definition user_pasting_string_pair : session :=
  with_qa_data ("[" +:+ dq +:+ "question_text answer_text" +:+ dq +:+ "]").

(** A Q&A text that is an object, not a list. *)
Definition user_pasting_object : session :=
  with_qa_data "{}".

(** Every step done, Submit pressed, no metadata entered. *)
Definition user_without_llm : session :=
  with_qa_data (input_qa_data Sample.user_submitting).

End Cases.

(** * Results *)

(** ** Running the monad *)

Lemma run_bind {A B} (c : M A) (k : A -> M B) (w : world) :
  (c ≫= k) w = match c w with
               | (Val a, w') => k a w'
               | (Raise e, w') => (Raise e, w')
               end.
Proof. reflexivity. Qed.

Lemma run_ret {A} (a : A) (w : world) : (mret a : M A) w = (Val a, w).
Proof. reflexivity. Qed.

Lemma run_load (r : loc) (l : list string) (w : world) :
  heap w !! r = Some l -> load r w = (Val l, w).
Proof. intros Hr. unfold load. now rewrite Hr. Qed.

Lemma lookup_fresh (h : list (list string)) (l : list string) :
  (h ++ [l]) !! length h = Some l.
Proof. rewrite lookup_app_r by lia. now rewrite Nat.sub_diag. Qed.

(** ** The category validator *)

Lemma truthy_strip (s : string) :
  PyStr.truthy s && PyStr.truthy (PyStr.strip s) = PyStr.truthy (PyStr.strip s).
Proof. destruct s; reflexivity. Qed.

(** The comprehension of the source keeps what the specification's
    "trim, then drop the empty ones" keeps. *)
Lemma strip_filter_commute (l : list string) :
  map PyStr.strip
    (List.filter (fun x => PyStr.truthy x && PyStr.truthy (PyStr.strip x)) l)
  = List.filter PyStr.truthy (map PyStr.strip l).
Proof.
  induction l as [|x l IH]; simpl; [reflexivity|].
  rewrite truthy_strip.
  destruct (PyStr.truthy (PyStr.strip x)); simpl; congruence.
Qed.

Lemma length_elements_list_to_set (l : list string) :
  length (elements (list_to_set l : gset string)) = length (remove_dups l).
Proof.
  assert (Hset : (list_to_set l : gset string) = list_to_set (remove_dups l)).
  { apply set_eq. intros x. rewrite !elem_of_list_to_set, elem_of_remove_dups. tauto. }
  rewrite Hset. apply (size_list_to_set (C:=gset string)), NoDup_remove_dups.
Qed.

Lemma check_categories_run (w : world) (categories : loc) (entries : list string) :
  heap w !! categories = Some entries ->
  check_categories categories w =
    if (spec_count entries <? 4)%nat then
      (Val false, after_check entries [Error at_least_4] w)
    else if (7 <? spec_count entries)%nat then
      (Val false, after_check entries [Error at_most_7] w)
    else (Val true, after_check entries [] w).
Proof.
  intros Hc. unfold check_categories.
  rewrite run_bind, (run_load _ _ _ Hc).
  set (kept := map PyStr.strip (List.filter _ entries)).
  rewrite run_bind. unfold alloc at 1.
  rewrite run_bind. unfold load at 1. simpl heap.
  rewrite (lookup_fresh (heap w)).
  rewrite run_bind. unfold alloc at 1.
  rewrite run_bind. unfold load at 1. simpl heap.
  rewrite (lookup_fresh (heap w ++ [kept])).
  rewrite length_elements_list_to_set. subst kept.
  unfold after_check. rewrite strip_filter_commute.
  fold (spec_labels entries). fold (spec_count entries).
  destruct (spec_count entries <? 4)%nat; [|destruct (7 <? spec_count entries)%nat];
    cbn; unfold set_page, set_heap; simpl;
    rewrite <- ?app_assoc, ?app_nil_r; reflexivity.
Qed.

(** C1. The category validator returns [True] exactly when the number [n]
    of distinct, trimmed, non-empty entries satisfies 4 <= n <= 7; when
    n < 4 it returns [False] after reporting the "at least 4" message, when
    n > 7 it returns [False] after reporting the "at most 7" message, and
    the two messages differ.  This holds for every list of strings. *)
Theorem check_categories_iff_count (w : world) (categories : loc) (entries : list string) :
  heap w !! categories = Some entries ->
  exists (ok : bool) (w' : world),
    check_categories categories w = (Val ok, w') /\
    (ok = true <-> (4 <= spec_count entries <= 7)%nat) /\
    ((spec_count entries < 4)%nat ->
       ok = false /\ page w' = page w ++ [Error at_least_4]) /\
    ((7 < spec_count entries)%nat ->
       ok = false /\ page w' = page w ++ [Error at_most_7]) /\
    ((4 <= spec_count entries <= 7)%nat -> page w' = page w) /\
    at_least_4 <> at_most_7.
Proof.
  intros Hc. rewrite (check_categories_run _ _ _ Hc).
  destruct (spec_count entries <? 4)%nat eqn:Hlo;
    [|destruct (7 <? spec_count entries)%nat eqn:Hhi];
    eexists _, _; (split; [reflexivity|]);
    rewrite ?Nat.ltb_lt, ?Nat.ltb_ge in *; simpl;
    repeat split; try (intros; lia); try discriminate;
    intros; rewrite ?app_nil_r; reflexivity.
Qed.

Lemma check_categories_iff_count_witness :
  heap Sample.world1 !! 0%nat = Some Sample.entries /\
  exists (ok : bool) (w' : world),
    check_categories 0 Sample.world1 = (Val ok, w') /\
    (ok = true <-> (4 <= spec_count Sample.entries <= 7)%nat) /\
    ((spec_count Sample.entries < 4)%nat ->
       ok = false /\ page w' = page Sample.world1 ++ [Error at_least_4]) /\
    ((7 < spec_count Sample.entries)%nat ->
       ok = false /\ page w' = page Sample.world1 ++ [Error at_most_7]) /\
    ((4 <= spec_count Sample.entries <= 7)%nat -> page w' = page Sample.world1) /\
    at_least_4 <> at_most_7.
Proof.
  split; [reflexivity|].
  apply (check_categories_iff_count Sample.world1 0%nat); reflexivity.
Defined.

(** ** The two JSON validators *)

Section Validators.

Context `{Json}.

Lemma check_article_data_invalid (raw : string) (w : world) :
  json_loads raw = None ->
  check_article_data raw w = (Val PFalse, reported invalid_json w).
Proof. intros Hraw. unfold check_article_data. now rewrite Hraw. Qed.

Lemma check_qa_data_invalid (raw : string) (w : world) :
  json_loads raw = None ->
  check_qa_data raw w = (Val PFalse, reported invalid_json w).
Proof. intros Hraw. unfold check_qa_data. now rewrite Hraw. Qed.

(** What [check_article_data] does with a text that parses. *)
Lemma check_article_data_parsed (raw : string) (v : pyval) (w : world) :
  json_loads raw = Some v ->
  check_article_data raw w =
    match PyOp.contains "article_text" v with
    | Raise e => (Raise e, w)
    | Val false => (Val PFalse, reported no_article_text w)
    | Val true =>
        match PyOp.contains "sensitive_category_to_instances" v with
        | Raise e => (Raise e, w)
        | Val false => (Val PFalse, reported no_mapping w)
        | Val true => (Val v, w)
        end
    end.
Proof.
  intros Hraw. unfold check_article_data. rewrite Hraw.
  unfold mbind, M_bind, lift.
  destruct (PyOp.contains "article_text" v) as [[|]|e]; try reflexivity.
  destruct (PyOp.contains "sensitive_category_to_instances" v) as [[|]|e];
    reflexivity.
Qed.

(** C3, at the inputs where the code departs from it: a text that parses
    to a number, a boolean or [null] makes ['article_text' not in
    article_data] raise [TypeError] outside the [try]; no message is
    reported and nothing is returned. *)
Theorem check_article_data_scalar_raises (raw : string) (v : pyval) (w : world) :
  json_loads raw = Some v ->
  scalar v ->
  check_article_data raw w = (Raise TypeError, w).
Proof.
  intros Hraw Hv. rewrite (check_article_data_parsed _ _ _ Hraw).
  destruct v; simpl in Hv; try contradiction; reflexivity.
Qed.

(** On a dictionary, a list or a string, [check_article_data] does what C3
    says: one message per missing key, the parsed value otherwise. *)
Lemma check_article_data_container (raw : string) (v : pyval) (w : world) :
  json_loads raw = Some v ->
  ~ scalar v ->
  exists has_text has_map,
    PyOp.contains "article_text" v = Val has_text /\
    PyOp.contains "sensitive_category_to_instances" v = Val has_map /\
    check_article_data raw w =
      if negb has_text then (Val PFalse, reported no_article_text w)
      else if negb has_map then (Val PFalse, reported no_mapping w)
      else (Val v, w).
Proof.
  intros Hraw Hv. rewrite (check_article_data_parsed _ _ _ Hraw).
  destruct v; simpl in Hv; try tauto; simpl PyOp.contains;
    eexists _, _; (split; [reflexivity|]); (split; [reflexivity|]);
    repeat match goal with |- context [negb ?b] => destruct b; simpl end;
    reflexivity.
Qed.

Lemma article_messages_distinct :
  invalid_json <> no_article_text /\ invalid_json <> no_mapping /\
  no_article_text <> no_mapping.
Proof. repeat split; discriminate. Qed.

(** C9. The validator does not ask for an object: a text that parses to a
    string whose characters contain both key names is accepted, and the
    string itself is returned. *)
Theorem check_article_data_accepts_string (raw s : string) (w : world) :
  json_loads raw = Some (PStr s) ->
  PyStr.contains "article_text" s = true ->
  PyStr.contains "sensitive_category_to_instances" s = true ->
  check_article_data raw w = (Val (PStr s), w).
Proof.
  intros Hraw Ht Hm. rewrite (check_article_data_parsed _ _ _ Hraw).
  simpl. now rewrite Ht, Hm.
Qed.

(** One element of the comprehension: a container answers, anything else
    raises; the world is left as it was. *)
Lemma has_both_texts_run (x : pyval) (w : world) :
  has_both_texts x w =
    if decide (scalar x) then (Raise TypeError, w) else (Val (has_texts x), w).
Proof.
  unfold has_both_texts, has_texts, mbind, M_bind, lift, mret, M_ret.
  destruct x; simpl; try reflexivity;
    repeat match goal with |- context [if ?b then _ else _] => destruct b end;
    reflexivity.
Qed.

Lemma comprehension_has_both_texts (l : list pyval) (w : world) :
  comprehension has_both_texts l w =
    if decide (Exists scalar l) then (Raise TypeError, w)
    else (Val (map has_texts l), w).
Proof.
  induction l as [|x l IH]; [reflexivity|].
  cbn [comprehension]. rewrite run_bind, has_both_texts_run.
  destruct (decide (scalar x)) as [Hx|Hx].
  - rewrite decide_True by (now left). reflexivity.
  - rewrite run_bind, IH.
    destruct (decide (Exists scalar l)) as [Hl|Hl].
    + rewrite decide_True by (now right). reflexivity.
    + rewrite decide_False; [reflexivity|].
      intros Hc. apply Exists_cons in Hc. tauto.
Qed.

Lemma forallb_id_map {A} (f : A -> bool) (l : list A) :
  forallb id (map f l) = forallb f l.
Proof. induction l as [|x l IH]; simpl; [reflexivity | now rewrite IH]. Qed.

(** What [check_qa_data] does with a text that parses. *)
Lemma check_qa_data_parsed (raw : string) (v : pyval) (w : world) :
  json_loads raw = Some v ->
  check_qa_data raw w =
    match v with
    | PList l =>
        if decide (Exists scalar l) then (Raise TypeError, w)
        else if forallb has_texts l then (Val v, w)
        else (Val PFalse, reported incomplete_pair w)
    | _ => (Val PFalse, reported not_a_list w)
    end.
Proof.
  intros Hraw. unfold check_qa_data. rewrite Hraw.
  destruct v; try reflexivity.
  rewrite run_bind, comprehension_has_both_texts.
  destruct (decide (Exists scalar l)); [reflexivity|].
  rewrite forallb_id_map.
  destruct (forallb has_texts l); reflexivity.
Qed.

(** C4, at the inputs where the code departs from it: a list that holds a
    number, a boolean or [null] makes ['question_text' in x] raise
    [TypeError]; no message is reported and nothing is returned. *)
Theorem check_qa_data_scalar_element_raises (raw : string) (l : list pyval) (w : world) :
  json_loads raw = Some (PList l) ->
  Exists scalar l ->
  check_qa_data raw w = (Raise TypeError, w).
Proof.
  intros Hraw Hl. rewrite (check_qa_data_parsed _ _ _ Hraw).
  now rewrite decide_True.
Qed.

(** On the other texts [check_qa_data] does what C4 says: three distinct
    messages, and the parsed list when every element holds both texts. *)
Lemma check_qa_data_containers (raw : string) (v : pyval) (w : world) :
  json_loads raw = Some v ->
  (forall l, v = PList l -> Forall (fun x => ~ scalar x) l) ->
  check_qa_data raw w =
    match v with
    | PList l =>
        if forallb has_texts l then (Val v, w)
        else (Val PFalse, reported incomplete_pair w)
    | _ => (Val PFalse, reported not_a_list w)
    end.
Proof.
  intros Hraw Hv. rewrite (check_qa_data_parsed _ _ _ Hraw).
  destruct v; try reflexivity.
  rewrite decide_False; [reflexivity|].
  intros Hex. apply Exists_exists in Hex as (x & Hin & Hx).
  specialize (Hv l eq_refl). rewrite Forall_forall in Hv.
  exact (Hv x Hin Hx).
Qed.

Lemma qa_messages_distinct :
  invalid_json <> not_a_list /\ invalid_json <> incomplete_pair /\
  not_a_list <> incomplete_pair.
Proof. repeat split; discriminate. Qed.

(** A report is told from another by its message, and from none by the
    page. *)
Lemma reported_inj (a b : string) (w : world) :
  reported a w = reported b w -> a = b.
Proof.
  intros Heq. apply (f_equal page) in Heq. simpl in Heq.
  apply app_inv_head in Heq. congruence.
Qed.

Lemma reported_neq (a : string) (w : world) : w <> reported a w.
Proof.
  intros Heq. apply (f_equal (fun x => length (page x))) in Heq. simpl in Heq.
  rewrite length_app in Heq. simpl in Heq. lia.
Qed.

(** C5, amended. On every text that [json.loads] refuses, whatever it
    raises there, the Article-Data validator and the QA-Data validator both
    report the "invalid JSON" message and return [False], and neither
    raises; and the validators end so on no text that [json.loads] reads. *)
Theorem invalid_json_fails_closed (raw : string) (w : world) :
  (json_loads raw = None <->
   check_article_data raw w = (Val PFalse, reported invalid_json w)) /\
  (json_loads raw = None <->
   check_qa_data raw w = (Val PFalse, reported invalid_json w)).
Proof.
  split; (split; [intros Hraw|intros Hrun]).
  - now apply check_article_data_invalid.
  - destruct (json_loads raw) as [v|] eqn:Hraw; [exfalso|reflexivity].
    rewrite (check_article_data_parsed _ _ _ Hraw) in Hrun.
    destruct (PyOp.contains "article_text" v) as [[|]|e]; try discriminate Hrun.
    + destruct (PyOp.contains "sensitive_category_to_instances" v) as [[|]|e];
        try discriminate Hrun.
      * apply (f_equal snd) in Hrun. exact (reported_neq _ _ Hrun).
      * apply (f_equal snd) in Hrun. now apply reported_inj in Hrun.
    + apply (f_equal snd) in Hrun. now apply reported_inj in Hrun.
  - now apply check_qa_data_invalid.
  - destruct (json_loads raw) as [v|] eqn:Hraw; [exfalso|reflexivity].
    rewrite (check_qa_data_parsed _ _ _ Hraw) in Hrun.
    destruct v as [| | | | |l|];
      try (apply (f_equal snd) in Hrun; now apply reported_inj in Hrun).
    destruct (decide (Exists scalar l)); [discriminate Hrun|].
    destruct (forallb has_texts l).
    + apply (f_equal snd) in Hrun. exact (reported_neq _ _ Hrun).
    + apply (f_equal snd) in Hrun. now apply reported_inj in Hrun.
Qed.

End Validators.

#[local] Existing Instance RefJson.reference.

(** The recogniser of JSON texts on some texts of either kind. *)
Lemma rfc8259_valid_samples :
  Rfc8259.valid (input_article_data Sample.user_submitting) = true /\
  Rfc8259.valid (input_qa_data Sample.user_submitting) = true /\
  Rfc8259.valid Sample.string_naming_keys = true /\
  Rfc8259.valid " [1.5e-3, -0, true, null, {}] " = true /\
  Rfc8259.valid "{oops" = false /\
  Rfc8259.valid "[1,]" = false /\
  Rfc8259.valid "01" = false /\
  Rfc8259.valid "nan" = false /\
  Rfc8259.valid "Infinity" = false /\
  Rfc8259.valid "-Infinity" = false.
Proof. repeat split. Qed.

Lemma invalid_json_fails_closed_witness :
  Rfc8259.valid "{oops" = false /\
  json_loads "{oops" = None /\
  check_article_data "{oops" Sample.world0
    = (Val PFalse, reported invalid_json Sample.world0) /\
  check_qa_data "{oops" Sample.world0
    = (Val PFalse, reported invalid_json Sample.world0).
Proof.
  split; [reflexivity|]. split; [reflexivity|].
  destruct (invalid_json_fails_closed "{oops" Sample.world0) as [Harticle Hqa].
  split; [apply Harticle | apply Hqa]; reflexivity.
Defined.

(** C5 as stated fails: [NaN] is no JSON text, yet [json.loads] reads it, as
    a float.  The Article-Data validator then raises [TypeError] at its
    first [in] test, and the QA-Data validator reports that the value is no
    list: neither reports the "invalid JSON" message. *)
Lemma nan_is_read_by_json_loads :
  Rfc8259.valid "NaN" = false /\
  json_loads "NaN" = Some (PFloat S754_nan) /\
  check_article_data "NaN" Sample.world0 = (Raise TypeError, Sample.world0) /\
  check_qa_data "NaN" Sample.world0
    = (Val PFalse, reported not_a_list Sample.world0) /\
  reported not_a_list Sample.world0 <> reported invalid_json Sample.world0.
Proof.
  repeat split. intros Heq. now apply reported_inj in Heq.
Qed.

Lemma check_article_data_scalar_raises_witness :
  json_loads "5" = Some (PInt 5) /\ scalar (PInt 5) /\
  check_article_data "5" Sample.world0 = (Raise TypeError, Sample.world0).
Proof.
  split; [reflexivity|]. split; [exact I|].
  apply (check_article_data_scalar_raises "5" (PInt 5) Sample.world0);
    [reflexivity | exact I].
Defined.

Lemma check_article_data_accepts_string_witness :
  json_loads Sample.string_naming_keys
    = Some (PStr "article_text sensitive_category_to_instances") /\
  check_article_data Sample.string_naming_keys Sample.world0
    = (Val (PStr "article_text sensitive_category_to_instances"), Sample.world0).
Proof.
  split; [reflexivity|].
  apply (check_article_data_accepts_string Sample.string_naming_keys
           "article_text sensitive_category_to_instances" Sample.world0);
    reflexivity.
Defined.

Lemma check_qa_data_scalar_element_raises_witness :
  json_loads Sample.list_of_number = Some (PList [PInt 1]) /\
  Exists scalar [PInt 1] /\
  check_qa_data Sample.list_of_number Sample.world0 = (Raise TypeError, Sample.world0).
Proof.
  split; [reflexivity|]. split; [left; exact I|].
  apply (check_qa_data_scalar_element_raises Sample.list_of_number [PInt 1] Sample.world0);
    [reflexivity | left; exact I].
Defined.

(** ** Saving a record *)

Lemma of_int_inj (a b : Z) : PyStr.of_int a = PyStr.of_int b -> a = b.
Proof.
  unfold PyStr.of_int. intros Heq.
  assert (Hback : forall z, NilZero.int_of_string (NilZero.string_of_int (Z.to_int z))
                            = Some (Z.to_int z)).
  { intros z. apply NilZero.isi; destruct z; simpl; try discriminate;
      intros [= Hnil]; now apply DecimalPos.Unsigned.to_uint_nonnil in Hnil. }
  apply DecimalZ.to_int_inj.
  pose proof (Hback a) as Ha. rewrite Heq, Hback in Ha. congruence.
Qed.

Lemma list_ascii_of_append (s t : string) :
  list_ascii_of_string (s +:+ t) = list_ascii_of_string s ++ list_ascii_of_string t.
Proof. induction s as [|c s IH]; simpl; [reflexivity | now rewrite IH]. Qed.

Lemma append_cancel_r (s1 s2 t : string) : s1 +:+ t = s2 +:+ t -> s1 = s2.
Proof.
  intros Heq. apply (f_equal list_ascii_of_string) in Heq.
  rewrite !list_ascii_of_append in Heq. apply app_inv_tail in Heq.
  rewrite <- (string_of_list_ascii_of_string s1), <- (string_of_list_ascii_of_string s2).
  now rewrite Heq.
Qed.

Lemma record_name_inj (a b : Z) : record_name a = record_name b -> a = b.
Proof.
  unfold record_name. intros Heq.
  apply (inj (String.app record_prefix)) in Heq.
  apply append_cancel_r in Heq. now apply of_int_inj.
Qed.

Section Save.

Context `{Json}.

Lemma randint_range (a b : Z) (w : world) :
  a <= b ->
  exists n, randint a b w = (Val n, set_entropy (@tl Z) w) /\ a <= n <= b.
Proof.
  intros Hab. eexists. split; [reflexivity|].
  pose proof (Z.mod_pos_bound (hd 0 (entropy w)) (b - a + 1)). lia.
Qed.

(** What a save does, by the integer it draws. *)
Lemma save_article_data_run (data : pyval) (w : world) :
  exists N, 0 <= N <= 10000 /\
    save_article_data data w =
      match cwd w !! record_name N with
      | Some Dir => (Raise OSError, set_entropy (@tl Z) w)
      | _ => (Val tt, saved N data w)
      end.
Proof.
  destruct (randint_range 0 10000 w) as (n & Hn & Hrange); [lia|].
  exists n. split; [exact Hrange|].
  unfold save_article_data. rewrite run_bind, Hn.
  unfold write_file. simpl cwd.
  fold (record_name n).
  destruct (cwd w !! record_name n) as [[| |]|]; reflexivity.
Qed.

(** C2, amended. Every save draws an integer [N] with 0 <= N <= 10000 (both
    ends included, as [random.randint] has it) and writes the JSON text of
    the record to the file [annotated-synthetic-article<N>.json], creating
    or overwriting it; [open] raises when a directory has that name. *)
Theorem save_article_data_suffix_range (data : pyval) (w : world) :
  exists N, 0 <= N <= 10000 /\
    save_article_data data w =
      match cwd w !! record_name N with
      | Some Dir => (Raise OSError, set_entropy (@tl Z) w)
      | _ => (Val tt, saved N data w)
      end.
Proof. apply save_article_data_run. Qed.

(** Every integer of 0..10000 is the suffix of some save. *)
Lemma save_article_data_every_suffix (data : pyval) (N : Z) (w : world) :
  0 <= N <= 10000 ->
  cwd w !! record_name N <> Some Dir ->
  save_article_data data (set_entropy (fun _ => [N]) w)
    = (Val tt, saved N data (set_entropy (fun _ => [N]) w)).
Proof.
  intros HN Hdir. unfold save_article_data.
  rewrite run_bind. unfold randint at 1. cbn [entropy set_entropy hd].
  replace (0 + N mod (10000 - 0 + 1)) with N by (rewrite Z.mod_small; lia).
  unfold write_file. cbn [cwd set_entropy]. fold (record_name N).
  destruct (cwd w !! record_name N) as [[| |]|]; try reflexivity.
  now destruct Hdir.
Qed.

End Save.

(** C2 as stated fails: when the generator yields 10000 the record goes to
    [annotated-synthetic-article10000.json], and the directory holds no file
    whose suffix lies in the half-open interval. *)
Lemma save_article_data_suffix_10000 :
  exists w',
    save_article_data (PDict []) Sample.world_10000 = (Val tt, w') /\
    cwd w' !! "annotated-synthetic-article10000.json" = Some (File "{}") /\
    ~ exists N, 0 <= N < 10000 /\ cwd w' !! record_name N <> None.
Proof.
  eexists. split; [reflexivity|]. split; [reflexivity|].
  intros (N & HN & Hfile). apply Hfile. clear Hfile.
  change (cwd _) with (<[record_name 10000 := File "{}"]> (∅ : gmap string entry)).
  rewrite lookup_insert_ne; [apply lookup_empty|].
  intros Heq. apply record_name_inj in Heq. lia.
Qed.

(** ** The aggregate export *)

Lemma record_files_spec (d : gmap string entry) (x : string) :
  x ∈ record_files d <-> is_Some (d !! x) /\ PyStr.contains record_prefix x = true.
Proof.
  unfold record_files. rewrite list_elem_of_In, filter_In, <- list_elem_of_In.
  change (map fst (map_to_list d)) with ((map_to_list d).*1).
  rewrite list_elem_of_fmap. split.
  - intros [([k e] & -> & Hin) Hc]. apply elem_of_map_to_list in Hin.
    split; [now exists e | exact Hc].
  - intros [[e He] Hc]. split; [|exact Hc].
    exists (x, e). split; [reflexivity | now apply elem_of_map_to_list].
Qed.

Lemma record_files_NoDup (d : gmap string entry) : NoDup (record_files d).
Proof.
  unfold record_files. apply NoDup_ListNoDup, List.NoDup_filter, NoDup_ListNoDup.
  apply NoDup_fst_map_to_list.
Qed.

Section Aggregate.

Context `{Json}.

Lemma read_and_parse (x : string) (v : pyval) (w : world) :
  holds_json (cwd w) x v ->
  (text ← read_file x; loads text) w = (Val v, w).
Proof.
  intros (text & Hfile & Hparse).
  rewrite run_bind. unfold read_file. rewrite Hfile.
  unfold loads. now rewrite Hparse.
Qed.

Lemma comprehension_read_and_parse (files : list string) (w : world) :
  Forall (fun x => exists v, holds_json (cwd w) x v) files ->
  exists data,
    comprehension (fun x => text ← read_file x; loads text) files w = (Val data, w) /\
    Forall2 (holds_json (cwd w)) files data.
Proof.
  induction 1 as [|x files [v Hx] _ (data & Hrun & Hall)].
  - exists []. split; [reflexivity | constructor].
  - exists (v :: data). split; [|now constructor].
    cbn [comprehension]. rewrite run_bind, (read_and_parse _ _ _ Hx).
    rewrite run_bind, Hrun. reflexivity.
Qed.

(** The export of a directory whose record files all hold valid JSON. *)
Lemma get_articles_data_run (w : world) :
  (forall x, x ∈ record_files (cwd w) -> exists v, holds_json (cwd w) x v) ->
  exists data,
    get_articles_data w = (Val (PyStr.encode_utf8 (json_dumps None (PList data))), w) /\
    Forall2 (holds_json (cwd w)) (record_files (cwd w)) data.
Proof.
  intros Hfiles.
  destruct (comprehension_read_and_parse (record_files (cwd w)) w)
    as (data & Hrun & Hall).
  { apply Forall_forall. intros x Hx. now apply Hfiles. }
  exists data. split; [|exact Hall].
  unfold get_articles_data. rewrite run_bind. unfold listdir at 1.
  fold (record_files (cwd w)). rewrite run_bind, Hrun. reflexivity.
Qed.


End Aggregate.


(** ** Rules for specifications of runs *)

Lemma triple_weaken {A} (P P' : world -> Prop) (c : M A)
    (Q Q' : A -> world -> Prop) (E E' : world -> Prop) :
  triple P c Q E ->
  (forall w, P' w -> P w) ->
  (forall a w, Q a w -> Q' a w) ->
  (forall w, E w -> E' w) ->
  triple P' c Q' E'.
Proof.
  intros Hc HP HQ HE w Hw. specialize (Hc w (HP w Hw)).
  destruct (c w) as [[a|e] w']; auto.
Qed.

Lemma triple_ret {A} (P : world -> Prop) (a : A) (Q : A -> world -> Prop)
    (E : world -> Prop) :
  (forall w, P w -> Q a w) -> triple P (mret a) Q E.
Proof. intros HQ w Hw. now apply HQ. Qed.

Lemma triple_bind {A B} (P : world -> Prop) (c : M A) (k : A -> M B)
    (Q : A -> world -> Prop) (R : B -> world -> Prop) (E : world -> Prop) :
  triple P c Q E ->
  (forall a, triple (Q a) (k a) R E) ->
  triple P (c ≫= k) R E.
Proof.
  intros Hc Hk w Hw. rewrite run_bind. specialize (Hc w Hw).
  destruct (c w) as [[a|e] w']; [now apply Hk | exact Hc].
Qed.

Lemma triple_assume {A} (P : world -> Prop) (phi : Prop) (c : M A)
    (Q : A -> world -> Prop) (E : world -> Prop) :
  (phi -> triple P c Q E) -> triple (fun w => P w /\ phi) c Q E.
Proof. intros Hc w [Hw Hphi]. now apply Hc. Qed.

(** A computation that leaves the world as it is returns what it returns
    in a world that still satisfies the precondition. *)
Lemma triple_same {A} (P : world -> Prop) (c : M A) :
  (forall w, snd (c w) = w) ->
  triple P c (fun a w => P w /\ fst (c w) = Val a) P.
Proof.
  intros Hc w Hw. specialize (Hc w).
  destruct (c w) as [[a|e] w'] eqn:Hrun; simpl in Hc; subst w'; [|exact Hw].
  split; [exact Hw|]. now rewrite Hrun.
Qed.

Lemma keeps_same {A} (I : world -> Prop) (c : M A) : (forall w, snd (c w) = w) -> keeps I c.
Proof.
  intros Hc.
  apply (triple_weaken I I c _ _ I I (triple_same I c Hc)); [auto | | auto].
  now intros a w [Hw _].
Qed.

Lemma keeps_ret {A} (I : world -> Prop) (a : A) : keeps I (mret a).
Proof. now apply triple_ret. Qed.

Lemma keeps_lift {A} (I : world -> Prop) (r : res A) : keeps I (lift r).
Proof. now apply keeps_same. Qed.

Lemma keeps_raise {A} (I : world -> Prop) (e : exn) : keeps I (raise e : M A).
Proof. now apply keeps_same. Qed.

Lemma keeps_bind {A B} (I : world -> Prop) (c : M A) (k : A -> M B) :
  keeps I c -> (forall a, keeps I (k a)) -> keeps I (c ≫= k).
Proof. intros Hc Hk. eapply triple_bind; [exact Hc | exact Hk]. Qed.

(** The continuation may use what the first computation is known to
    return. *)
Lemma keeps_bind_value {A B} (I : world -> Prop) (c : M A) (k : A -> M B)
    (V : A -> Prop) :
  triple I c (fun a w => I w /\ V a) I ->
  (forall a, V a -> keeps I (k a)) ->
  keeps I (c ≫= k).
Proof.
  intros Hc Hk. eapply triple_bind; [exact Hc|].
  intros a. apply (triple_assume I (V a)). apply Hk.
Qed.


Lemma keeps_render S I (x : widget) : stable S I -> S x -> keeps I (render x).
Proof. intros [Hpage _] Hx w Hw. now apply Hpage. Qed.

Lemma keeps_error S I (msg : string) :
  stable S I -> S (Error msg) -> keeps I (error msg).
Proof. apply keeps_render. Qed.

Lemma keeps_alloc S I (l : list string) : stable S I -> keeps I (alloc l).
Proof. intros [_ Hheap] w Hw. now apply Hheap. Qed.

Lemma keeps_load I (r : loc) : keeps I (load r).
Proof. apply keeps_same. intros w. unfold load. now destruct (heap w !! r). Qed.

Lemma keeps_comprehension {A B} I (f : A -> M B) (l : list A) :
  (forall x, keeps I (f x)) -> keeps I (comprehension f l).
Proof.
  intros Hf. induction l as [|x l IH]; cbn [comprehension].
  - apply keeps_ret.
  - apply keeps_bind; [apply Hf|]. intros y.
    apply keeps_bind; [exact IH|]. intros ys. apply keeps_ret.
Qed.

(** A computation returns only values it returns from some world. *)
Lemma keeps_value {A} (I : world -> Prop) (c : M A) :
  keeps I c ->
  triple I c (fun a w => I w /\ exists w0, fst (c w0) = Val a) I.
Proof.
  intros Hc w Hw. specialize (Hc w Hw).
  destruct (c w) as [[a|e] w'] eqn:Hrun; [|exact Hc].
  split; [exact Hc|]. exists w. now rewrite Hrun.
Qed.

(** ** What the script keeps

    An invariant that survives the widgets of the steps before the
    annotation step survives the whole script, provided the annotation
    step, where it is reached, keeps it as well. *)

Ltac keeps_widget :=
  cbv beta;
  first
    [ exact Logic.I
    | match goal with
      | Hothers : forall x, x <> annotation_heading -> ?S x |- ?S _ =>
          apply Hothers; unfold annotation_heading; simpl; discriminate
      | Hall : forall x, ?S x |- ?S _ => apply Hall
      end ].

Ltac keeps_step :=
  first
    [ apply keeps_ret
    | apply keeps_lift
    | apply keeps_raise
    | apply keeps_load
    | eapply keeps_alloc; eassumption
    | eapply keeps_render; [eassumption | keeps_widget]
    | eapply keeps_error; [eassumption | keeps_widget]
    | apply keeps_comprehension; intros ?
    | apply keeps_bind; [|intros ?]
    | match goal with |- keeps _ (if ?b then _ else _) => destruct b end
    | match goal with |- keeps _ (match ?x with _ => _ end) => destruct x end ].

Ltac keeps_run := repeat keeps_step.

Section Keeps.

Context `{Json}.
Variable user : session.
Variables (S : widget -> Prop) (I : world -> Prop).
Hypothesis Hstable : stable S I.
Hypothesis Hothers : forall x, x <> annotation_heading -> S x.

Lemma check_categories_keeps (categories : loc) : keeps I (check_categories categories).
Proof. unfold check_categories. keeps_run. Qed.

Lemma get_prompt_keeps (self : PromptBuilder) : keeps I (get_prompt self).
Proof. unfold get_prompt. keeps_run. Qed.

Lemma check_article_data_keeps (raw : string) : keeps I (check_article_data raw).
Proof. unfold check_article_data. keeps_run. Qed.

Lemma check_qa_data_keeps (raw : string) : keeps I (check_qa_data raw).
Proof. unfold check_qa_data, has_both_texts. keeps_run. Qed.

Lemma check_metadata_keeps (data : pydict) : keeps I (check_metadata data).
Proof. unfold check_metadata. keeps_run. Qed.

Lemma get_articles_data_keeps : keeps I get_articles_data.
Proof.
  unfold get_articles_data. apply keeps_bind; [now apply keeps_same|]. intros files.
  apply keeps_bind; [|intros data; apply keeps_ret].
  apply keeps_comprehension. intros x.
  apply keeps_bind.
  - apply keeps_same. intros w. unfold read_file.
    now destruct (cwd w !! x) as [[| |]|].
  - intros text. unfold loads. keeps_run.
Qed.

Section Gate.

Variable F : world -> Prop.
Hypothesis HIF : forall w, I w -> F w.

Hypothesis Hannotation : forall article_data qas,
  (exists w0, fst (check_article_data (input_article_data user) w0) = Val article_data) ->
  (exists w0, fst (check_qa_data (input_qa_data user) w0) = Val qas) ->
  Py.truthy article_data = true ->
  Py.truthy qas = true ->
  ends I F (annotation_step user article_data qas).

Lemma ends_ret {A} (a : A) : ends I F (mret a).
Proof. apply triple_ret. exact HIF. Qed.

Lemma ends_bind {A B} (c : M A) (k : A -> M B) :
  keeps I c -> (forall a, ends I F (k a)) -> ends I F (c ≫= k).
Proof.
  intros Hc Hk. eapply triple_bind; [|exact Hk].
  apply (triple_weaken I I c (fun _ => I) (fun _ => I) I F Hc); auto.
Qed.

Lemma ends_bind_value {A B} (c : M A) (k : A -> M B) (V : A -> Prop) :
  triple I c (fun a w => I w /\ V a) I ->
  (forall a, V a -> ends I F (k a)) ->
  ends I F (c ≫= k).
Proof.
  intros Hc Hk. eapply triple_bind.
  - apply (triple_weaken I I c _ (fun a w => I w /\ V a) I F Hc); auto.
  - intros a. apply (triple_assume I (V a)). apply Hk.
Qed.

Lemma qa_step_ends (article_data : pyval) :
  (exists w0, fst (check_article_data (input_article_data user) w0) = Val article_data) ->
  Py.truthy article_data = true ->
  ends I F (qa_step user article_data).
Proof.
  intros Harticle Htruthy_article.
  unfold qa_step, markdown, code, qa_area.
  do 7 (apply ends_bind; [keeps_run | intros ?]).
  apply (ends_bind_value _ _ (fun raw2 => raw2 = input_qa_data user)).
  { intros w Hw. split; [|reflexivity].
    eapply (proj1 Hstable); [|exact Hw]. keeps_widget. }
  intros raw2 ->.
  eapply ends_bind_value.
  { apply keeps_value, check_qa_data_keeps. }
  intros qas Hqas. simpl in Hqas.
  destruct (Py.truthy qas) eqn:Htruthy; [|apply ends_ret].
  now apply Hannotation.
Qed.

(** The article step after it has shown the prompt. *)
Lemma article_step_ends_after :
  exists rest : M unit,
    (forall topic categories,
       article_step user topic categories =
         (prompt ← get_prompt {| article_topic := topic;
                                 sensitive_categories := categories;
                                 num_words := 1000 |};
          markdown "## Article Generation prompt";;
          markdown (nl +:+ "        Please review the following prompt before copy-pasting it into your " +:+
                    nl +:+ "        favorite LLM chat service. When you're done, come back here." +:+
                    nl +:+ "        ");;
          code prompt;;
          rest)) /\
    ends I F rest.
Proof.
  eexists. split; [intros topic categories; reflexivity|].
  unfold markdown, article_area.
  do 2 (apply ends_bind; [keeps_run | intros ?]).
  apply (ends_bind_value _ _ (fun raw1 => raw1 = input_article_data user)).
  { intros w Hw. split; [|reflexivity].
    eapply (proj1 Hstable); [|exact Hw]. keeps_widget. }
  intros raw1 ->.
  eapply ends_bind_value.
  { apply keeps_value, check_article_data_keeps. }
  intros article_data Harticle. simpl in Harticle.
  destruct (Py.truthy article_data) eqn:Htruthy; [|apply ends_ret].
  now apply qa_step_ends.
Qed.

Lemma article_step_ends (topic : string) (categories : loc) :
  ends I F (article_step user topic categories).
Proof.
  destruct article_step_ends_after as (rest & -> & Hrest).
  unfold markdown, code.
  apply ends_bind; [apply get_prompt_keeps | intros prompt].
  do 3 (apply ends_bind; [keeps_run | intros ?]).
  exact Hrest.
Qed.

Lemma app_ends : ends I F (app user).
Proof.
  unfold app, markdown, text_input, categories_editor.
  do 5 (apply ends_bind; [keeps_run | intros ?]).
  apply ends_bind; [apply get_articles_data_keeps | intros data].
  apply ends_bind; [keeps_run | intros ?].
  destruct (PyStr.truthy _); [|apply ends_ret].
  do 2 (apply ends_bind; [keeps_run | intros ?]).
  apply ends_bind; [apply check_categories_keeps | intros accepted].
  destruct accepted; [apply article_step_ends | apply ends_ret].
Qed.

End Gate.

End Keeps.

Section KeepsAll.

Context `{Json}.
Variable user : session.
Variables (S : widget -> Prop) (I : world -> Prop).
Hypothesis Hstable : stable S I.
Hypothesis Hall : forall x, S x.
Hypothesis Hpage : page_only I.

Lemma save_article_data_keeps (data : pyval) : keeps I (save_article_data data).
Proof.
  unfold save_article_data. apply keeps_bind.
  - intros w Hw. now apply (proj2 Hpage).
  - intros n w Hw. unfold write_file.
    destruct (cwd w !! _) as [[| |]|]; try exact Hw; now apply (proj1 Hpage).
Qed.

(** The annotation step after its heading. *)
Lemma annotation_step_keeps_after (article_data qas : pyval) :
  exists rest : M unit,
    annotation_step user article_data qas = (render annotation_heading ≫= fun _ => rest) /\
    keeps I rest.
Proof.
  eexists. split; [reflexivity|].
  unfold markdown, qa_editor, metadata_editor, button.
  do 13 (apply keeps_bind; [keeps_run | intros ?]).
  apply keeps_bind; [apply (check_metadata_keeps S I Hstable (fun x _ => Hall x)) | intros checked].
  destruct (Py.truthy checked); [|apply keeps_ret].
  apply keeps_bind; [keeps_run | intros pressed].
  destruct pressed; [|apply keeps_ret].
  apply keeps_bind; [now apply keeps_same | intros now].
  apply save_article_data_keeps.
Qed.

Lemma annotation_step_keeps (article_data qas : pyval) :
  keeps I (annotation_step user article_data qas).
Proof.
  destruct (annotation_step_keeps_after article_data qas) as (rest & -> & Hrest).
  apply keeps_bind; [keeps_run | intros _; exact Hrest].
Qed.

(** Whatever the script has rendered stays on the page. *)
Lemma app_keeps_all : keeps I (app user).
Proof.
  apply (app_ends user S I Hstable (fun x _ => Hall x) I); [auto|].
  intros article_data qas _ _ _ _. apply annotation_step_keeps.
Qed.

End KeepsAll.

Lemma stable_rendered (x : widget) :
  stable (fun _ => True) (fun w => x ∈ page w) /\ page_only (fun w => x ∈ page w).
Proof.
  split; split; simpl; auto.
  intros w y _ Hx. apply elem_of_app. now left.
Qed.

Lemma stable_not_rendered (x : widget) :
  stable (fun y => y <> x) (fun w => x ∉ page w).
Proof.
  split; simpl; auto.
  intros w y Hy Hx Hin. apply elem_of_app in Hin as [Hin|Hin]; [now apply Hx|].
  apply list_elem_of_singleton in Hin. now apply Hy.
Qed.

(** The heading marks the annotation step: the step renders it, whatever
    happens next. *)
Lemma annotation_step_renders_heading `{Json} (user : session)
    (article_data qas : pyval) (w : world) :
  annotation_heading ∈ page (snd (annotation_step user article_data qas w)).
Proof.
  pose proof (stable_rendered annotation_heading) as [Hstable Hpage].
  destruct (annotation_step_keeps_after user (fun _ => True) _ Hstable
              (fun _ => Logic.I) Hpage article_data qas) as (rest & -> & Hrest).
  rewrite run_bind. unfold render at 1.
  specialize (Hrest (set_page (fun p => p ++ [annotation_heading]) w)).
  destruct (rest _) as [[[]|e] w2]; apply Hrest; simpl;
    apply elem_of_app; right; now apply list_elem_of_singleton.
Qed.

Lemma keeps_snd {A} (I : world -> Prop) (c : M A) (w : world) :
  keeps I c -> I w -> I (snd (c w)).
Proof.
  intros Hc Hw. specialize (Hc w Hw). destruct (c w) as [[a|e] w']; exact Hc.
Qed.

(** ** The gate after the Q&A validator *)

(** C8. When the pasted Q&A text is [[]], [check_qa_data] returns the empty
    list and reports nothing; the empty list is falsy, so a run of the
    script on that text never renders the annotation step. *)
Theorem empty_qa_list_passes_but_stops `{Json} :
  json_loads "[]" = Some (PList []) ->
  (forall w, check_qa_data "[]" w = (Val (PList []), w)) /\
  Py.truthy (PList []) = false /\
  (forall user files rnd now,
     input_qa_data user = "[]" ->
     annotation_heading ∉ page (snd (run user files rnd now))).
Proof.
  intros Hparse.
  assert (Hcheck : forall w, check_qa_data "[]" w = (Val (PList []), w)).
  { intros w. now rewrite (check_qa_data_parsed _ _ _ Hparse). }
  split; [exact Hcheck|]. split; [reflexivity|].
  intros user files rnd now Hraw. unfold run.
  apply keeps_snd; [|simpl; apply not_elem_of_nil].
  apply (app_ends user (fun y => y <> annotation_heading) _
           (stable_not_rendered annotation_heading)); [auto | auto |].
  intros article_data qas _ [w0 Hqas] _ Htruthy.
  rewrite Hraw, Hcheck in Hqas. simpl in Hqas.
  injection Hqas as <-. discriminate.
Qed.

Lemma empty_qa_list_passes_but_stops_witness :
  json_loads "[]" = Some (PList []) /\
  (forall w, check_qa_data "[]" w = (Val (PList []), w)) /\
  Py.truthy (PList []) = false /\
  annotation_heading ∉ page (snd (run Sample.user_empty_qas ∅ [] (S754_zero false))).
Proof.
  assert (Hparse : json_loads "[]" = Some (PList [])) by reflexivity.
  split; [exact Hparse|].
  destruct (empty_qa_list_passes_but_stops Hparse) as (Hcheck & Hfalsy & Hrun).
  split; [exact Hcheck|]. split; [exact Hfalsy|].
  apply Hrun. reflexivity.
Defined.

(** ** The category list and the article prompt *)

(** [check_categories] returns, and every list object of the heap is after
    the call what it was before: the two lists the validator builds are new
    objects. *)
Lemma check_categories_frame (w : world) (categories : loc) (entries : list string) :
  heap w !! categories = Some entries ->
  exists ok w',
    check_categories categories w = (Val ok, w') /\
    (ok = true <-> (4 <= spec_count entries <= 7)%nat) /\
    forall r l, heap w !! r = Some l -> heap w' !! r = Some l.
Proof.
  intros Hc. rewrite (check_categories_run _ _ _ Hc).
  destruct (spec_count entries <? 4)%nat eqn:Hlo;
    [|destruct (7 <? spec_count entries)%nat eqn:Hhi];
    eexists _, _; (split; [reflexivity|]);
    rewrite ?Nat.ltb_lt, ?Nat.ltb_ge in *;
    (split; [split; [try discriminate; lia | intros; try lia; reflexivity]|]);
    intros r l Hr; simpl; now apply lookup_app_l_Some.
Qed.

Section Prompt.

Context `{Json}.
Variable user : session.

Lemma get_prompt_run (self : PromptBuilder) (entries : list string) (w : world) :
  heap w !! sensitive_categories self = Some entries ->
  get_prompt self w =
    (Val (prompt_text (article_topic self) (num_words self) entries (json_format entries)), w).
Proof.
  intros Hc. unfold get_prompt.
  rewrite run_bind, (run_load _ _ _ Hc). cbv zeta.
  rewrite run_bind, (run_load _ _ _ Hc). reflexivity.
Qed.

(** The article step shows the prompt built from the list its reference
    points to. *)
Lemma article_step_shows_prompt (topic : string) (categories : loc)
    (entries : list string) (w : world) :
  heap w !! categories = Some entries ->
  Code (prompt_text topic 1000 entries (json_format entries))
    ∈ page (snd (article_step user topic categories w)).
Proof.
  intros Hc.
  pose proof (stable_rendered (Code (prompt_text topic 1000 entries (json_format entries))))
    as [Hstable Hpage].
  destruct (article_step_ends_after user (fun _ => True) _ Hstable (fun _ _ => Logic.I)
              (fun w => Code (prompt_text topic 1000 entries (json_format entries)) ∈ page w))
    as (rest & -> & Hrest); [auto | |].
  { intros article_data qas _ _ _ _.
    now apply (annotation_step_keeps user (fun _ => True)). }
  rewrite run_bind, (get_prompt_run _ entries) by exact Hc.
  cbn [article_topic num_words].
  unfold markdown, code.
  do 3 (rewrite run_bind; unfold render at 1; cbv beta iota).
  apply keeps_snd; [exact Hrest|]. simpl.
  apply elem_of_app. right. now apply list_elem_of_singleton.
Qed.

(** What the script has done when it reaches the category gate: the
    directory is as it was, and nothing has raised. *)
Lemma app_reaches_article_step (files : gmap string entry) (rnd : list Z) (now : spec_float) :
  PyStr.truthy (input_topic user) = true ->
  (forall x, x ∈ record_files files -> exists v, holds_json files x v) ->
  (4 <= spec_count (input_categories user) <= 7)%nat ->
  exists categories w,
    heap w !! categories = Some (input_categories user) /\
    run user files rnd now = article_step user (input_topic user) categories w.
Proof.
  intros Htopic Hfiles Hcount. unfold run, app, markdown, text_input, categories_editor.
  do 2 (rewrite run_bind; unfold render at 1; cbv beta iota).
  rewrite run_bind, run_bind. unfold render at 1. cbv beta iota. rewrite run_ret.
  do 2 (rewrite run_bind; unfold render at 1; cbv beta iota).
  rewrite run_bind.
  match goal with |- context [get_articles_data ?w] =>
    destruct (get_articles_data_run w) as (data & -> & _); [exact Hfiles|] end.
  rewrite run_bind. unfold render at 1. cbv beta iota.
  rewrite Htopic.
  rewrite run_bind. unfold render at 1. cbv beta iota.
  rewrite run_bind, run_bind. unfold render at 1. cbv beta iota.
  unfold alloc at 1. cbv beta iota.
  rewrite run_bind.
  match goal with |- context [check_categories ?c ?w] =>
    destruct (check_categories_frame w c (input_categories user))
      as (ok & w' & -> & Hok & Hframe); [reflexivity|];
    exists c, w'; split; [apply Hframe; reflexivity|] end.
  apply Hok in Hcount. now subst ok.
Qed.

End Prompt.

(** C10. [check_categories] leaves every list object as it found it, the
    caller's list among them; so a run that passes the category gate shows
    the prompt built from the entries as the user typed them, with their
    padding and their duplicates. *)
Theorem categories_unchanged_in_prompt `{Json} :
  (forall w categories entries,
     heap w !! categories = Some entries ->
     exists ok w',
       check_categories categories w = (Val ok, w') /\
       forall r l, heap w !! r = Some l -> heap w' !! r = Some l) /\
  (forall user files rnd now,
     PyStr.truthy (input_topic user) = true ->
     (forall x, x ∈ record_files files -> exists v, holds_json files x v) ->
     (4 <= spec_count (input_categories user) <= 7)%nat ->
     Code (prompt_text (input_topic user) 1000 (input_categories user)
             (json_format (input_categories user)))
       ∈ page (snd (run user files rnd now))).
Proof.
  split.
  - intros w categories entries Hc.
    destruct (check_categories_frame w categories entries Hc) as (ok & w' & Hrun & _ & Hframe).
    now exists ok, w'.
  - intros user files rnd now Htopic Hfiles Hcount.
    destruct (app_reaches_article_step user files rnd now Htopic Hfiles Hcount)
      as (categories & w & Hc & ->).
    now apply article_step_shows_prompt.
Qed.

(** ** The persisted record *)

Lemma dict_get_set_eq (k : string) (v : pyval) (d : pydict) :
  Py.dict_get k (Py.dict_set k v d) = Some v.
Proof.
  induction d as [|[k' v'] d IH]; simpl.
  - now rewrite String.eqb_refl.
  - destruct (String.eqb k k') eqn:Hk; simpl; rewrite Hk; [reflexivity | exact IH].
Qed.

Lemma dict_get_set_ne (k k' : string) (v : pyval) (d : pydict) :
  k' <> k -> Py.dict_get k' (Py.dict_set k v d) = Py.dict_get k' d.
Proof.
  intros Hne. induction d as [|[k0 v0] d IH]; simpl.
  - apply String.eqb_neq in Hne. now rewrite Hne.
  - destruct (String.eqb k k0) eqn:Hk; simpl.
    + apply String.eqb_eq in Hk. subst k0.
      apply String.eqb_neq in Hne. now rewrite Hne.
    + destruct (String.eqb k' k0); [reflexivity | exact IH].
Qed.

Section Persisted.

Context `{Json}.

Lemma check_article_data_truthy (raw : string) (v : pyval) (w : world) :
  fst (check_article_data raw w) = Val v ->
  Py.truthy v = true ->
  json_loads raw = Some v.
Proof.
  destruct (json_loads raw) as [parsed|] eqn:Hraw.
  - rewrite (check_article_data_parsed _ _ _ Hraw).
    destruct (PyOp.contains "article_text" parsed) as [[|]|e];
      [destruct (PyOp.contains "sensitive_category_to_instances" parsed) as [[|]|e]| |];
      simpl; intros [= <-]; try discriminate; reflexivity.
  - rewrite (check_article_data_invalid _ _ Hraw). simpl. intros [= <-]. discriminate.
Qed.

Lemma check_qa_data_truthy (raw : string) (v : pyval) (w : world) :
  fst (check_qa_data raw w) = Val v ->
  Py.truthy v = true ->
  json_loads raw = Some v.
Proof.
  destruct (json_loads raw) as [parsed|] eqn:Hraw.
  - rewrite (check_qa_data_parsed _ _ _ Hraw).
    destruct parsed; simpl; try (intros [= <-]; discriminate).
    destruct (decide (Exists scalar l)); [discriminate|].
    destruct (forallb has_texts l); simpl; intros [= <-]; try discriminate; reflexivity.
  - rewrite (check_qa_data_invalid _ _ Hraw). simpl. intros [= <-]. discriminate.
Qed.

Variable user : session.
Variable files : gmap string entry.
Variable now : spec_float.

Lemma untouched_stable : stable (fun _ => True) (untouched files now).
Proof. split; auto. Qed.

Lemma untouched_persisted (w : world) :
  untouched files now w -> persisted user files now (cwd w).
Proof. intros [Hfiles _]. now left. Qed.

Lemma annotation_step_persists (article_data qas : pyval) :
  json_loads (input_article_data user) = Some article_data ->
  json_loads (input_qa_data user) = Some qas ->
  ends (untouched files now) (fun w => persisted user files now (cwd w))
    (annotation_step user article_data qas).
Proof.
  intros Harticle Hqas.
  pose proof untouched_stable as Hstable.
  assert (Hall : forall x : widget, True) by auto.
  unfold annotation_step, markdown, qa_editor, metadata_editor, button.
  do 10 (apply ends_bind; [exact untouched_persisted | keeps_run | intros ?]).
  apply (ends_bind_value _ _ untouched_persisted _ _
           (fun edited => edited = input_edited_qas user)).
  { intros w Hw. now split. }
  intros edited_qas ->.
  do 2 (apply ends_bind; [exact untouched_persisted | keeps_run | intros ?]).
  apply (ends_bind_value _ _ untouched_persisted _ _
           (fun metadata => metadata = input_metadata user)).
  { intros w Hw. now split. }
  intros metadata ->.
  apply ends_bind;
    [exact untouched_persisted
    | apply (check_metadata_keeps (fun _ => True) _ Hstable (fun x _ => Hall x))
    | intros checked].
  destruct (Py.truthy checked); [|now apply ends_ret, untouched_persisted].
  apply ends_bind; [exact untouched_persisted | keeps_run | intros pressed].
  destruct pressed; [|now apply ends_ret, untouched_persisted].
  apply (ends_bind_value _ _ untouched_persisted _ _ (fun t => t = now)).
  { intros w Hw. split; [exact Hw | exact (proj2 Hw)]. }
  intros t -> w [Hfiles Hclock].
  destruct (save_article_data_run
              (annotated_record article_data (input_edited_qas user) qas
                 (input_metadata user) now) w) as (N & HN & ->).
  destruct (cwd w !! record_name N) as [[| |]|]; simpl;
    try (left; exact Hfiles);
    right; exists N, article_data, qas; rewrite Hfiles; auto.
Qed.

(** Whatever a run of the script leaves in the directory. *)
Lemma run_persists (rnd : list Z) :
  persisted user files now (cwd (snd (run user files rnd now))).
Proof.
  unfold run.
  assert (Happ : ends (untouched files now)
                   (fun w => persisted user files now (cwd w)) (app user)).
  { apply (app_ends user (fun _ => True) _ untouched_stable (fun _ _ => Logic.I));
      [exact untouched_persisted|].
    intros article_data qas [w1 Harticle] [w2 Hqas] Htruthy_article Htruthy_qas.
    apply annotation_step_persists.
    - exact (check_article_data_truthy _ _ _ Harticle Htruthy_article).
    - exact (check_qa_data_truthy _ _ _ Hqas Htruthy_qas). }
  specialize (Happ (World [] [] files rnd now) (conj eq_refl eq_refl)).
  destruct (app user _) as [[[]|e] w']; exact Happ.
Qed.

End Persisted.

(** C7, amended. The record handed to [save_article_data] has exactly the
    keys [article_data], [edited_qas], [qas] and [metadata]; its metadata
    is the user's mapping with [created_at] set to the time of submission,
    so every pair the user entered under another key is passed through
    unchanged and a [created_at] the user entered is replaced; and whatever
    a run adds to the directory is the JSON text of such a record. *)
Theorem annotated_record_shape `{Json} :
  (forall article_data edited_qas qas metadata now,
     exists fields stamped,
       annotated_record article_data edited_qas qas metadata now = PDict fields /\
       Py.dict_keys fields = ["article_data"; "edited_qas"; "qas"; "metadata"] /\
       Py.dict_get "article_data" fields = Some article_data /\
       Py.dict_get "edited_qas" fields = Some edited_qas /\
       Py.dict_get "qas" fields = Some qas /\
       Py.dict_get "metadata" fields = Some (PDict stamped) /\
       Py.dict_get "created_at" stamped = Some (PFloat now) /\
       forall k, k <> "created_at" -> Py.dict_get k stamped = Py.dict_get k metadata) /\
  (forall user files rnd now,
     persisted user files now (cwd (snd (run user files rnd now)))).
Proof.
  split.
  - intros article_data edited_qas qas metadata now.
    eexists _, _. split; [reflexivity|].
    repeat (split; [reflexivity|]).
    split; [apply dict_get_set_eq|].
    intros k Hk. now apply dict_get_set_ne.
  - intros user files rnd now. apply run_persists.
Qed.

(** C7 as stated fails: a [created_at] that the user entered in the
    metadata editor is not passed through; the submission that carries it
    persists a record whose [created_at] is the clock reading. *)
Lemma user_created_at_is_replaced :
  Py.dict_get "created_at" (input_metadata Sample.user_submitting)
    = Some (PStr "yesterday") /\
  exists stamped,
    cwd (snd (run Sample.user_submitting ∅ [7] Sample.half_past_midnight))
      = {[ "annotated-synthetic-article7.json" :=
             File (json_dumps None
                     (PDict [("article_data", Sample.article_data);
                             ("edited_qas", input_edited_qas Sample.user_submitting);
                             ("qas", Sample.qas);
                             ("metadata", PDict stamped)])) ]} /\
    Py.dict_get "created_at" stamped = Some (PFloat Sample.half_past_midnight) /\
    Py.dict_get "created_at" stamped
      <> Py.dict_get "created_at" (input_metadata Sample.user_submitting).
Proof.
  split; [reflexivity|].
  exists [("LLM", PStr "gpt-x"); ("created_at", PFloat Sample.half_past_midnight)].
  split; [vm_compute; reflexivity|].
  split; [reflexivity | discriminate].
Qed.

Lemma annotated_record_shape_witness :
  (exists fields stamped,
     annotated_record Sample.article_data (input_edited_qas Sample.user_submitting)
       Sample.qas Sample.metadata_with_created_at Sample.half_past_midnight = PDict fields /\
     Py.dict_keys fields = ["article_data"; "edited_qas"; "qas"; "metadata"] /\
     Py.dict_get "metadata" fields = Some (PDict stamped) /\
     Py.dict_get "created_at" stamped = Some (PFloat Sample.half_past_midnight) /\
     Py.dict_get "LLM" stamped = Py.dict_get "LLM" Sample.metadata_with_created_at) /\
  persisted Sample.user_submitting ∅ Sample.half_past_midnight
    (cwd (snd (run Sample.user_submitting ∅ [7] Sample.half_past_midnight))).
Proof.
  destruct annotated_record_shape as [Hshape Hrun]. split.
  - destruct (Hshape Sample.article_data (input_edited_qas Sample.user_submitting)
                Sample.qas Sample.metadata_with_created_at Sample.half_past_midnight)
      as (fields & stamped & Hrecord & Hkeys & _ & _ & _ & Hmeta & Hstamp & Hother).
    exists fields, stamped. repeat (split; [assumption|]).
    apply Hother. discriminate.
  - apply Hrun.
Defined.

(** The prompt of a run is built from the entries as typed: one entry
    padded with blanks and one entered twice still make four categories, and
    the prompt lists all five entries. *)
Lemma categories_unchanged_in_prompt_witness :
  (exists ok w',
     check_categories 0 Sample.world1 = (Val ok, w') /\
     forall r l, heap Sample.world1 !! r = Some l -> heap w' !! r = Some l) /\
  spec_count Sample.padded_entries = 4%nat /\
  Code (prompt_text "a medical record" 1000 Sample.padded_entries
          (json_format Sample.padded_entries))
    ∈ page (snd (run Sample.user_at_categories ∅ [] (S754_zero false))).
Proof.
  destruct categories_unchanged_in_prompt as [Hframe Hprompt]. split; [|split].
  - apply (Hframe Sample.world1 0%nat Sample.entries). reflexivity.
  - reflexivity.
  - apply (Hprompt Sample.user_at_categories ∅ [] (S754_zero false)).
    + reflexivity.
    + intros x Hx. change (record_files ∅) with (@nil string) in Hx.
      now apply not_elem_of_nil in Hx.
    + change (spec_count (input_categories Sample.user_at_categories)) with 4%nat. lia.
Defined.

(** * Further results on the script *)

(** ** Dictionaries built by assignment *)

Lemma dict_keys_set (k : string) (v : pyval) (d : pydict) :
  Py.dict_keys (Py.dict_set k v d)
  = if Py.dict_has k d then Py.dict_keys d else Py.dict_keys d ++ [k].
Proof.
  induction d as [|[k' v'] d IH]; simpl; [reflexivity|].
  destruct (String.eqb k k') eqn:Hk; simpl; [reflexivity|].
  rewrite IH. now destruct (Py.dict_has k d).
Qed.

Lemma dict_has_keys (k : string) (d : pydict) :
  Py.dict_has k d = true <-> k ∈ Py.dict_keys d.
Proof.
  unfold Py.dict_has, Py.dict_keys. rewrite existsb_exists, list_elem_of_In, in_map_iff.
  split.
  - intros ([k' v] & Hin & Heq). simpl in Heq. apply String.eqb_eq in Heq. subst k'.
    now exists (k, v).
  - intros ([k' v] & Heq & Hin). simpl in Heq. subst k'.
    exists (k, v). split; [exact Hin | apply String.eqb_refl].
Qed.

Lemma dict_keys_set_NoDup (k : string) (v : pyval) (d : pydict) :
  NoDup (Py.dict_keys d) -> NoDup (Py.dict_keys (Py.dict_set k v d)).
Proof.
  intros Hd. rewrite dict_keys_set.
  destruct (Py.dict_has k d) eqn:Hk; [exact Hd|].
  apply NoDup_app. split; [exact Hd|]. split; [|apply NoDup_singleton].
  intros x Hx Hin. apply list_elem_of_singleton in Hin. subst x.
  apply dict_has_keys in Hx. congruence.
Qed.

Lemma dict_keys_set_elem (k k' : string) (v : pyval) (d : pydict) :
  k' ∈ Py.dict_keys (Py.dict_set k v d) <-> k' = k \/ k' ∈ Py.dict_keys d.
Proof.
  rewrite dict_keys_set. destruct (Py.dict_has k d) eqn:Hk.
  - apply dict_has_keys in Hk. split; [now right | intros [->|Hin]; assumption].
  - rewrite elem_of_app, list_elem_of_singleton. tauto.
Qed.

(** The schema after the comprehension has run over [categories] from the
    dictionary [acc]. *)
Lemma schema_fold (categories : list string) (acc : pydict) :
  let schema := fold_left (fun d k => Py.dict_set k (PStr "string[]") d) categories acc in
  (NoDup (Py.dict_keys acc) -> NoDup (Py.dict_keys schema)) /\
  (forall k, k ∈ Py.dict_keys schema <-> k ∈ categories \/ k ∈ Py.dict_keys acc) /\
  (forall k, k ∈ categories -> Py.dict_get k schema = Some (PStr "string[]")) /\
  (forall k, k ∉ categories -> Py.dict_get k schema = Py.dict_get k acc).
Proof.
  revert acc. induction categories as [|c categories IH]; intros acc; simpl.
  - repeat split; try tauto.
    + intros [Hin|Hin]; [now apply not_elem_of_nil in Hin | exact Hin].
    + intros k Hin. now apply not_elem_of_nil in Hin.
  - destruct (IH (Py.dict_set c (PStr "string[]") acc)) as (Hnodup & Hkeys & Hin & Hout).
    repeat split.
    + intros Hacc. now apply Hnodup, dict_keys_set_NoDup.
    + rewrite Hkeys, dict_keys_set_elem, elem_of_cons. tauto.
    + rewrite Hkeys, dict_keys_set_elem, elem_of_cons. tauto.
    + intros k Hk. destruct (decide (k ∈ categories)) as [Hcat|Hcat]; [now apply Hin|].
      rewrite (Hout k Hcat). apply elem_of_cons in Hk as [->|Hk]; [|contradiction].
      apply dict_get_set_eq.
    + intros k Hk. apply not_elem_of_cons in Hk as [Hne Hk].
      rewrite (Hout k Hk). now apply dict_get_set_ne.
Qed.

(** X1. The schema that [get_prompt] shows has one key for each distinct
    category as typed, none other, each with the value ["string[]"]: a
    category entered twice is listed once. *)
Theorem json_format_schema (categories : list string) :
  json_format categories =
    PDict [("article_text", PStr "string");
           ("sensitive_category_to_instances", PDict (schema_of categories))] /\
  NoDup (Py.dict_keys (schema_of categories)) /\
  (forall k, k ∈ Py.dict_keys (schema_of categories) <-> k ∈ categories) /\
  (forall k, k ∈ categories ->
     Py.dict_get k (schema_of categories) = Some (PStr "string[]")).
Proof.
  destruct (schema_fold categories []) as (Hnodup & Hkeys & Hin & _).
  split; [reflexivity|]. split; [apply Hnodup; constructor|].
  split; [|exact Hin].
  intros k. unfold schema_of. rewrite Hkeys. simpl. split; [|tauto].
  intros [Hk|Hk]; [exact Hk | now apply not_elem_of_nil in Hk].
Qed.

(** ** The category validator looks at the set of labels only *)

Lemma spec_count_same_labels (a b : list string) :
  (forall x, x ∈ spec_labels a <-> x ∈ spec_labels b) ->
  spec_count a = spec_count b.
Proof.
  intros Hsame. unfold spec_count. apply Permutation_length.
  apply NoDup_Permutation; [apply NoDup_remove_dups | apply NoDup_remove_dups | exact Hsame].
Qed.

Lemma check_categories_report (w : world) (categories : loc) (entries : list string) :
  heap w !! categories = Some entries ->
  fst (check_categories categories w)
    = Val (bool_decide (4 <= spec_count entries <= 7)%nat) /\
  page (snd (check_categories categories w))
    = page w ++ category_report (spec_count entries).
Proof.
  intros Hc. rewrite (check_categories_run _ _ _ Hc). unfold category_report.
  destruct (spec_count entries <? 4)%nat eqn:Hlo;
    [|destruct (7 <? spec_count entries)%nat eqn:Hhi];
    rewrite ?Nat.ltb_lt, ?Nat.ltb_ge in *; simpl; (split; [|reflexivity]);
    f_equal; symmetry;
    first [apply bool_decide_eq_false; lia | apply bool_decide_eq_true; lia].
Qed.

(** X2. The verdict of [check_categories] and the message it reports depend
    only on the set of trimmed, non-empty labels: two lists with the same
    labels, whatever their order, padding, blanks and repetitions, are
    both accepted or both refused, with the same message. *)
Theorem check_categories_same_labels (w1 w2 : world) (c1 c2 : loc) (a b : list string) :
  heap w1 !! c1 = Some a ->
  heap w2 !! c2 = Some b ->
  (forall x, x ∈ spec_labels a <-> x ∈ spec_labels b) ->
  fst (check_categories c1 w1) = fst (check_categories c2 w2) /\
  exists report,
    page (snd (check_categories c1 w1)) = page w1 ++ report /\
    page (snd (check_categories c2 w2)) = page w2 ++ report.
Proof.
  intros Ha Hb Hsame.
  destruct (check_categories_report w1 c1 a Ha) as [Hv1 Hp1].
  destruct (check_categories_report w2 c2 b Hb) as [Hv2 Hp2].
  rewrite Hv1, Hv2, Hp1, Hp2, (spec_count_same_labels a b Hsame).
  split; [reflexivity|]. now eexists.
Qed.

(** ** What an accepted text guarantees *)

Section Accepted.

Context `{Json}.

(** X3. A truthy value returned by [check_article_data] is what the text
    parses to, passes both [in] tests, and was returned without any message:
    the world is as it was. *)
Theorem accepted_article_data (raw : string) (v : pyval) (w w' : world) :
  check_article_data raw w = (Val v, w') ->
  Py.truthy v = true ->
  json_loads raw = Some v /\
  PyOp.contains "article_text" v = Val true /\
  PyOp.contains "sensitive_category_to_instances" v = Val true /\
  w' = w.
Proof.
  intros Hrun Htruthy.
  destruct (json_loads raw) as [parsed|] eqn:Hraw.
  - rewrite (check_article_data_parsed _ _ _ Hraw) in Hrun.
    destruct (PyOp.contains "article_text" parsed) as [[|]|e] eqn:Htext;
      [destruct (PyOp.contains "sensitive_category_to_instances" parsed)
         as [[|]|e'] eqn:Hmap| |];
      simplify_eq; auto.
  - rewrite (check_article_data_invalid _ _ Hraw) in Hrun.
    simplify_eq.
Qed.

(** X4. A truthy value returned by [check_qa_data] is what the text parses
    to: a non-empty list whose every element passes both [in] tests,
    returned without any message. *)
Theorem accepted_qa_data (raw : string) (v : pyval) (w w' : world) :
  check_qa_data raw w = (Val v, w') ->
  Py.truthy v = true ->
  exists l,
    v = PList l /\ l <> [] /\
    json_loads raw = Some v /\
    Forall (fun x => has_texts x = true) l /\
    w' = w.
Proof.
  intros Hrun Htruthy.
  destruct (json_loads raw) as [parsed|] eqn:Hraw.
  - rewrite (check_qa_data_parsed _ _ _ Hraw) in Hrun.
    destruct parsed; try (simplify_eq; fail).
    destruct (decide (Exists scalar l)); [discriminate|].
    destruct (forallb has_texts l) eqn:Hall;
      simplify_eq.
    exists l. repeat split; try reflexivity.
    + intros ->. discriminate.
    + apply Forall_forall. intros x Hx.
      rewrite forallb_forall in Hall. apply Hall. now apply list_elem_of_In.
  - rewrite (check_qa_data_invalid _ _ Hraw) in Hrun.
    simplify_eq.
Qed.

End Accepted.

(** ** When the export fails *)

Section ExportFails.

Context `{Json}.

Lemma read_and_parse_outcome (x : string) (w : world) :
  snd ((text ← read_file x; loads text) w) = w /\
  match fst ((text ← read_file x; loads text) w) with
  | Val v => holds_json (cwd w) x v
  | Raise _ => ~ exists v, holds_json (cwd w) x v
  end.
Proof.
  rewrite run_bind. unfold read_file, loads.
  destruct (cwd w !! x) as [[text| |]|] eqn:Hx; simpl.
  - destruct (json_loads text) as [v|] eqn:Htext; simpl.
    + split; [reflexivity|]. now exists text.
    + split; [reflexivity|].
      intros (v & text' & Hfile & Hparse). congruence.
  - split; [reflexivity|]. intros (v & text' & Hfile & _). congruence.
  - split; [reflexivity|]. intros (v & text' & Hfile & _). congruence.
  - split; [reflexivity|]. intros (v & text' & Hfile & _). congruence.
Qed.

Lemma comprehension_read_outcome (files : list string) (w : world) :
  snd (comprehension (fun x => text ← read_file x; loads text) files w) = w /\
  match fst (comprehension (fun x => text ← read_file x; loads text) files w) with
  | Val data => Forall2 (holds_json (cwd w)) files data
  | Raise _ => Exists (fun x => ~ exists v, holds_json (cwd w) x v) files
  end.
Proof.
  induction files as [|x files [IHw IHr]]; cbn [comprehension].
  - split; [reflexivity | constructor].
  - rewrite run_bind.
    destruct (read_and_parse_outcome x w) as [Hw Hr].
    destruct ((text ← read_file x; loads text) w) as [[v|e] w1]; simpl in Hw, Hr; subst w1.
    + rewrite run_bind.
      destruct (comprehension _ files w) as [[data|e] w2]; simpl in IHw, IHr; subst w2; simpl.
      * split; [reflexivity | now constructor].
      * split; [reflexivity|]. now right.
    + simpl. split; [reflexivity|]. now left.
Qed.

Lemma get_articles_data_cases (w : world) :
  snd (get_articles_data w) = w /\
  ((exists bytes, fst (get_articles_data w) = Val bytes) <->
   (forall x, x ∈ record_files (cwd w) -> exists v, holds_json (cwd w) x v)).
Proof.
  assert (Hrun : get_articles_data w =
            match comprehension (fun x => text ← read_file x; loads text)
                    (record_files (cwd w)) w with
            | (Val data, w') =>
                (Val (PyStr.encode_utf8 (json_dumps None (PList data))), w')
            | (Raise e, w') => (Raise e, w')
            end) by reflexivity.
  rewrite Hrun. clear Hrun.
  destruct (comprehension_read_outcome (record_files (cwd w)) w) as [Hw Hr].
  destruct (comprehension _ (record_files (cwd w)) w) as [[data|e] w1];
    simpl in Hw, Hr; subst w1; simpl.
  - split; [reflexivity|].
    split; [|now eexists].
    intros _ x Hx. apply list_elem_of_lookup in Hx as [i Hi].
    destruct (Forall2_lookup_l _ _ _ _ _ Hr Hi) as (v & _ & Hv). now exists v.
  - split; [reflexivity|]. split.
    + intros [bytes Hbytes]. discriminate Hbytes.
    + intros Hall. apply Exists_exists in Hr as (x & Hx & Hno).
      destruct Hno. now apply Hall.
Qed.

(** X5. [get_articles_data] never changes the world, whether it returns or
    raises; it returns exactly when every listed entry whose name contains
    the record prefix is a file whose text [json.loads] reads, and raises
    otherwise: at a sub-directory, at a file that cannot be decoded, at a
    text that [json.loads] refuses. *)
Theorem get_articles_data_outcome (w : world) :
  snd (get_articles_data w) = w /\
  ((exists bytes, fst (get_articles_data w) = Val bytes) <->
   (forall x, x ∈ record_files (cwd w) -> exists v, holds_json (cwd w) x v)).
Proof. apply get_articles_data_cases. Qed.

Variable user : session.

(** A run up to the moment it reads the directory, and what follows the
    export when no topic has been entered. *)
Lemma run_after_header (files : gmap string entry) (rnd : list Z) (now : spec_float) :
  exists k : list ascii -> M unit,
    run user files rnd now = (get_articles_data ≫= k) (at_export files rnd now) /\
    (PyStr.truthy (input_topic user) = false ->
     forall data w, k data w = (Val tt, set_page (fun p => p ++ [download data]) w)).
Proof.
  eexists. split.
  - unfold run, app, markdown, text_input.
    do 2 (rewrite run_bind; unfold render at 1; cbv beta iota).
    rewrite run_bind, run_bind. unfold render at 1. cbv beta iota. rewrite run_ret.
    do 2 (rewrite run_bind; unfold render at 1; cbv beta iota).
    reflexivity.
  - intros Htopic data w. cbv beta. rewrite run_bind. unfold render at 1.
    cbv beta iota. rewrite Htopic. reflexivity.
Qed.

(** X6. One entry whose name contains the record prefix and which is not a
    file whose text [json.loads] reads (a sub-directory, a file that cannot
    be decoded, a text that [json.loads] refuses) stops every run at the
    export, whatever the user has entered: the run raises with nothing on
    the page but the title, the introduction, the topic field, the page
    configuration and the sidebar heading, and with the directory as it
    was. *)
Theorem corrupt_record_blocks_app (files : gmap string entry) (rnd : list Z)
    (now : spec_float) :
  (exists x, x ∈ record_files files /\ ~ exists v, holds_json files x v) ->
  exists e, run user files rnd now = (Raise e, at_export files rnd now).
Proof.
  intros (x & Hx & Hbad).
  destruct (run_after_header files rnd now) as (k & -> & _).
  destruct (get_articles_data_cases (at_export files rnd now)) as (Hw & Hiff).
  rewrite run_bind.
  destruct (get_articles_data (at_export files rnd now)) as [[bytes|e] w1];
    simpl in Hw, Hiff; subst w1.
  - destruct Hbad. apply (proj1 Hiff); [now exists bytes | exact Hx].
  - now exists e.
Qed.

(** X7. With no topic entered, a run ends after the sidebar: the page is
    the header and, when the export succeeds, the download button; no list
    object is made and the directory is as it was. *)
Theorem no_topic_stops_after_sidebar (files : gmap string entry) (rnd : list Z)
    (now : spec_float) :
  PyStr.truthy (input_topic user) = false ->
  run user files rnd now =
    match fst (get_articles_data (at_export files rnd now)) with
    | Val data =>
        (Val tt, set_page (fun p => p ++ [download data]) (at_export files rnd now))
    | Raise e => (Raise e, at_export files rnd now)
    end.
Proof.
  intros Htopic.
  destruct (run_after_header files rnd now) as (k & -> & Hk).
  destruct (get_articles_data_cases (at_export files rnd now)) as (Hw & _).
  rewrite run_bind.
  destruct (get_articles_data (at_export files rnd now)) as [[bytes|e] w1];
    simpl in Hw; subst w1; simpl; [now apply Hk | reflexivity].
Qed.

End ExportFails.

(** ** Saving twice, and saving then exporting *)

Lemma prefix_append (p s : string) : String.prefix p (p +:+ s) = true.
Proof.
  induction p as [|c p IH]; simpl; [now destruct s|].
  destruct (ascii_dec c c); [exact IH | contradiction].
Qed.

Lemma contains_prefix (p h : string) :
  String.prefix p h = true -> PyStr.contains p h = true.
Proof.
  intros Hp. destruct h as [|a h'].
  - change (PyStr.contains p "") with (String.prefix p "" || false).
    now rewrite Hp.
  - change (PyStr.contains p (String a h'))
      with (String.prefix p (String a h') || PyStr.contains p h').
    now rewrite Hp.
Qed.

Lemma record_name_has_prefix (n : Z) : PyStr.contains record_prefix (record_name n) = true.
Proof. apply contains_prefix, prefix_append. Qed.

Section SaveTwice.

Context `{Json}.

Lemma save_article_data_draw (data : pyval) (w : world) (a : Z) (rest : list Z) :
  entropy w = a :: rest ->
  cwd w !! record_name (a mod 10001) <> Some Dir ->
  save_article_data data w = (Val tt, saved (a mod 10001) data w).
Proof.
  intros Hrnd Hdir. unfold save_article_data.
  rewrite run_bind. unfold randint at 1. rewrite Hrnd. cbn [hd].
  replace (0 + a mod (10000 - 0 + 1)) with (a mod 10001) by (f_equal; lia).
  unfold write_file. cbn [cwd set_entropy]. fold (record_name (a mod 10001)).
  destruct (cwd w !! record_name (a mod 10001)) as [[| |]|]; try reflexivity.
  now destruct Hdir.
Qed.

(** X8. Two saves that draw the same integer leave one file, and it holds
    the second record: the first one is overwritten without any error. *)
Theorem second_save_overwrites (first second : pyval) (w : world) (a b : Z) (rest : list Z) :
  entropy w = a :: b :: rest ->
  a mod 10001 = b mod 10001 ->
  cwd w !! record_name (a mod 10001) <> Some Dir ->
  exists w',
    (save_article_data first;; save_article_data second) w = (Val tt, w') /\
    cwd w' = <[record_name (a mod 10001) := File (json_dumps None second)]> (cwd w) /\
    entropy w' = rest.
Proof.
  intros Hrnd Hsame Hdir. eexists. split; [|split].
  - rewrite run_bind, (save_article_data_draw first w a (b :: rest) Hrnd Hdir).
    apply (save_article_data_draw second _ b rest).
    + simpl. now rewrite Hrnd.
    + rewrite <- Hsame. simpl. rewrite lookup_insert_eq. discriminate.
  - rewrite <- Hsame. simpl. now rewrite insert_insert_eq.
  - simpl. now rewrite Hrnd.
Qed.

(** X9. A record that has been saved is part of the next export: when the
    record files of the directory hold valid JSON and the JSON text of the
    record reads back as the record, the export after the save returns, has
    one element for each record file, and the record is among them. *)
Theorem saved_record_is_exported (data : pyval) (w w' : world) :
  (forall x, x ∈ record_files (cwd w) -> exists v, holds_json (cwd w) x v) ->
  json_loads (json_dumps None data) = Some data ->
  save_article_data data w = (Val tt, w') ->
  exists exported,
    get_articles_data w' = (Val (PyStr.encode_utf8 (json_dumps None (PList exported))), w') /\
    length exported = length (record_files (cwd w')) /\
    data ∈ exported.
Proof.
  intros Hfiles Hback Hsave.
  destruct (save_article_data_run data w) as (N & _ & Hrun).
  rewrite Hrun in Hsave. clear Hrun.
  assert (Hw' : w' = saved N data w).
  { destruct (cwd w !! record_name N) as [[| |]|]; congruence. }
  subst w'. clear Hsave.
  assert (Hnew : holds_json (cwd (saved N data w)) (record_name N) data).
  { exists (json_dumps None data). split; [apply lookup_insert_eq | exact Hback]. }
  destruct (get_articles_data_run (saved N data w)) as (exported & Hexport & Hall).
  { intros x Hx. destruct (decide (x = record_name N)) as [->|Hne]; [now exists data|].
    apply record_files_spec in Hx as [Hsome Hname].
    simpl in Hsome. rewrite lookup_insert_ne in Hsome by congruence.
    destruct (Hfiles x) as (v & text & Hfile & Hparse).
    { now apply record_files_spec. }
    exists v, text. split; [|exact Hparse].
    simpl. now rewrite lookup_insert_ne by congruence. }
  exists exported. split; [exact Hexport|].
  split; [symmetry; exact (Forall2_length _ _ _ Hall)|].
  assert (Hin : record_name N ∈ record_files (cwd (saved N data w))).
  { apply record_files_spec. split; [|apply record_name_has_prefix].
    simpl. rewrite lookup_insert_eq. now eexists. }
  apply list_elem_of_lookup in Hin as [i Hi].
  destruct (Forall2_lookup_l _ _ _ _ _ Hall Hi) as (v & Hv & text & Hfile & Hparse).
  destruct Hnew as (text' & Hfile' & Hparse').
  assert (v = data) by congruence. subst v.
  apply list_elem_of_lookup. now exists i.
Qed.

End SaveTwice.

(** ** What a run does to the directory *)

Section Directory.

Context `{Json}.
Variable user : session.
Variable files : gmap string entry.
Variable now : spec_float.

(** X10. A run leaves alone every entry whose name does not contain the
    record prefix, removes none, and adds at most one. *)
Theorem run_spares_other_files (rnd : list Z) (x : string) :
  PyStr.contains record_prefix x = false ->
  cwd (snd (run user files rnd now)) !! x = files !! x /\
  (forall y, is_Some (files !! y) -> is_Some (cwd (snd (run user files rnd now)) !! y)) /\
  (size (cwd (snd (run user files rnd now))) <= S (size files))%nat.
Proof.
  intros Hx.
  destruct (run_persists user files now rnd)
    as [->|(N & article_data & qas & _ & _ & _ & ->)].
  - repeat split; auto.
  - split; [|split].
    + apply lookup_insert_ne. intros <-.
      rewrite record_name_has_prefix in Hx. discriminate.
    + intros y Hy. destruct (decide (record_name N = y)) as [<-|Hne].
      * rewrite lookup_insert_eq. now eexists.
      * now rewrite lookup_insert_ne.
    + destruct (files !! record_name N) as [e|] eqn:Hold.
      * rewrite map_size_insert_Some by eauto. lia.
      * rewrite map_size_insert_None by exact Hold. lia.
Qed.

Lemma ends_always {A} (I F : world -> Prop) (c : M A) :
  (forall w, F w) -> ends I F c.
Proof. intros HF w _. destruct (c w) as [[a|e] w']; apply HF. Qed.

(** The annotation step writes only after a valid metadata form and a
    pressed button. *)
Lemma annotation_step_writes_on_submit (article_data qas : pyval) :
  ends (untouched files now)
    (fun w => cwd w = files \/
              (input_submit user = true /\ names_llm (input_metadata user)))
    (annotation_step user article_data qas).
Proof.
  pose proof (untouched_stable files now) as Hstable.
  assert (Hall : forall x : widget, True) by auto.
  assert (HIF : forall w, untouched files now w ->
                  cwd w = files \/
                  (input_submit user = true /\ names_llm (input_metadata user))).
  { intros w [Hfiles _]. now left. }
  unfold annotation_step, markdown, qa_editor, metadata_editor, button.
  do 13 (apply ends_bind; [exact HIF | keeps_run | intros ?]).
  apply (ends_bind_value _ _ HIF _ _ (fun metadata => metadata = input_metadata user)).
  { intros w Hw. now split. }
  intros metadata ->.
  apply (ends_bind_value _ _ HIF _ _
           (fun checked => Py.truthy checked = true -> names_llm (input_metadata user))).
  { intros w Hw. unfold check_metadata, names_llm.
    destruct (Py.dict_get "LLM" (input_metadata user)) as [v|]; simpl.
    - destruct (Py.truthy v) eqn:Hv; simpl; (split; [apply Hw|]); eauto; discriminate.
    - split; [apply Hw | discriminate]. }
  intros checked Hchecked.
  destruct (Py.truthy checked); [|now apply ends_ret].
  specialize (Hchecked eq_refl).
  apply (ends_bind_value _ _ HIF _ _ (fun pressed => pressed = input_submit user)).
  { intros w Hw. now split. }
  intros pressed Hpressed.
  destruct pressed; [|now apply ends_ret].
  apply ends_always. intros w. right. auto.
Qed.

(** X11. A run changes the directory only if the Submit button was pressed
    and the metadata carry a truthy [LLM]: without either, the directory
    after the run is the directory before it. *)
Theorem run_writes_only_on_submit (rnd : list Z) :
  cwd (snd (run user files rnd now)) = files \/
  (input_submit user = true /\ names_llm (input_metadata user)).
Proof.
  unfold run.
  assert (Happ : ends (untouched files now)
                   (fun w => cwd w = files \/
                             (input_submit user = true /\ names_llm (input_metadata user)))
                   (app user)).
  { apply (app_ends user (fun _ => True) _ (untouched_stable files now) (fun _ _ => Logic.I)).
    - intros w [Hfiles _]. now left.
    - intros article_data qas _ _ _ _. apply annotation_step_writes_on_submit. }
  specialize (Happ (World [] [] files rnd now) (conj eq_refl eq_refl)).
  destruct (app user _) as [[[]|e] w']; exact Happ.
Qed.

End Directory.

(** ** A failed validation ends the page *)

Lemma quiet_stable : stable (fun x => is_error x = false) quiet.
Proof.
  split; [|auto]. intros w x Hx Hw. unfold quiet. simpl.
  apply Forall_app. split; [exact Hw | now constructor].
Qed.

Lemma quiet_page_only : page_only quiet.
Proof. split; auto. Qed.

Lemma quiet_closed (w : world) : quiet w -> closed w.
Proof. now left. Qed.

Ltac quiet_step :=
  first
    [ apply keeps_ret
    | apply keeps_lift
    | apply keeps_raise
    | apply keeps_load
    | apply (keeps_alloc _ _ _ quiet_stable)
    | apply (keeps_render _ _ _ quiet_stable); reflexivity
    | apply keeps_comprehension; intros ?
    | apply keeps_bind; [|intros ?]
    | match goal with |- keeps _ (if ?b then _ else _) => destruct b end
    | match goal with |- keeps _ (match ?x with _ => _ end) => destruct x end ].

Ltac quiet_run := repeat quiet_step.

(** A call that reports a message and returns a refusal. *)
Lemma refuses {A} (accepts : A -> bool) (msg : string) (a : A) :
  accepts a = false ->
  triple quiet (error msg;; mret a) (verdict accepts) quiet.
Proof.
  intros Ha w Hw. rewrite run_bind. unfold error, render. cbv beta iota. rewrite run_ret.
  split; [congruence|]. right. exists (page w), msg. now split.
Qed.

(** A call that returns without a message. *)
Lemma answers {A} (accepts : A -> bool) (a : A) :
  triple quiet (mret a) (verdict accepts) quiet.
Proof. intros w Hw. rewrite run_ret. split; [auto | now left]. Qed.

(** A step that keeps the page free of messages, then a gated call. *)
Lemma verdict_bind {A B} (accepts : B -> bool) (c : M A) (k : A -> M B) :
  keeps quiet c ->
  (forall a, triple quiet (k a) (verdict accepts) quiet) ->
  triple quiet (c ≫= k) (verdict accepts) quiet.
Proof. intros Hc Hk. eapply triple_bind; [exact Hc | exact Hk]. Qed.

(** The script after a gated call: it goes on only when the call accepts. *)
Lemma gate {A} (accepts : A -> bool) (c : M A) (k : A -> M unit) :
  triple quiet c (verdict accepts) quiet ->
  (forall a, triple quiet (k a) (fun _ => closed) quiet) ->
  triple quiet (a ← c; if accepts a then k a else mret tt) (fun _ => closed) quiet.
Proof.
  intros Hc Hk. eapply triple_bind; [exact Hc|].
  intros a w [Hquiet Hclosed].
  destruct (accepts a).
  - now apply Hk, Hquiet.
  - rewrite run_ret. exact Hclosed.
Qed.

Lemma closed_bind {A B} (c : M A) (k : A -> M B) :
  keeps quiet c ->
  (forall a, triple quiet (k a) (fun _ => closed) quiet) ->
  triple quiet (c ≫= k) (fun _ => closed) quiet.
Proof. intros Hc Hk. eapply triple_bind; [exact Hc | exact Hk]. Qed.

Lemma closed_keeps {A} (c : M A) :
  keeps quiet c -> triple quiet c (fun _ => closed) quiet.
Proof.
  intros Hc. apply (triple_weaken quiet quiet c (fun _ => quiet) _ quiet quiet Hc); auto.
  intros _ w Hw. now left.
Qed.

Section FailClosed.

Context `{Json}.
Variable user : session.

Lemma check_categories_verdict (categories : loc) :
  triple quiet (check_categories categories) (verdict (fun ok : bool => ok)) quiet.
Proof.
  unfold check_categories.
  do 5 (apply verdict_bind; [quiet_run | intros ?]).
  destruct (_ <? 4)%nat; [now apply refuses|].
  destruct (7 <? _)%nat; [now apply refuses | apply answers].
Qed.

Lemma check_article_data_verdict (raw : string) :
  triple quiet (check_article_data raw) (verdict Py.truthy) quiet.
Proof.
  unfold check_article_data.
  destruct (json_loads raw) as [article_data|]; [|now apply refuses].
  apply verdict_bind; [quiet_run | intros has_text].
  destruct has_text; simpl; [|now apply refuses].
  apply verdict_bind; [quiet_run | intros has_map].
  destruct has_map; simpl; [apply answers | now apply refuses].
Qed.

Lemma check_qa_data_verdict (raw : string) :
  triple quiet (check_qa_data raw) (verdict Py.truthy) quiet.
Proof.
  unfold check_qa_data.
  destruct (json_loads raw) as [article_data|]; [|now apply refuses].
  destruct article_data; try now apply refuses.
  apply verdict_bind; [unfold has_both_texts; quiet_run | intros flags].
  destruct (forallb id flags); simpl; [apply answers | now apply refuses].
Qed.

Lemma check_metadata_verdict (data : pydict) :
  triple quiet (check_metadata data) (verdict Py.truthy) quiet.
Proof.
  unfold check_metadata.
  destruct (Py.truthy (default PNone (Py.dict_get "LLM" data))); simpl;
    [apply answers | now apply refuses].
Qed.

Lemma annotation_step_closed (article_data qas : pyval) :
  triple quiet (annotation_step user article_data qas) (fun _ => closed) quiet.
Proof.
  unfold annotation_step, markdown, qa_editor, metadata_editor, button.
  do 14 (apply closed_bind; [quiet_run | intros ?]).
  apply (gate Py.truthy); [apply check_metadata_verdict | intros checked].
  apply closed_keeps.
  apply keeps_bind; [quiet_run | intros pressed].
  destruct pressed; [|apply keeps_ret].
  apply keeps_bind; [now apply keeps_same | intros now].
  apply save_article_data_keeps, quiet_page_only.
Qed.

Lemma qa_step_closed (article_data : pyval) :
  triple quiet (qa_step user article_data) (fun _ => closed) quiet.
Proof.
  unfold qa_step, markdown, code, qa_area.
  do 8 (apply closed_bind; [quiet_run | intros ?]).
  apply (gate Py.truthy); [apply check_qa_data_verdict | intros qas].
  apply annotation_step_closed.
Qed.

Lemma article_step_closed (topic : string) (categories : loc) :
  triple quiet (article_step user topic categories) (fun _ => closed) quiet.
Proof.
  unfold article_step, markdown, code, article_area.
  apply closed_bind; [apply get_prompt_keeps | intros prompt].
  do 6 (apply closed_bind; [quiet_run | intros ?]).
  apply (gate Py.truthy); [apply check_article_data_verdict | intros article_data].
  apply qa_step_closed.
Qed.

Lemma app_closed : triple quiet (app user) (fun _ => closed) quiet.
Proof.
  unfold app, markdown, text_input, categories_editor.
  do 5 (apply closed_bind; [quiet_run | intros ?]).
  apply closed_bind; [apply get_articles_data_keeps | intros data].
  apply closed_bind; [quiet_run | intros ?].
  destruct (PyStr.truthy _); [|apply closed_keeps, keeps_ret].
  do 2 (apply closed_bind; [quiet_run | intros ?]).
  apply (gate (fun ok : bool => ok)); [apply check_categories_verdict | intros accepted].
  apply article_step_closed.
Qed.

(** X12. A run shows at most one error message, and nothing after it: when
    the run returns, its page has no message or ends with its only one; when
    the run raises, its page has none. *)
Theorem run_fails_closed (files : gmap string entry) (rnd : list Z) (now : spec_float) :
  match run user files rnd now with
  | (Val _, w) => no_error (page w) \/ error_last (page w)
  | (Raise _, w) => no_error (page w)
  end.
Proof.
  unfold run. apply app_closed. constructor.
Qed.

End FailClosed.

(** ** A valid submission is saved *)

(** One step of a run whose outcome is known. *)
Lemma step {A B} (I I' : world -> Prop) (c : M A) (a : A) (k : A -> M B)
    (Q : B -> world -> Prop) (E : world -> Prop) :
  (forall w, I w -> exists w', c w = (Val a, w') /\ I' w') ->
  triple I' (k a) Q E ->
  triple I (c ≫= k) Q E.
Proof.
  intros Hc Hk w Hw. rewrite run_bind.
  destruct (Hc w Hw) as (w' & -> & Hw'). now apply Hk.
Qed.

Lemma step_assoc {A B C} (I : world -> Prop) (c : M A) (k1 : A -> M B) (k : B -> M C)
    (Q : C -> world -> Prop) (E : world -> Prop) :
  triple I (c ≫= fun a => k1 a ≫= k) Q E ->
  triple I ((c ≫= k1) ≫= k) Q E.
Proof.
  intros Hc w Hw. specialize (Hc w Hw). rewrite !run_bind in *.
  destruct (c w) as [[a|e] w']; [|exact Hc]. now rewrite run_bind in Hc.
Qed.

Lemma dict_has_get (k : string) (d : pydict) :
  Py.dict_has k d = true -> exists v, Py.dict_get k d = Some v.
Proof.
  induction d as [|[k' v'] d IH]; simpl; [discriminate|].
  destruct (String.eqb k k'); [now eexists | exact IH].
Qed.

Lemma qa_pair_not_scalar (l : list pyval) :
  Forall qa_pair l -> ~ Exists scalar l.
Proof.
  intros Hall Hex. apply Exists_exists in Hex as (x & Hx & Hscalar).
  rewrite Forall_forall in Hall. destruct (Hall x Hx) as (d & -> & _). exact Hscalar.
Qed.

Lemma qa_pair_has_texts (l : list pyval) :
  Forall qa_pair l -> forallb has_texts l = true.
Proof.
  induction 1 as [|x l (d & -> & Hq & Ha) _ IH]; [reflexivity|].
  simpl. unfold has_texts at 1. simpl. now rewrite Hq, Ha, IH.
Qed.

Lemma spread_pairs (extra : pydict) (l : list pyval) (w : world) :
  Forall qa_pair l ->
  exists rows,
    comprehension (fun x => lift (PyOp.spread x extra)) l w = (Val rows, w).
Proof.
  induction 1 as [|x l (d & -> & _) _ (rows & IH)]; [now eexists|].
  eexists. cbn [comprehension]. rewrite run_bind. unfold lift at 1. simpl PyOp.spread.
  cbv beta iota. rewrite run_bind, IH. reflexivity.
Qed.

Ltac known I v :=
  apply (step I I _ v);
  [ intros ? ?; eexists; split; [reflexivity | assumption] | ].

Section Submission.

Context `{Json}.
Variable user : session.
Variable files : gmap string entry.
Variable rnd : list Z.
Variable now : spec_float.

Hypothesis Hllm : names_llm (input_metadata user).
Hypothesis Hsubmit : input_submit user = true.
Hypothesis Hname : files !! record_name (draw rnd) <> Some Dir.

Lemma annotation_step_saves (I : world -> Prop) (article_data qas : pyval) :
  (forall w, I w -> ready files rnd now w) ->
  stable (fun _ => True) I ->
  article article_data ->
  (exists l, qas = PList l /\ l <> [] /\ Forall qa_pair l) ->
  triple I (annotation_step user article_data qas)
    (fun _ w => cwd w = submitted user files rnd now article_data qas) (fun _ => False).
Proof.
  intros Hready [Hpage _] (d & text & -> & Htext & Hindex) (l & -> & Hl & Hpairs).
  assert (Hrender : forall x w, I w -> I (set_page (fun p => p ++ [x]) w)) by auto.
  destruct (dict_has_get _ _ Hindex) as (index & Hget).
  destruct l as [|q l]; [contradiction|].
  pose proof Hpairs as Hq. apply Forall_cons in Hq as [(dq' & -> & _) _].
  unfold annotation_step, markdown, qa_editor, metadata_editor, button.
  do 4 (apply (step I I _ tt); [intros w Hw; eexists; split; [reflexivity | auto]|]).
  apply (step I I _ index).
  { intros w Hw. exists w. split; [|exact Hw]. unfold lift. simpl. now rewrite Hget. }
  apply (step I I _ tt); [intros w Hw; eexists; split; [reflexivity | auto]|].
  apply (step I I _ (PDict dq' :: l)); [intros w Hw; now exists w|].
  eapply (triple_bind I _ _ (fun _ => I)).
  { intros w Hw. destruct (spread_pairs
      [("completeness_keywords", PStr ""); ("relevant_sensitive_categories", PStr "")]
      (PDict dq' :: l) w Hpairs) as (rows & ->). exact Hw. }
  intros rows.
  apply (step I I _ (PDict dq')); [intros w Hw; now exists w|].
  apply (step I I _ (Py.dict_keys dq')); [intros w Hw; now exists w|].
  apply step_assoc.
  apply (step I I _ tt); [intros w Hw; eexists; split; [reflexivity | auto]|].
  apply (step I I _ (input_edited_qas user)); [intros w Hw; now exists w|].
  do 2 (apply (step I I _ tt); [intros w Hw; eexists; split; [reflexivity | auto]|]).
  apply step_assoc.
  apply (step I I _ tt); [intros w Hw; eexists; split; [reflexivity | auto]|].
  apply (step I I _ (input_metadata user)); [intros w Hw; now exists w|].
  destruct Hllm as (v & Hv & Htruthy).
  apply (step I I _ (PDict (input_metadata user))).
  { intros w Hw. exists w. split; [|exact Hw].
    unfold check_metadata. rewrite Hv. simpl. now rewrite Htruthy. }
  assert (Hnonempty : Py.truthy (PDict (input_metadata user)) = true).
  { simpl. destruct (input_metadata user); [discriminate Hv | reflexivity]. }
  rewrite Hnonempty.
  apply step_assoc.
  apply (step I I _ tt); [intros w Hw; eexists; split; [reflexivity | auto]|].
  apply (step I I _ true); [intros w Hw; exists w; now rewrite Hsubmit|].
  intros w Hw. destruct (Hready w Hw) as (Hfiles & Hclock & Hrnd).
  rewrite run_bind. unfold time at 1. cbv beta iota. rewrite Hclock.
  destruct rnd as [|a rest] eqn:Hentropy.
  - unfold save_article_data. rewrite run_bind. unfold randint at 1. rewrite Hrnd.
    cbn [hd]. unfold write_file. cbn [cwd set_entropy]. rewrite Hfiles.
    change (record_prefix +:+ PyStr.of_int (0 + 0 mod (10000 - 0 + 1)) +:+ ".json")
      with (record_name (draw [])).
    destruct (files !! record_name (draw [])) as [[| |]|] eqn:Hold;
      try (simpl; now rewrite Hfiles).
    now destruct Hname.
  - rewrite (save_article_data_draw _ w a rest Hrnd).
    + simpl. now rewrite Hfiles.
    + rewrite Hfiles. exact Hname.
Qed.

Lemma dict_get_has (k : string) (d : pydict) (v : pyval) :
  Py.dict_get k d = Some v -> Py.dict_has k d = true.
Proof.
  induction d as [|[k' v'] d IH]; simpl; [discriminate|].
  destruct (String.eqb k k'); [reflexivity | exact IH].
Qed.

Variables (article_data qas : pyval).
Hypothesis Harticle : json_loads (input_article_data user) = Some article_data.
Hypothesis Harticle_shape : article article_data.
Hypothesis Hqas : json_loads (input_qa_data user) = Some qas.
Hypothesis Hqas_shape : exists l, qas = PList l /\ l <> [] /\ Forall qa_pair l.

Lemma qa_step_saves (I : world -> Prop) :
  (forall w, I w -> ready files rnd now w) ->
  stable (fun _ => True) I ->
  triple I (qa_step user article_data)
    (fun _ w => cwd w = submitted user files rnd now article_data qas) (fun _ => False).
Proof.
  intros Hready Hstable.
  assert (Hrender : forall x w, I w -> I (set_page (fun p => p ++ [x]) w))
    by (intros; now apply (proj1 Hstable)).
  pose proof Harticle_shape as (d & text & Hd & Htext & Hindex).
  pose proof Hqas_shape as (l & Hl & Hne & Hpairs).
  unfold qa_step, markdown, code, qa_area.
  do 2 (apply (step I I _ tt); [intros w Hw; eexists; split; [reflexivity | auto]|]).
  apply (step I I _ (PStr text)).
  { intros w Hw. exists w. split; [|exact Hw]. rewrite Hd. unfold lift. simpl.
    now rewrite Htext. }
  eapply (triple_bind I _ _ (fun _ => I)); [intros w Hw; exact Hw|]. intros prompt.
  do 3 (apply (step I I _ tt); [intros w Hw; eexists; split; [reflexivity | auto]|]).
  apply step_assoc.
  apply (step I I _ tt); [intros w Hw; eexists; split; [reflexivity | auto]|].
  apply (step I I _ (input_qa_data user)); [intros w Hw; now exists w|].
  apply (step I I _ qas).
  { intros w Hw. exists w. split; [|exact Hw].
    rewrite (check_qa_data_parsed _ _ _ Hqas). rewrite Hl.
    rewrite decide_False by now apply qa_pair_not_scalar.
    now rewrite qa_pair_has_texts. }
  assert (Htruthy : Py.truthy qas = true).
  { rewrite Hl. simpl. destruct l; [contradiction | reflexivity]. }
  rewrite Htruthy.
  now apply annotation_step_saves.
Qed.

Lemma article_step_saves (categories : loc) (entries : list string) :
  triple (holding files rnd now categories entries)
    (article_step user (input_topic user) categories)
    (fun _ w => cwd w = submitted user files rnd now article_data qas) (fun _ => False).
Proof.
  set (I := holding files rnd now categories entries).
  assert (Hstable : stable (fun _ => True) I).
  { split.
    - intros w x _ Hw. exact Hw.
    - intros w l [Hready Hheap]. split; [exact Hready|].
      simpl. now apply lookup_app_l_Some. }
  assert (Hrender : forall x w, I w -> I (set_page (fun p => p ++ [x]) w))
    by (intros; now apply (proj1 Hstable)).
  pose proof Harticle_shape as (d & text & Hd & Htext & Hindex).
  unfold article_step, markdown, code, article_area.
  eapply (triple_bind I _ _ (fun _ => I)).
  { intros w Hw. rewrite (get_prompt_run _ entries) by exact (proj2 Hw). exact Hw. }
  intros prompt.
  do 5 (apply (step I I _ tt); [intros w Hw; eexists; split; [reflexivity | auto]|]).
  apply step_assoc.
  apply (step I I _ tt); [intros w Hw; eexists; split; [reflexivity | auto]|].
  apply (step I I _ (input_article_data user)); [intros w Hw; now exists w|].
  apply (step I I _ article_data).
  { intros w Hw. exists w. split; [|exact Hw].
    rewrite (check_article_data_parsed _ _ _ Harticle). rewrite Hd. simpl.
    now rewrite (dict_get_has _ _ _ Htext), Hindex. }
  assert (Htruthy : Py.truthy article_data = true).
  { rewrite Hd. simpl. destruct d; [discriminate Htext | reflexivity]. }
  rewrite Htruthy.
  apply qa_step_saves; [now intros w [Hw _] | exact Hstable].
Qed.

Hypothesis Htopic : PyStr.truthy (input_topic user) = true.
Hypothesis Hfiles : forall x, x ∈ record_files files -> exists v, holds_json files x v.
Hypothesis Hcount : (4 <= spec_count (input_categories user) <= 7)%nat.

Lemma app_saves :
  triple (ready files rnd now) (app user)
    (fun _ w => cwd w = submitted user files rnd now article_data qas) (fun _ => False).
Proof.
  set (I := ready files rnd now).
  unfold app, markdown, text_input, categories_editor.
  do 2 (apply (step I I _ tt); [intros w Hw; eexists; split; [reflexivity | auto]|]).
  apply step_assoc.
  apply (step I I _ tt); [intros w Hw; eexists; split; [reflexivity | auto]|].
  apply (step I I _ (input_topic user)); [intros w Hw; now exists w|].
  do 2 (apply (step I I _ tt); [intros w Hw; eexists; split; [reflexivity | auto]|]).
  eapply (triple_bind I _ _ (fun _ => I)).
  { intros w Hw. destruct (get_articles_data_run w) as (data & -> & _); [|exact Hw].
    rewrite (proj1 Hw). exact Hfiles. }
  intros data.
  apply (step I I _ tt); [intros w Hw; eexists; split; [reflexivity | auto]|].
  rewrite Htopic.
  apply (step I I _ tt); [intros w Hw; eexists; split; [reflexivity | auto]|].
  apply step_assoc.
  apply (step I I _ tt); [intros w Hw; eexists; split; [reflexivity | auto]|].
  eapply (triple_bind I _ _
            (fun categories => holding files rnd now categories (input_categories user))).
  { intros w Hw. split; [exact Hw | apply lookup_fresh]. }
  intros categories.
  apply (step (holding files rnd now categories (input_categories user))
              (holding files rnd now categories (input_categories user)) _ true).
  { intros w [Hw Hheap]. rewrite (check_categories_run _ _ _ Hheap).
    replace (spec_count (input_categories user) <? 4)%nat with false
      by (symmetry; apply Nat.ltb_ge; lia).
    replace (7 <? spec_count (input_categories user))%nat with false
      by (symmetry; apply Nat.ltb_ge; lia).
    eexists. split; [reflexivity|]. split; [exact Hw|].
    simpl. now apply lookup_app_l_Some. }
  apply article_step_saves.
Qed.

(** X13. A submission that passes every gate is saved: with a topic, record
    files that parse, four to seven labels, a pasted article that is a
    dictionary with a string [article_text] and an index, a pasted non-empty
    list of dictionaries with both texts, a truthy [LLM], the button pressed
    and no directory in the way, the run returns and the directory gains the
    JSON text of the annotated record under the name drawn. *)
Theorem valid_submission_is_saved :
  exists w,
    run user files rnd now = (Val tt, w) /\
    cwd w = submitted user files rnd now article_data qas.
Proof.
  unfold run.
  pose proof (app_saves (World [] [] files rnd now)) as Hrun.
  destruct (app user _) as [[[]|e] w].
  - exists w. split; [reflexivity|]. apply Hrun. now repeat split.
  - destruct Hrun. now repeat split.
Qed.

End Submission.

(** ** Accepted texts that stop the next step *)

Lemma outcome_known {A B} (I I' : world -> Prop) (c : M A) (a : A) (k : A -> M B)
    (Q : B -> world -> Prop) (E : exn -> world -> Prop) :
  (forall w, I w -> exists w', c w = (Val a, w') /\ I' w') ->
  outcome I' (k a) Q E ->
  outcome I (c ≫= k) Q E.
Proof.
  intros Hc Hk w Hw. rewrite run_bind.
  destruct (Hc w Hw) as (w' & -> & Hw'). now apply Hk.
Qed.

Lemma outcome_sure {A B} (I : world -> Prop) (I' : A -> world -> Prop) (c : M A)
    (k : A -> M B) (Q : B -> world -> Prop) (E : exn -> world -> Prop) :
  (forall w, I w -> exists a w', c w = (Val a, w') /\ I' a w') ->
  (forall a, outcome (I' a) (k a) Q E) ->
  outcome I (c ≫= k) Q E.
Proof.
  intros Hc Hk w Hw. rewrite run_bind.
  destruct (Hc w Hw) as (a & w' & -> & Hw'). now apply Hk.
Qed.

Lemma outcome_assoc {A B C} (I : world -> Prop) (c : M A) (k1 : A -> M B) (k : B -> M C)
    (Q : C -> world -> Prop) (E : exn -> world -> Prop) :
  outcome I (c ≫= fun a => k1 a ≫= k) Q E ->
  outcome I ((c ≫= k1) ≫= k) Q E.
Proof.
  intros Hc w Hw. specialize (Hc w Hw). rewrite !run_bind in *.
  destruct (c w) as [[a|e] w']; [|exact Hc]. now rewrite run_bind in Hc.
Qed.

Lemma outcome_raise {A B} (I : world -> Prop) (e : exn) (k : A -> M B)
    (Q : B -> world -> Prop) (E : exn -> world -> Prop) :
  (forall w, I w -> E e w) ->
  outcome I (lift (Raise e) ≫= k) Q E.
Proof. intros HE w Hw. rewrite run_bind. unfold lift. now apply HE. Qed.

Ltac shown I :=
  apply (outcome_known I I _ tt);
  [ intros ? ?; eexists; split; [reflexivity | auto] | ].

Section Reaching.

Context `{Json}.
Variable user : session.
Variable files : gmap string entry.
Variable rnd : list Z.
Variable now : spec_float.

Hypothesis Htopic : PyStr.truthy (input_topic user) = true.
Hypothesis Hfiles : forall x, x ∈ record_files files -> exists v, holds_json files x v.
Hypothesis Hcount : (4 <= spec_count (input_categories user) <= 7)%nat.

Lemma holding_stable (categories : loc) (entries : list string) :
  stable (fun _ => True) (holding files rnd now categories entries).
Proof.
  split.
  - intros w x _ Hw. exact Hw.
  - intros w l [Hready Hheap]. split; [exact Hready|].
    simpl. now apply lookup_app_l_Some.
Qed.

(** Past the category gate: what holds of the article step from every
    world that holds the user's entries holds of the run. *)
Lemma app_reaches_article (Q : unit -> world -> Prop) (E : exn -> world -> Prop) :
  (forall categories,
     outcome (holding files rnd now categories (input_categories user))
       (article_step user (input_topic user) categories) Q E) ->
  outcome (ready files rnd now) (app user) Q E.
Proof.
  intros Hstep. set (I := ready files rnd now).
  unfold app, markdown, text_input, categories_editor.
  do 2 shown I.
  apply outcome_assoc. shown I.
  apply (outcome_known I I _ (input_topic user)); [intros w Hw; now exists w|].
  do 2 shown I.
  apply (outcome_sure I (fun _ => I)).
  { intros w Hw. destruct (get_articles_data_run w) as (data & -> & _); [|now eexists _, _].
    rewrite (proj1 Hw). exact Hfiles. }
  intros data. shown I.
  rewrite Htopic. shown I.
  apply outcome_assoc. shown I.
  apply (outcome_sure I
           (fun categories => holding files rnd now categories (input_categories user))).
  { intros w Hw. eexists _, _. split; [reflexivity|].
    split; [exact Hw | apply lookup_fresh]. }
  intros categories.
  apply (outcome_known (holding files rnd now categories (input_categories user))
           (holding files rnd now categories (input_categories user)) _ true);
    [|apply Hstep].
  intros w [Hw Hheap]. rewrite (check_categories_run _ _ _ Hheap).
  replace (spec_count (input_categories user) <? 4)%nat with false
    by (symmetry; apply Nat.ltb_ge; lia).
  replace (7 <? spec_count (input_categories user))%nat with false
    by (symmetry; apply Nat.ltb_ge; lia).
  eexists. split; [reflexivity|]. split; [exact Hw|].
  simpl. now apply lookup_app_l_Some.
Qed.

Variable article_data : pyval.
Hypothesis Harticle : json_loads (input_article_data user) = Some article_data.
Hypothesis Htext : PyOp.contains "article_text" article_data = Val true.
Hypothesis Hmap :
  PyOp.contains "sensitive_category_to_instances" article_data = Val true.

Lemma accepted_is_truthy : Py.truthy article_data = true.
Proof.
  destruct article_data as [| | | |s|l|d]; try discriminate Htext; simpl in *.
  - destruct s; [discriminate Htext | reflexivity].
  - destruct l; [discriminate Htext | reflexivity].
  - destruct d; [discriminate Htext | reflexivity].
Qed.

(** Past the article gate. *)
Lemma app_reaches_qa (Q : unit -> world -> Prop) (E : exn -> world -> Prop) :
  (forall categories,
     outcome (holding files rnd now categories (input_categories user))
       (qa_step user article_data) Q E) ->
  outcome (ready files rnd now) (app user) Q E.
Proof.
  intros Hstep. apply app_reaches_article. intros categories.
  set (I := holding files rnd now categories (input_categories user)).
  unfold article_step, markdown, code, article_area.
  apply (outcome_sure I (fun _ => I)).
  { intros w Hw. rewrite (get_prompt_run _ (input_categories user)) by exact (proj2 Hw).
    now eexists _, _. }
  intros prompt. do 5 shown I.
  apply outcome_assoc. shown I.
  apply (outcome_known I I _ (input_article_data user)); [intros w Hw; now exists w|].
  apply (outcome_known I I _ article_data).
  { intros w Hw. exists w. split; [|exact Hw].
    rewrite (check_article_data_parsed _ _ _ Harticle). now rewrite Htext, Hmap. }
  rewrite accepted_is_truthy. apply Hstep.
Qed.

(** The Q&A step on an accepted value that is no dictionary. *)
Lemma qa_step_needs_dict (I : world -> Prop) :
  stable (fun _ => True) I ->
  (forall d, article_data <> PDict d) ->
  outcome I (qa_step user article_data) (fun _ _ => False)
    (fun e w => e = TypeError /\ I w).
Proof.
  intros [Hpage _] Hnot.
  assert (Hrender : forall x w, I w -> I (set_page (fun p => p ++ [x]) w)) by auto.
  unfold qa_step, markdown.
  do 2 shown I.
  replace (PyOp.getitem article_data "article_text") with (@Raise pyval TypeError).
  - now apply outcome_raise.
  - destruct article_data; try reflexivity. now destruct (Hnot d).
Qed.

(** X14. An accepted article text that is not a JSON object stops the run
    at the next step: when the pasted text parses to a string or a list that
    passes both [in] tests, the run raises [TypeError] on
    [article_data['article_text']] and saves nothing. *)
Theorem accepted_non_object_raises :
  (forall d, article_data <> PDict d) ->
  exists w,
    run user files rnd now = (Raise TypeError, w) /\ cwd w = files.
Proof.
  intros Hnot. unfold run.
  assert (Hrun : outcome (ready files rnd now) (app user) (fun _ _ => False)
                   (fun e w => e = TypeError /\ cwd w = files)).
  { apply app_reaches_qa. intros categories w Hw.
    pose proof (qa_step_needs_dict _ (holding_stable categories (input_categories user))
                  Hnot w Hw) as Hstep.
    destruct (qa_step user article_data w) as [[[]|e] w']; [exact Hstep|].
    destruct Hstep as [-> [[Hcwd _] _]]. now split. }
  specialize (Hrun (World [] [] files rnd now)).
  destruct (app user _) as [[[]|e] w].
  - destruct Hrun. now repeat split.
  - destruct Hrun as [-> Hcwd]; [now repeat split|]. now exists w.
Qed.

End Reaching.

Lemma spread_raises (extra : pydict) (l : list pyval) (w : world) :
  Exists not_dict l ->
  comprehension (fun x => lift (PyOp.spread x extra)) l w = (Raise TypeError, w).
Proof.
  induction l as [|x l IH]; intros Hex; [now apply Exists_nil in Hex|].
  cbn [comprehension]. rewrite run_bind. unfold lift at 1.
  destruct x; try reflexivity.
  apply Exists_cons in Hex as [[]|Hex].
  simpl PyOp.spread. cbv beta iota. rewrite run_bind, (IH Hex). reflexivity.
Qed.

Section ReachingAnnotation.

Context `{Json}.
Variable user : session.
Variable files : gmap string entry.
Variable rnd : list Z.
Variable now : spec_float.

Hypothesis Htopic : PyStr.truthy (input_topic user) = true.
Hypothesis Hfiles : forall x, x ∈ record_files files -> exists v, holds_json files x v.
Hypothesis Hcount : (4 <= spec_count (input_categories user) <= 7)%nat.

Variable article_data : pyval.
Hypothesis Harticle : json_loads (input_article_data user) = Some article_data.
Hypothesis Harticle_shape : article article_data.

Variable l : list pyval.
Hypothesis Hqas : json_loads (input_qa_data user) = Some (PList l).
Hypothesis Hcontainers : ~ Exists scalar l.
Hypothesis Htexts : forallb has_texts l = true.
Hypothesis Hsome : l <> [].

(** Past the Q&A gate. *)
Lemma app_reaches_annotation (Q : unit -> world -> Prop) (E : exn -> world -> Prop) :
  (forall categories,
     outcome (holding files rnd now categories (input_categories user))
       (annotation_step user article_data (PList l)) Q E) ->
  outcome (ready files rnd now) (app user) Q E.
Proof.
  intros Hstep.
  pose proof Harticle_shape as (d & text & Hd & Htext & Hindex).
  apply (app_reaches_qa user files rnd now Htopic Hfiles Hcount article_data Harticle).
  { rewrite Hd. simpl. now rewrite (dict_get_has _ _ _ Htext). }
  { rewrite Hd. simpl. now rewrite Hindex. }
  intros categories.
  set (I := holding files rnd now categories (input_categories user)).
  unfold qa_step, markdown, code, qa_area.
  do 2 shown I.
  apply (outcome_known I I _ (PStr text)).
  { intros w Hw. exists w. split; [|exact Hw]. rewrite Hd. unfold lift. simpl.
    now rewrite Htext. }
  apply (outcome_sure I (fun _ => I)); [intros w Hw; now eexists _, _|].
  intros prompt. do 3 shown I.
  apply outcome_assoc. shown I.
  apply (outcome_known I I _ (input_qa_data user)); [intros w Hw; now exists w|].
  apply (outcome_known I I _ (PList l)).
  { intros w Hw. exists w. split; [|exact Hw].
    rewrite (check_qa_data_parsed _ _ _ Hqas).
    rewrite decide_False by exact Hcontainers. now rewrite Htexts. }
  replace (Py.truthy (PList l)) with true by (destruct l; [contradiction | reflexivity]).
  apply Hstep.
Qed.

(** X15. An accepted Q&A list with an element that is not a JSON object
    stops the run at the annotation step: the list passes [check_qa_data]
    when each element is a string or a list that passes both [in] tests, and
    then [{**qa_pair, ...}] raises [TypeError]; nothing is saved. *)
Theorem accepted_non_object_pair_raises :
  Exists not_dict l ->
  exists w,
    run user files rnd now = (Raise TypeError, w) /\ cwd w = files.
Proof.
  intros Hbad. unfold run.
  pose proof Harticle_shape as (d & text & Hd & Htext & Hindex).
  destruct (dict_has_get _ _ Hindex) as (index & Hget).
  assert (Hrun : outcome (ready files rnd now) (app user) (fun _ _ => False)
                   (fun e w => e = TypeError /\ cwd w = files)).
  { apply app_reaches_annotation. intros categories.
    set (I := holding files rnd now categories (input_categories user)).
    unfold annotation_step, markdown.
    do 4 shown I.
    apply (outcome_known I I _ index).
    { intros w Hw. exists w. split; [|exact Hw]. rewrite Hd. unfold lift. simpl.
      now rewrite Hget. }
    shown I.
    apply (outcome_known I I _ l); [intros w Hw; now exists w|].
    intros w Hw. rewrite run_bind, (spread_raises _ _ _ Hbad).
    split; [reflexivity | exact (proj1 (proj1 Hw))]. }
  specialize (Hrun (World [] [] files rnd now)).
  destruct (app user _) as [[[]|e] w].
  - destruct Hrun. now repeat split.
  - destruct Hrun as [-> Hcwd]; [now repeat split|]. now exists w.
Qed.

End ReachingAnnotation.

(** ** Refusals *)

Section Refusals.

Context `{Json}.
Variable user : session.
Variable files : gmap string entry.
Variable rnd : list Z.
Variable now : spec_float.

Hypothesis Htopic : PyStr.truthy (input_topic user) = true.
Hypothesis Hfiles : forall x, x ∈ record_files files -> exists v, holds_json files x v.

(** X16. Categories that the validator refuses stop the run at the category
    gate: the run returns, its page is the header, the download button, the
    request for categories, the editor and the message, and the directory is
    as it was. *)
Theorem refused_categories_stop_run :
  ~ (4 <= spec_count (input_categories user) <= 7)%nat ->
  exists bytes w,
    run user files rnd now = (Val tt, w) /\
    page w = page_at_categories (input_topic user) bytes
             ++ category_report (spec_count (input_categories user)) /\
    category_report (spec_count (input_categories user)) <> [] /\
    cwd w = files.
Proof.
  intros Hcount. unfold run, app, markdown, text_input, categories_editor.
  do 2 (rewrite run_bind; unfold render at 1; cbv beta iota).
  rewrite run_bind, run_bind. unfold render at 1. cbv beta iota. rewrite run_ret.
  do 2 (rewrite run_bind; unfold render at 1; cbv beta iota).
  rewrite run_bind.
  match goal with |- context [get_articles_data ?w] =>
    destruct (get_articles_data_run w) as (data & -> & _); [exact Hfiles|] end.
  exists (PyStr.encode_utf8 (json_dumps None (PList data))).
  rewrite run_bind. unfold render at 1. cbv beta iota.
  rewrite Htopic.
  rewrite run_bind. unfold render at 1. cbv beta iota.
  rewrite run_bind, run_bind. unfold render at 1. cbv beta iota.
  unfold alloc at 1. cbv beta iota.
  rewrite run_bind.
  match goal with |- context [check_categories ?c ?w] =>
    rewrite (check_categories_run w c (input_categories user)) by reflexivity end.
  unfold category_report.
  destruct (spec_count (input_categories user) <? 4)%nat eqn:Hlo;
    [|destruct (7 <? spec_count (input_categories user))%nat eqn:Hhi].
  - eexists. split; [reflexivity|]. split; [reflexivity|]. split; [discriminate | reflexivity].
  - eexists. split; [reflexivity|]. split; [reflexivity|]. split; [discriminate | reflexivity].
  - apply Nat.ltb_ge in Hlo, Hhi. lia.
Qed.

End Refusals.

Section GateRefusals.

Context `{Json}.
Variable user : session.
Variable files : gmap string entry.
Variable rnd : list Z.
Variable now : spec_float.

Hypothesis Htopic : PyStr.truthy (input_topic user) = true.
Hypothesis Hfiles : forall x, x ∈ record_files files -> exists v, holds_json files x v.
Hypothesis Hcount : (4 <= spec_count (input_categories user) <= 7)%nat.

Lemma article_refusal_run (raw msg : string) (w : world) :
  article_refusal raw = Some msg ->
  check_article_data raw w = (Val PFalse, reported msg w).
Proof.
  unfold article_refusal. intros Hmsg.
  destruct (json_loads raw) as [v|] eqn:Hraw.
  - rewrite (check_article_data_parsed _ _ _ Hraw).
    destruct (PyOp.contains "article_text" v) as [[|]|e];
      [destruct (PyOp.contains "sensitive_category_to_instances" v) as [[|]|e]| |];
      simplify_eq; reflexivity.
  - rewrite (check_article_data_invalid _ _ Hraw). now simplify_eq.
Qed.

Lemma qa_refusal_run (raw msg : string) (w : world) :
  qa_refusal raw = Some msg ->
  check_qa_data raw w = (Val PFalse, reported msg w).
Proof.
  unfold qa_refusal. intros Hmsg.
  destruct (json_loads raw) as [v|] eqn:Hraw.
  - rewrite (check_qa_data_parsed _ _ _ Hraw).
    destruct v; simplify_eq; try reflexivity.
    destruct (decide (Exists scalar l)); [discriminate|].
    destruct (forallb has_texts l); now simplify_eq.
  - rewrite (check_qa_data_invalid _ _ Hraw). now simplify_eq.
Qed.

Lemma run_outcome (Q : world -> Prop) :
  outcome (ready files rnd now) (app user) (fun _ => Q) (fun _ _ => False) ->
  exists w, run user files rnd now = (Val tt, w) /\ Q w.
Proof.
  intros Hrun. unfold run. specialize (Hrun (World [] [] files rnd now)).
  destruct (app user _) as [[[]|e] w].
  - exists w. split; [reflexivity|]. apply Hrun. now repeat split.
  - destruct Hrun. now repeat split.
Qed.

(** X17. An article text that [check_article_data] refuses stops the run at
    the article gate: the run returns, the last thing on its page is the
    message of the refusal (invalid JSON, missing article text, or missing
    mapping, in that order of precedence), and the directory is as it was. *)
Theorem refused_article_stops_run (msg : string) :
  article_refusal (input_article_data user) = Some msg ->
  exists w,
    run user files rnd now = (Val tt, w) /\ (ends_with msg w /\ cwd w = files).
Proof.
  intros Hmsg. apply run_outcome.
  apply (app_reaches_article user files rnd now Htopic Hfiles Hcount). intros categories.
  set (I := holding files rnd now categories (input_categories user)).
  unfold article_step, markdown, code, article_area.
  apply (outcome_sure I (fun _ => I)).
  { intros w Hw. rewrite (get_prompt_run _ (input_categories user)) by exact (proj2 Hw).
    now eexists _, _. }
  intros prompt. do 5 shown I.
  apply outcome_assoc. shown I.
  apply (outcome_known I I _ (input_article_data user)); [intros w Hw; now exists w|].
  intros w Hw. rewrite run_bind, (article_refusal_run _ _ _ Hmsg).
  simpl. split; [now exists (page w) | exact (proj1 (proj1 Hw))].
Qed.

Variable article_data : pyval.
Hypothesis Harticle : json_loads (input_article_data user) = Some article_data.
Hypothesis Harticle_shape : article article_data.

(** X18. A Q&A text that [check_qa_data] refuses stops the run at the Q&A
    gate: the run returns, the last thing on its page is the message of the
    refusal (invalid JSON, not a list, or an incomplete pair), and the
    directory is as it was. *)
Theorem refused_qa_stops_run (msg : string) :
  qa_refusal (input_qa_data user) = Some msg ->
  exists w,
    run user files rnd now = (Val tt, w) /\ (ends_with msg w /\ cwd w = files).
Proof.
  intros Hmsg. apply run_outcome.
  pose proof Harticle_shape as (d & text & Hd & Htext & Hindex).
  apply (app_reaches_qa user files rnd now Htopic Hfiles Hcount article_data Harticle).
  { rewrite Hd. simpl. now rewrite (dict_get_has _ _ _ Htext). }
  { rewrite Hd. simpl. now rewrite Hindex. }
  intros categories.
  set (I := holding files rnd now categories (input_categories user)).
  unfold qa_step, markdown, code, qa_area.
  do 2 shown I.
  apply (outcome_known I I _ (PStr text)).
  { intros w Hw. exists w. split; [|exact Hw]. rewrite Hd. unfold lift. simpl.
    now rewrite Htext. }
  apply (outcome_sure I (fun _ => I)); [intros w Hw; now eexists _, _|].
  intros prompt. do 3 shown I.
  apply outcome_assoc. shown I.
  apply (outcome_known I I _ (input_qa_data user)); [intros w Hw; now exists w|].
  intros w Hw. rewrite run_bind, (qa_refusal_run _ _ _ Hmsg).
  simpl. split; [now exists (page w) | exact (proj1 (proj1 Hw))].
Qed.

Variable l : list pyval.
Hypothesis Hqas : json_loads (input_qa_data user) = Some (PList l).
Hypothesis Hpairs : Forall qa_pair l.
Hypothesis Hsome : l <> [].

(** X19. Metadata without a truthy [LLM] stop the run at the metadata gate:
    after an accepted article and accepted Q&A pairs, the run returns, the
    last thing on its page is the message that asks for the LLM name, and
    the directory is as it was, whether or not Submit would have been
    pressed. *)
Theorem refused_metadata_stops_run :
  ~ names_llm (input_metadata user) ->
  exists w,
    run user files rnd now = (Val tt, w) /\ (ends_with no_llm w /\ cwd w = files).
Proof.
  intros Hllm. apply run_outcome.
  pose proof Harticle_shape as (d & text & Hd & Htext & Hindex).
  destruct (dict_has_get _ _ Hindex) as (index & Hget).
  apply (app_reaches_annotation user files rnd now Htopic Hfiles Hcount
           article_data Harticle Harticle_shape l Hqas);
    [now apply qa_pair_not_scalar | now apply qa_pair_has_texts | exact Hsome |].
  intros categories.
  set (I := holding files rnd now categories (input_categories user)).
  destruct l as [|q qs]; [contradiction|].
  pose proof Hpairs as Hq. apply Forall_cons in Hq as [(dq' & -> & _) _].
  unfold annotation_step, markdown, qa_editor, metadata_editor.
  do 4 shown I.
  apply (outcome_known I I _ index).
  { intros w Hw. exists w. split; [|exact Hw]. rewrite Hd. unfold lift. simpl.
    now rewrite Hget. }
  shown I.
  apply (outcome_known I I _ (PDict dq' :: qs)); [intros w Hw; now exists w|].
  apply (outcome_sure I (fun _ => I)).
  { intros w Hw. destruct (spread_pairs
      [("completeness_keywords", PStr ""); ("relevant_sensitive_categories", PStr "")]
      (PDict dq' :: qs) w Hpairs) as (rows & ->). now eexists _, _. }
  intros rows.
  apply (outcome_known I I _ (PDict dq')); [intros w Hw; now exists w|].
  apply (outcome_known I I _ (Py.dict_keys dq')); [intros w Hw; now exists w|].
  apply outcome_assoc. shown I.
  apply (outcome_known I I _ (input_edited_qas user)); [intros w Hw; now exists w|].
  do 2 shown I.
  apply outcome_assoc. shown I.
  apply (outcome_known I I _ (input_metadata user)); [intros w Hw; now exists w|].
  intros w Hw. rewrite run_bind.
  assert (Hcheck : check_metadata (input_metadata user) w = (Val PFalse, reported no_llm w)).
  { unfold check_metadata.
    destruct (Py.dict_get "LLM" (input_metadata user)) as [v|] eqn:Hv; simpl.
    - destruct (Py.truthy v) eqn:Htruthy; [|reflexivity].
      destruct Hllm. now exists v.
    - reflexivity. }
  rewrite Hcheck. simpl. split; [now exists (page w) | exact (proj1 (proj1 Hw))].
Qed.

End GateRefusals.

Section ArticleText.

Context `{Json}.
Variable user : session.
Variable files : gmap string entry.
Variable rnd : list Z.
Variable now : spec_float.

Hypothesis Htopic : PyStr.truthy (input_topic user) = true.
Hypothesis Hfiles : forall x, x ∈ record_files files -> exists v, holds_json files x v.
Hypothesis Hcount : (4 <= spec_count (input_categories user) <= 7)%nat.

Variable d : pydict.
Variable x : pyval.
Hypothesis Harticle : json_loads (input_article_data user) = Some (PDict d).
Hypothesis Htext : Py.dict_get "article_text" d = Some x.
Hypothesis Hmap : Py.dict_has "sensitive_category_to_instances" d = true.

(** X20. An accepted article whose [article_text] is not a string stops the
    run at the Q&A prompt: the validator looks at the keys only, and then
    [build_qa_prompt] raises [TypeError] when it joins its text with the
    value; nothing is saved. *)
Theorem non_string_article_text_raises :
  (forall s, x <> PStr s) ->
  exists w,
    run user files rnd now = (Raise TypeError, w) /\ cwd w = files.
Proof.
  intros Hnot. unfold run.
  assert (Hrun : outcome (ready files rnd now) (app user) (fun _ _ => False)
                   (fun e w => e = TypeError /\ cwd w = files)).
  { apply (app_reaches_qa user files rnd now Htopic Hfiles Hcount (PDict d) Harticle).
    { simpl. now rewrite (dict_get_has _ _ _ Htext). }
    { simpl. now rewrite Hmap. }
    intros categories.
    set (I := holding files rnd now categories (input_categories user)).
    unfold qa_step, markdown.
    do 2 shown I.
    apply (outcome_known I I _ x).
    { intros w Hw. exists w. split; [|exact Hw]. unfold lift. simpl. now rewrite Htext. }
    replace (build_qa_prompt x 10) with (@Raise string TypeError).
    - apply outcome_raise. intros w Hw. split; [reflexivity | exact (proj1 (proj1 Hw))].
    - destruct x; try reflexivity. now destruct (Hnot s). }
  specialize (Hrun (World [] [] files rnd now)).
  destruct (app user _) as [[[]|e] w].
  - destruct Hrun. now repeat split.
  - destruct Hrun as [-> Hcwd]; [now repeat split|]. now exists w.
Qed.

End ArticleText.

(** ** The results above at sample inputs *)

Lemma no_record_files_hold_json `{Json} :
  forall x, x ∈ record_files (∅ : gmap string entry) ->
    exists v, holds_json (∅ : gmap string entry) x v.
Proof.
  intros x Hx. change (record_files (∅ : gmap string entry)) with (@nil string) in Hx.
  now apply elem_of_nil in Hx.
Qed.

Lemma sample_article_shape : article Sample.article_data.
Proof.
  exists [("article_text", PStr "...");
          ("sensitive_category_to_instances", PDict [("Names", PList [PStr "John"])])],
         "...".
  repeat split.
Qed.

Lemma check_categories_same_labels_witness :
  fst (check_categories 0%nat Sample.world1) = fst (check_categories 1%nat Cases.world2) /\
  exists report,
    page (snd (check_categories 0%nat Sample.world1)) = page Sample.world1 ++ report /\
    page (snd (check_categories 1%nat Cases.world2)) = page Cases.world2 ++ report.
Proof.
  apply (check_categories_same_labels Sample.world1 Cases.world2 0%nat 1%nat
           Sample.entries Cases.reordered_entries); [reflexivity | reflexivity |].
  intros x.
  change (spec_labels Sample.entries) with ["Names"; "Dates"; "Diagnoses"].
  change (spec_labels Cases.reordered_entries) with ["Dates"; "Names"; "Diagnoses"].
  rewrite !elem_of_cons, !elem_of_nil. tauto.
Defined.

Lemma accepted_article_data_witness :
  json_loads Sample.string_naming_keys
    = Some (PStr "article_text sensitive_category_to_instances") /\
  PyOp.contains "article_text" (PStr "article_text sensitive_category_to_instances")
    = Val true /\
  PyOp.contains "sensitive_category_to_instances"
    (PStr "article_text sensitive_category_to_instances") = Val true /\
  Sample.world0 = Sample.world0.
Proof.
  apply (accepted_article_data Sample.string_naming_keys
           (PStr "article_text sensitive_category_to_instances")
           Sample.world0 Sample.world0); reflexivity.
Defined.

Lemma accepted_qa_data_witness :
  exists l,
    Sample.qas = PList l /\ l <> [] /\
    json_loads (input_qa_data Sample.user_submitting) = Some Sample.qas /\
    Forall (fun x => has_texts x = true) l /\
    Sample.world0 = Sample.world0.
Proof.
  apply (accepted_qa_data (input_qa_data Sample.user_submitting) Sample.qas
           Sample.world0 Sample.world0); reflexivity.
Defined.

Lemma corrupt_record_blocks_app_witness :
  exists e,
    run Sample.user_submitting Cases.corrupt_directory [7] Sample.half_past_midnight
      = (Raise e, at_export Cases.corrupt_directory [7] Sample.half_past_midnight).
Proof.
  apply (corrupt_record_blocks_app Sample.user_submitting Cases.corrupt_directory [7]
           Sample.half_past_midnight).
  exists "annotated-synthetic-article1.json". split.
  - change (record_files Cases.corrupt_directory)
      with ["annotated-synthetic-article1.json"].
    apply elem_of_cons. now left.
  - intros [v [text [Hfile Hparse]]].
    change (Some (File "not json") = Some (File text)) in Hfile.
    injection Hfile as <-. discriminate Hparse.
Defined.

Lemma no_topic_stops_after_sidebar_witness :
  PyStr.truthy (input_topic Cases.user_without_topic) = false /\
  run Cases.user_without_topic Sample.directory [] Sample.half_past_midnight =
    match fst (get_articles_data (at_export Sample.directory [] Sample.half_past_midnight)) with
    | Val data =>
        (Val tt, set_page (fun p => p ++ [download data])
                   (at_export Sample.directory [] Sample.half_past_midnight))
    | Raise e => (Raise e, at_export Sample.directory [] Sample.half_past_midnight)
    end.
Proof.
  split; [reflexivity|].
  apply (no_topic_stops_after_sidebar Cases.user_without_topic Sample.directory []
           Sample.half_past_midnight).
  reflexivity.
Defined.

Lemma second_save_overwrites_witness :
  exists w',
    (save_article_data Cases.first_record;; save_article_data Cases.second_record)
      Cases.world_colliding = (Val tt, w') /\
    cwd w' = <[record_name (7 mod 10001) :=
                 File (json_dumps None Cases.second_record)]> (cwd Cases.world_colliding) /\
    entropy w' = [3].
Proof.
  apply (second_save_overwrites Cases.first_record Cases.second_record
           Cases.world_colliding 7 10008 [3]).
  - reflexivity.
  - reflexivity.
  - simpl. rewrite lookup_empty. discriminate.
Defined.

Lemma saved_record_is_exported_witness :
  exists exported,
    get_articles_data (snd (save_article_data Sample.article_data Sample.world_dir))
      = (Val (PyStr.encode_utf8 (json_dumps None (PList exported))),
         snd (save_article_data Sample.article_data Sample.world_dir)) /\
    length exported
      = length (record_files
                  (cwd (snd (save_article_data Sample.article_data Sample.world_dir)))) /\
    Sample.article_data ∈ exported.
Proof.
  apply (saved_record_is_exported Sample.article_data Sample.world_dir).
  - intros x Hx.
    change (record_files (cwd Sample.world_dir))
      with ["annotated-synthetic-article7.json"; "annotated-synthetic-article42.json"] in Hx.
    apply list_elem_of_In in Hx. destruct Hx as [<-|[<-|[]]].
    + exists (PDict []). exists "{}". split; reflexivity.
    + exists (PList [PInt 1; PInt 2]). exists "[1, 2]". split; reflexivity.
  - reflexivity.
  - reflexivity.
Defined.

Lemma run_spares_other_files_witness :
  cwd (snd (run Sample.user_submitting Sample.directory [7] Sample.half_past_midnight))
    !! "notes.txt" = Sample.directory !! "notes.txt" /\
  (forall y, is_Some (Sample.directory !! y) ->
     is_Some (cwd (snd (run Sample.user_submitting Sample.directory [7]
                          Sample.half_past_midnight)) !! y)) /\
  (size (cwd (snd (run Sample.user_submitting Sample.directory [7%Z]
                     Sample.half_past_midnight)))
   <= S (size Sample.directory))%nat.
Proof.
  apply (run_spares_other_files Sample.user_submitting Sample.directory
           Sample.half_past_midnight [7] "notes.txt").
  reflexivity.
Defined.

Lemma valid_submission_is_saved_witness :
  exists w,
    run Sample.user_submitting ∅ [7] Sample.half_past_midnight = (Val tt, w) /\
    cwd w = submitted Sample.user_submitting ∅ [7] Sample.half_past_midnight
              Sample.article_data Sample.qas.
Proof.
  apply (valid_submission_is_saved Sample.user_submitting ∅ [7] Sample.half_past_midnight).
  - exists (PStr "gpt-x"). split; reflexivity.
  - reflexivity.
  - rewrite lookup_empty. discriminate.
  - reflexivity.
  - exact sample_article_shape.
  - reflexivity.
  - exists [PDict [("question_text", PStr "Q1"); ("answer_text", PStr "A1")]].
    split; [reflexivity|]. split; [discriminate|].
    constructor; [|constructor].
    exists [("question_text", PStr "Q1"); ("answer_text", PStr "A1")]. repeat split.
  - reflexivity.
  - exact no_record_files_hold_json.
  - change (spec_count (input_categories Sample.user_submitting)) with 4%nat. lia.
Defined.

Lemma accepted_non_object_raises_witness :
  exists w,
    run Cases.user_pasting_string ∅ [] Sample.half_past_midnight = (Raise TypeError, w) /\
    cwd w = ∅.
Proof.
  apply (accepted_non_object_raises Cases.user_pasting_string ∅ []
           Sample.half_past_midnight)
    with (article_data := PStr "article_text sensitive_category_to_instances").
  - reflexivity.
  - exact no_record_files_hold_json.
  - change (spec_count (input_categories Cases.user_pasting_string)) with 4%nat. lia.
  - reflexivity.
  - reflexivity.
  - reflexivity.
  - discriminate.
Defined.

Lemma accepted_non_object_pair_raises_witness :
  exists w,
    run Cases.user_pasting_string_pair ∅ [] Sample.half_past_midnight
      = (Raise TypeError, w) /\
    cwd w = ∅.
Proof.
  apply (accepted_non_object_pair_raises Cases.user_pasting_string_pair ∅ []
           Sample.half_past_midnight)
    with (article_data := Sample.article_data) (l := [PStr "question_text answer_text"]).
  - reflexivity.
  - exact no_record_files_hold_json.
  - change (spec_count (input_categories Cases.user_pasting_string_pair)) with 4%nat. lia.
  - reflexivity.
  - exact sample_article_shape.
  - reflexivity.
  - intros Hscalar. apply Exists_cons in Hscalar as [Hscalar|Hscalar].
    + exact Hscalar.
    + now apply Exists_nil in Hscalar.
  - reflexivity.
  - discriminate.
  - constructor. exact Logic.I.
Defined.

Lemma refused_categories_stop_run_witness :
  exists bytes w,
    run Cases.user_two_categories ∅ [] Sample.half_past_midnight = (Val tt, w) /\
    page w = page_at_categories (input_topic Cases.user_two_categories) bytes
             ++ category_report (spec_count (input_categories Cases.user_two_categories)) /\
    category_report (spec_count (input_categories Cases.user_two_categories)) <> [] /\
    cwd w = ∅.
Proof.
  apply (refused_categories_stop_run Cases.user_two_categories ∅ []
           Sample.half_past_midnight).
  - reflexivity.
  - exact no_record_files_hold_json.
  - change (spec_count (input_categories Cases.user_two_categories)) with 2%nat. lia.
Defined.

Lemma refused_article_stops_run_witness :
  exists w,
    run Cases.user_pasting_text_only ∅ [] Sample.half_past_midnight = (Val tt, w) /\
    (ends_with no_mapping w /\ cwd w = ∅).
Proof.
  apply (refused_article_stops_run Cases.user_pasting_text_only ∅ []
           Sample.half_past_midnight).
  - reflexivity.
  - exact no_record_files_hold_json.
  - change (spec_count (input_categories Cases.user_pasting_text_only)) with 4%nat. lia.
  - reflexivity.
Defined.

Lemma refused_qa_stops_run_witness :
  exists w,
    run Cases.user_pasting_object ∅ [] Sample.half_past_midnight = (Val tt, w) /\
    (ends_with not_a_list w /\ cwd w = ∅).
Proof.
  apply (refused_qa_stops_run Cases.user_pasting_object ∅ []
           Sample.half_past_midnight)
    with (article_data := Sample.article_data).
  - reflexivity.
  - exact no_record_files_hold_json.
  - change (spec_count (input_categories Cases.user_pasting_object)) with 4%nat. lia.
  - reflexivity.
  - exact sample_article_shape.
  - reflexivity.
Defined.

Lemma refused_metadata_stops_run_witness :
  exists w,
    run Cases.user_without_llm ∅ [] Sample.half_past_midnight = (Val tt, w) /\
    (ends_with no_llm w /\ cwd w = ∅).
Proof.
  apply (refused_metadata_stops_run Cases.user_without_llm ∅ []
           Sample.half_past_midnight)
    with (article_data := Sample.article_data)
         (l := [PDict [("question_text", PStr "Q1"); ("answer_text", PStr "A1")]]).
  - reflexivity.
  - exact no_record_files_hold_json.
  - change (spec_count (input_categories Cases.user_without_llm)) with 4%nat. lia.
  - reflexivity.
  - exact sample_article_shape.
  - reflexivity.
  - constructor; [|constructor].
    exists [("question_text", PStr "Q1"); ("answer_text", PStr "A1")]. repeat split.
  - discriminate.
  - intros [v [Hget _]]. discriminate Hget.
Defined.

Lemma non_string_article_text_raises_witness :
  exists w,
    run Cases.user_pasting_number_as_text ∅ [] Sample.half_past_midnight
      = (Raise TypeError, w) /\
    cwd w = ∅.
Proof.
  apply (non_string_article_text_raises Cases.user_pasting_number_as_text ∅ []
           Sample.half_past_midnight)
    with (d := Cases.article_with_number) (x := PInt 5).
  - reflexivity.
  - exact no_record_files_hold_json.
  - change (spec_count (input_categories Cases.user_pasting_number_as_text)) with 4%nat. lia.
  - reflexivity.
  - reflexivity.
  - reflexivity.
  - discriminate.
Defined.
